(** * Chaos engineering framework for databases: model and properties

    A shallow embedding of [src/chaos_framework.py].  The program drives a
    PostgreSQL target through the psycopg2 driver, reads two clocks and the
    global random generator, and keeps its results in a [ChaosFramework]
    object.  Here every interaction with the outside world is answered by an
    environment of oracles, so that a statement quantified over the
    environment covers every behaviour of the target, the clocks and the
    random source.

    Python floats are modelled by exact rationals ([Q]).  The score of the
    report is also evaluated as the program evaluates it, in binary64 with
    the primitive floats of the kernel ([Binary64]): its value can differ
    from the exact one by the rounding of the division and of the
    multiplication; for every registry of up to two hundred experiments
    the difference is at most one part in 2^52 and the assessment is the
    same.

    Left out: the banners and the log lines that carry no data, the
    [autocommit] flag, and the formatting of numbers inside the observation
    texts (an observation keeps the number it formats).  The calls that
    close a cursor or a connection do not raise. *)

From Stdlib Require Import ZArith QArith Qabs Lia List.
From Stdlib Require PrimFloat FloatOps SpecFloat.
From stdpp Require Import base gmap sets strings.

Import ListNotations.
#[local] Set Warnings "-clear-no-such-hyp".
Local Open Scope string_scope.
Local Open Scope list_scope.

(** ** Exceptions and results *)

(** The exceptions that can travel through the program. *)
Inductive Exn : Type :=
| DbError (msg : string)      (* psycopg2.Error: raised by a driver call *)
| AttributeError              (* attribute access on None *)
| KeyError (key : string)     (* missing dictionary key *)
| TypeError                   (* arithmetic on None *)
| ZeroDivisionError.          (* float division by zero *)

Inductive Result (A : Type) : Type :=
| Ok (a : A)
| Raise (e : Exn).
Arguments Ok {A} a.
Arguments Raise {A} e.

(** ** The target database as seen through the driver *)

(** The statements the program sends, one constructor per SQL text. *)
Inductive Sql : Type :=
| SqlProvision        (* CREATE TABLE IF NOT EXISTS test_data ...; INSERT ... *)
| SqlCountRows        (* SELECT COUNT( * ) FROM test_data *)
| SqlCountActivity    (* SELECT count( * ) FROM pg_stat_activity *)
| SqlCrossJoin        (* SELECT COUNT( * ) FROM test_data t1 CROSS JOIN test_data t2 LIMIT 100000 *)
| SqlPgSleep2         (* SELECT pg_sleep(2) *)
| SqlSelectOne        (* SELECT 1 *)
| SqlSelectOneByZero. (* SELECT 1/0 *)

(** The driver calls that can raise. *)
Inductive DbCall : Type :=
| Connect (connect_timeout : option nat)  (* psycopg2.connect(...) *)
| Cursor                                  (* conn.cursor() *)
| Execute (q : Sql)                       (* cursor.execute(q) *)
| FetchOne                                (* cursor.fetchone() *)
| FetchAll.                               (* cursor.fetchall() *)

(** Messages of the logger that carry data used below. *)
Inductive LogMsg : Type :=
| LogConnected
| LogConnectionFailed (e : Exn)
| LogRecovery (recovery_time : Q) (attempts : nat).

(** Everything the program does to, or reads from, the outside world. *)
Inductive Event : Type :=
| EvDb (c : DbCall) (err : option string)  (* a driver call and its outcome *)
| EvConnClose (sid : nat)                  (* conn.close() *)
| EvCursorClose                            (* cursor.close() *)
| EvNow (t : Z)                            (* datetime.now() *)
| EvTime (t : Q)                           (* time.time() *)
| EvRandom (r : Q)                         (* random.random() *)
| EvSleep (ms : nat)                       (* time.sleep(ms / 1000) *)
| EvLog (m : LogMsg)
| EvReportSummary (total completed failed : nat)
    (* print: Total Experiments, Completed, Failed *)
| EvReportAssessment (score : Q) (assessment : string).
    (* print: Resilience Score, Assessment *)

(** The environment: how the outside world answers.  The driver and the
    clocks are indexed by the number of events that happened before the
    call, so an answer may depend on the moment it is asked for; the random
    stream is indexed by the number of earlier draws.  The only value the
    program reads from a row it fetches is the count of pg_stat_activity. *)
Record Env : Type := {
  db_outcome : nat -> DbCall -> option string; (* None: the call succeeds *)
  wall_clock : nat -> Z;                       (* datetime.now(), microseconds *)
  timer : nat -> Q;                            (* time.time(), seconds *)
  rand : nat -> Q;                             (* the stream of random.random() *)
  activity_count : nat -> nat                  (* the count of pg_stat_activity, as fetched *)
}.

(** The state of the global random generator is its position in the
    stream: the number of draws made so far. *)
Definition is_draw (ev : Event) : bool :=
  match ev with EvRandom _ => true | _ => false end.

Definition draws (tr : list Event) : nat := length (List.filter is_draw tr).

(** ** Data model of the program *)

Inductive Outcome : Type :=
| Completed   (* "completed" *)
| Failed.     (* "failed" *)

(** The texts appended to [observations], with the values they format. *)
Inductive Observation : Type :=
| ObsCpuQueryExecuted                      (* "CPU-intensive query executed" *)
| ObsError (e : Exn)                       (* "Error: {e}" *)
| ObsCreatedConnections (n : nat)          (* "Created {n} connections" *)
| ObsExtraSucceeded                        (* "Additional connection succeeded" *)
| ObsExtraBlocked                          (* "Additional connection blocked (expected)" *)
| ObsLatencyDuringChaos (latency : Q)      (* "Query latency during chaos: {latency:.2f}ms" *)
| ObsBaselineLatency (latency : Q)         (* "Baseline latency: {latency:.2f}ms" *)
| ObsDegradation (degradation : Q)         (* "Performance degradation: {degradation:.1f}%" *)
| ObsCounts (success failure : nat).       (* "Success: {s}, Failures: {f}" *)

(** class ChaosExperiment; [None] is Python's None. *)
Record ChaosExperiment : Type := {
  name : string;
  description : string;
  blast_radius : string;
  start_time : option Z;
  end_time : option Z;
  result : option Outcome;
  observations : list Observation
}.

(** ChaosExperiment.__init__ *)
Definition new_experiment (n d b : string) : ChaosExperiment :=
  {| name := n; description := d; blast_radius := b;
     start_time := None; end_time := None; result := None;
     observations := [] |}.

Definition set_start_time (t : Z) (e : ChaosExperiment) : ChaosExperiment :=
  {| name := name e; description := description e; blast_radius := blast_radius e;
     start_time := Some t; end_time := end_time e; result := result e;
     observations := observations e |}.

Definition set_end_time (t : Z) (e : ChaosExperiment) : ChaosExperiment :=
  {| name := name e; description := description e; blast_radius := blast_radius e;
     start_time := start_time e; end_time := Some t; result := result e;
     observations := observations e |}.

Definition set_result (r : Outcome) (e : ChaosExperiment) : ChaosExperiment :=
  {| name := name e; description := description e; blast_radius := blast_radius e;
     start_time := start_time e; end_time := end_time e; result := Some r;
     observations := observations e |}.

(** experiment.observations.append(o) *)
Definition observe (o : Observation) (e : ChaosExperiment) : ChaosExperiment :=
  {| name := name e; description := description e; blast_radius := blast_radius e;
     start_time := start_time e; end_time := end_time e; result := result e;
     observations := observations e ++ [o] |}.

(** The dictionary [baseline_metrics]: empty ([None]) until
    [capture_baseline] assigns its three keys together. *)
Record BaselineMetrics : Type := {
  query_latency_ms : Q;
  active_connections : nat;
  timestamp : Z
}.

(** The state: the history of the run, the sessions open on the target,
    and the fields of the [ChaosFramework] object. *)
Record State : Type := {
  trace : list Event;                        (* oldest event first *)
  sessions : gset nat;                       (* sessions open on the target *)
  conn : option nat;                         (* self.conn *)
  experiments : list ChaosExperiment;        (* self.experiments *)
  baseline_metrics : option BaselineMetrics  (* self.baseline_metrics *)
}.

(** ChaosFramework.__init__, on a target with the sessions [ss] open. *)
Definition new_framework (ss : gset nat) : State :=
  {| trace := []; sessions := ss; conn := None; experiments := [];
     baseline_metrics := None |}.

Definition record_event (ev : Event) (w : State) : State :=
  {| trace := trace w ++ [ev]; sessions := sessions w; conn := conn w;
     experiments := experiments w; baseline_metrics := baseline_metrics w |}.

Definition set_sessions (ss : gset nat) (w : State) : State :=
  {| trace := trace w; sessions := ss; conn := conn w;
     experiments := experiments w; baseline_metrics := baseline_metrics w |}.

Definition set_conn (c : nat) (w : State) : State :=
  {| trace := trace w; sessions := sessions w; conn := Some c;
     experiments := experiments w; baseline_metrics := baseline_metrics w |}.

Definition push_experiment (e : ChaosExperiment) (w : State) : State :=
  {| trace := trace w; sessions := sessions w; conn := conn w;
     experiments := experiments w ++ [e]; baseline_metrics := baseline_metrics w |}.

Definition set_baseline (b : BaselineMetrics) (w : State) : State :=
  {| trace := trace w; sessions := sessions w; conn := conn w;
     experiments := experiments w; baseline_metrics := Some b |}.

(** The number of sessions open on the target: those it had at the start
    and those the program has opened and not closed. *)
Definition active_connection_count (w : State) : nat := size (sessions w).

(** ** A state and exception monad with local variables

    [M L A] is a computation inside a function whose local variables have
    type [L]: it reads and changes the locals and the state, and either
    returns an [A] or raises.  Changes made before a raise are kept, as the
    mutations of a Python object are. *)

Definition M (L A : Type) : Type := L -> State -> Result A * L * State.

Definition ret {L A} (a : A) : M L A := fun l w => (Ok a, l, w).

Definition bind {L A B} (m : M L A) (k : A -> M L B) : M L B :=
  fun l w =>
    match m l w with
    | (Ok a, l', w') => k a l' w'
    | (Raise e, l', w') => (Raise e, l', w')
    end.

Definition raise {L A} (e : Exn) : M L A := fun l w => (Raise e, l, w).

(** try: body / except Exception as e: handler e *)
Definition try_except {L A} (body : M L A) (handler : Exn -> M L A) : M L A :=
  fun l w =>
    match body l w with
    | (Ok a, l', w') => (Ok a, l', w')
    | (Raise e, l', w') => handler e l' w'
    end.

(** try: body / finally: final.  The [finally] block runs on both exits;
    an exception of the body is raised again after it. *)
Definition try_finally {L A} (body : M L A) (final : M L unit) : M L A :=
  fun l w =>
    match body l w with
    | (r, l', w') =>
        match final l' w' with
        | (Ok _, l'', w'') => (r, l'', w'')
        | (Raise e, l'', w'') => (Raise e, l'', w'')
        end
    end.

Definition get_locals {L} : M L L := fun l w => (Ok l, l, w).
Definition modify_locals {L} (f : L -> L) : M L unit := fun l w => (Ok tt, f l, w).
Definition get_state {L} : M L State := fun l w => (Ok w, l, w).
Definition modify_state {L} (f : State -> State) : M L unit := fun l w => (Ok tt, l, f w).

(** A method of the framework: a computation on the state alone. *)
Definition Method (A : Type) : Type := State -> Result A * State.

(** The body of a method, run with its locals initialised to [l0]. *)
Definition method {L A} (l0 : L) (body : M L A) : Method A :=
  fun w => match body l0 w with (r, _, w') => (r, w') end.

(** A call of a method from inside another. *)
Definition call {L A} (f : Method A) : M L A :=
  fun l w => match f w with (r, w') => (r, l, w') end.

Declare Scope chaos_scope.
Delimit Scope chaos_scope with chaos.
Notation "'let*' x ':=' m 'in' k" := (bind m (fun x => k))
  (at level 10, x name, m at level 100, k at level 200) : chaos_scope.
Notation "m ;;; k" := (bind m (fun _ => k))
  (at level 100, k at level 200, right associativity) : chaos_scope.
Local Open Scope chaos_scope.

(** for _ in range(n): body *)
Fixpoint repeat_n {L} (n : nat) (body : M L unit) : M L unit :=
  match n with
  | O => ret tt
  | S n' => body ;;; repeat_n n' body
  end.

(** for x in xs: body x *)
Fixpoint for_each {L A} (xs : list A) (body : A -> M L unit) : M L unit :=
  match xs with
  | [] => ret tt
  | x :: xs' => body x ;;; for_each xs' body
  end.

(** ** The program *)

Definition Qltb (x y : Q) : bool := negb (Qle_bool y x).

Section Program.

Variable env : Env.

(** *** Calls into the outside world *)

Definition emit {L} (ev : Event) : M L unit := modify_state (record_event ev).

(** A driver call: the oracle decides whether it raises. *)
Definition driver {L} (c : DbCall) : M L unit :=
  fun l w =>
    match db_outcome env (length (trace w)) c with
    | None => (Ok tt, l, record_event (EvDb c None) w)
    | Some msg => (Raise (DbError msg), l, record_event (EvDb c (Some msg)) w)
    end.

(** psycopg2.connect(...): on success a new session is open on the target. *)
Definition psycopg2_connect {L} (connect_timeout : option nat) : M L nat :=
  driver (Connect connect_timeout) ;;;
  let* w := get_state in
  let sid := fresh (sessions w) in
  modify_state (set_sessions ({[sid]} ∪ sessions w)) ;;;
  ret sid.

(** conn.close(): the session is released; closing twice is harmless. *)
Definition conn_close {L} (sid : nat) : M L unit :=
  modify_state (fun w => record_event (EvConnClose sid)
                           (set_sessions (sessions w ∖ {[sid]}) w)).

(** self.conn.cursor() *)
Definition conn_cursor {L} : M L unit :=
  let* w := get_state in
  match conn w with
  | None => raise AttributeError
  | Some _ => driver Cursor
  end.

Definition cursor_close {L} : M L unit := emit EvCursorClose.

Definition datetime_now {L} : M L Z :=
  fun l w => let t := wall_clock env (length (trace w)) in
             (Ok t, l, record_event (EvNow t) w).

Definition time_time {L} : M L Q :=
  fun l w => let t := timer env (length (trace w)) in
             (Ok t, l, record_event (EvTime t) w).

Definition random_random {L} : M L Q :=
  fun l w => let r := rand env (draws (trace w)) in
             (Ok r, l, record_event (EvRandom r) w).

Definition time_sleep {L} (ms : nat) : M L unit := emit (EvSleep ms).

(** self.baseline_metrics['query_latency_ms'] *)
Definition baseline_query_latency {L} : M L Q :=
  let* w := get_state in
  match baseline_metrics w with
  | None => raise (KeyError "query_latency_ms")
  | Some b => ret (query_latency_ms b)
  end.

(** x / y on floats *)
Definition float_div {L} (x y : Q) : M L Q :=
  if Qeq_bool y 0 then raise ZeroDivisionError else ret (x / y)%Q.

(** *** connect, setup, capture_baseline *)

Definition connect : Method bool :=
  method tt
    (try_except
       (let* c := psycopg2_connect None in
        modify_state (set_conn c) ;;;
        emit (EvLog LogConnected) ;;;
        ret true)
       (fun e =>
        emit (EvLog (LogConnectionFailed e)) ;;;
        ret false)).

Definition setup : Method unit :=
  method tt
    (conn_cursor ;;;
     driver (Execute SqlProvision) ;;;
     cursor_close).

(** cursor.fetchone()[0] after the count of pg_stat_activity: the fetch,
    and the count the target returns in the row. *)
Definition fetch_activity_count {L} : M L nat :=
  let* w := get_state in
  driver FetchOne ;;;
  ret (activity_count env (length (trace w))).

Definition capture_baseline : Method unit :=
  method tt
    (conn_cursor ;;;
     let* start := time_time in
     driver (Execute SqlCountRows) ;;;
     driver FetchOne ;;;
     let* stop := time_time in
     let latency := ((stop - start) * 1000)%Q in
     driver (Execute SqlCountActivity) ;;;
     let* connections := fetch_activity_count in
     cursor_close ;;;
     let* ts := datetime_now in
     modify_state (set_baseline {| query_latency_ms := latency;
                                   active_connections := connections;
                                   timestamp := ts |})).

(** *** inject_high_cpu_load *)

Definition high_cpu_load_experiment : ChaosExperiment :=
  new_experiment "High CPU Load"
    "Simulate CPU saturation with expensive queries" "database".

(** The statements after the construction of the experiment. *)
Definition inject_high_cpu_load_body : M ChaosExperiment ChaosExperiment :=
    (let* t := datetime_now in
     modify_locals (set_start_time t) ;;;
     conn_cursor ;;;
     try_except
       (driver (Execute SqlCrossJoin) ;;;
        driver FetchAll ;;;
        modify_locals (observe ObsCpuQueryExecuted) ;;;
        modify_locals (set_result Completed))
       (fun e =>
        modify_locals (observe (ObsError e)) ;;;
        modify_locals (set_result Failed)) ;;;
     cursor_close ;;;
     let* t := datetime_now in
     modify_locals (set_end_time t) ;;;
     let* experiment := get_locals in
     modify_state (push_experiment experiment) ;;;
     ret experiment).

Definition inject_high_cpu_load : Method ChaosExperiment :=
  method high_cpu_load_experiment inject_high_cpu_load_body.

(** *** inject_connection_saturation *)

Record SaturationLocals : Type := {
  sat_experiment : ChaosExperiment;   (* experiment *)
  sat_connections : list nat          (* connections *)
}.

Definition on_sat_experiment (f : ChaosExperiment -> ChaosExperiment)
  : M SaturationLocals unit :=
  modify_locals (fun l => {| sat_experiment := f (sat_experiment l);
                             sat_connections := sat_connections l |}).

(** connections.append(c) *)
Definition append_connection (c : nat) : M SaturationLocals unit :=
  modify_locals (fun l => {| sat_experiment := sat_experiment l;
                             sat_connections := sat_connections l ++ [c] |}).

Definition max_connections : nat := 10.

(** The body of the acquisition loop. *)
Definition acquire_connection : M SaturationLocals unit :=
  let* c := psycopg2_connect None in
  append_connection c.

(** The inner try: one more connection, closed at once if it opens. *)
Definition probe_extra_connection : M SaturationLocals unit :=
  try_except
    (let* extra_conn := psycopg2_connect (Some 2%nat) in
     conn_close extra_conn ;;;
     on_sat_experiment (observe ObsExtraSucceeded))
    (fun _ => on_sat_experiment (observe ObsExtraBlocked)).

(** The finally block. *)
Definition release_connections : M SaturationLocals unit :=
  let* l := get_locals in
  for_each (sat_connections l) conn_close.

Definition saturation_locals : SaturationLocals :=
  {| sat_experiment :=
       new_experiment "Connection Saturation"
         "Exhaust available database connections" "connection_pool";
     sat_connections := [] |}.

Definition inject_connection_saturation_body
  : M SaturationLocals ChaosExperiment :=
    (let* t := datetime_now in
     on_sat_experiment (set_start_time t) ;;;
     try_finally
       (try_except
          (repeat_n max_connections acquire_connection ;;;
           let* l := get_locals in
           on_sat_experiment
             (observe (ObsCreatedConnections (length (sat_connections l)))) ;;;
           time_sleep 2000 ;;;
           probe_extra_connection ;;;
           on_sat_experiment (set_result Completed))
          (fun e =>
           on_sat_experiment (observe (ObsError e)) ;;;
           on_sat_experiment (set_result Failed)))
       release_connections ;;;
     let* t := datetime_now in
     on_sat_experiment (set_end_time t) ;;;
     let* l := get_locals in
     modify_state (push_experiment (sat_experiment l)) ;;;
     ret (sat_experiment l)).

Definition inject_connection_saturation : Method ChaosExperiment :=
  method saturation_locals inject_connection_saturation_body.

(** *** inject_slow_queries *)

Definition slow_queries_experiment : ChaosExperiment :=
  new_experiment "Slow Query Injection"
    "Simulate database performance degradation" "query_performance".

Definition inject_slow_queries_body : M ChaosExperiment ChaosExperiment :=
    (let* t := datetime_now in
     modify_locals (set_start_time t) ;;;
     conn_cursor ;;;
     try_except
       (driver (Execute SqlPgSleep2) ;;;
        driver FetchOne ;;;
        let* start := time_time in
        driver (Execute SqlCountRows) ;;;
        driver FetchOne ;;;
        let* stop := time_time in
        let latency := ((stop - start) * 1000)%Q in
        modify_locals (observe (ObsLatencyDuringChaos latency)) ;;;
        let* baseline := baseline_query_latency in
        modify_locals (observe (ObsBaselineLatency baseline)) ;;;
        let* minuend := baseline_query_latency in
        let* divisor := baseline_query_latency in
        let* ratio := float_div (latency - minuend)%Q divisor in
        let degradation := (ratio * 100)%Q in
        modify_locals (observe (ObsDegradation degradation)) ;;;
        modify_locals (set_result Completed))
       (fun e =>
        modify_locals (observe (ObsError e)) ;;;
        modify_locals (set_result Failed)) ;;;
     cursor_close ;;;
     let* t := datetime_now in
     modify_locals (set_end_time t) ;;;
     let* experiment := get_locals in
     modify_state (push_experiment experiment) ;;;
     ret experiment).

Definition inject_slow_queries : Method ChaosExperiment :=
  method slow_queries_experiment inject_slow_queries_body.

(** *** inject_random_failures *)

Record RandomLocals : Type := {
  rnd_experiment : ChaosExperiment;   (* experiment *)
  success_count : nat;
  failure_count : nat
}.

Definition on_rnd_experiment (f : ChaosExperiment -> ChaosExperiment)
  : M RandomLocals unit :=
  modify_locals (fun l => {| rnd_experiment := f (rnd_experiment l);
                             success_count := success_count l;
                             failure_count := failure_count l |}).

(** success_count += 1 *)
Definition incr_success : M RandomLocals unit :=
  modify_locals (fun l => {| rnd_experiment := rnd_experiment l;
                             success_count := S (success_count l);
                             failure_count := failure_count l |}).

(** failure_count += 1 *)
Definition incr_failure : M RandomLocals unit :=
  modify_locals (fun l => {| rnd_experiment := rnd_experiment l;
                             success_count := success_count l;
                             failure_count := S (failure_count l) |}).

(** The literals 0.3 and 10 of the loop.  No statement below depends on
    the value of the rate. *)
Definition failure_rate : Q := 3 # 10.
Definition trials : nat := 10.

(** The body of the loop: one trial. *)
Definition random_trial : M RandomLocals unit :=
  try_except
    (let* r := random_random in
     if Qltb r failure_rate
     then driver (Execute SqlSelectOneByZero) ;;;
          incr_failure
     else driver (Execute SqlSelectOne) ;;;
          driver FetchOne ;;;
          incr_success)
    (fun _ => incr_failure).

(** The experiment is constructed first; the counters are set to zero
    just before the loop, which nothing but the clock and the cursor
    precedes. *)
Definition random_locals : RandomLocals :=
  {| rnd_experiment :=
       new_experiment "Random Transaction Failures"
         "Test application error handling" "transactions";
     success_count := 0; failure_count := 0 |}.

Definition inject_random_failures_body : M RandomLocals ChaosExperiment :=
    (let* t := datetime_now in
     on_rnd_experiment (set_start_time t) ;;;
     conn_cursor ;;;
     repeat_n trials random_trial ;;;
     let* l := get_locals in
     on_rnd_experiment (observe (ObsCounts (success_count l) (failure_count l))) ;;;
     on_rnd_experiment (set_result Completed) ;;;
     cursor_close ;;;
     let* t := datetime_now in
     on_rnd_experiment (set_end_time t) ;;;
     let* l := get_locals in
     modify_state (push_experiment (rnd_experiment l)) ;;;
     ret (rnd_experiment l)).

Definition inject_random_failures : Method ChaosExperiment :=
  method random_locals inject_random_failures_body.

(** *** test_recovery_time *)

Definition max_attempts : nat := 10.

(** One pass through the body of the while loop; the local is [attempts].
    Returns [true] when the body leaves the loop through [break]. *)
Definition recovery_probe : M nat bool :=
  try_except
    (driver (Execute SqlSelectOne) ;;;
     driver FetchOne ;;;
     ret true)
    (fun _ =>
     modify_locals S ;;;
     time_sleep 500 ;;;
     ret false).

(** while attempts < max_attempts: ...  The argument is the variant
    [max_attempts - attempts] of the loop: the condition holds exactly when
    it is positive, and a pass that does not break decreases it by one
    ([recovery_loop_unfold] states the loop equation). *)
Fixpoint recovery_loop (remaining : nat) : M nat unit :=
  match remaining with
  | O => ret tt
  | S remaining' =>
      let* broke := recovery_probe in
      if broke : bool then ret tt else recovery_loop remaining'
  end.

Definition test_recovery_time : Method Q :=
  method 0%nat
    (conn_cursor ;;;
     let* recovery_start := time_time in
     let* attempts := get_locals in
     recovery_loop (max_attempts - attempts) ;;;
     let* stop := time_time in
     let recovery_time := ((stop - recovery_start) * 1000)%Q in
     cursor_close ;;;
     let* attempts := get_locals in
     emit (EvLog (LogRecovery recovery_time attempts)) ;;;
     ret recovery_time).

(** *** generate_report *)

Definition has_result (r : Outcome) (e : ChaosExperiment) : bool :=
  match result e, r with
  | Some Completed, Completed => true
  | Some Failed, Failed => true
  | _, _ => false
  end.

(** [e for e in self.experiments if e.result == 'completed'] *)
Definition completed_of (exps : list ChaosExperiment) : list ChaosExperiment :=
  List.filter (has_result Completed) exps.

(** [e for e in self.experiments if e.result == 'failed'] *)
Definition failed_of (exps : list ChaosExperiment) : list ChaosExperiment :=
  List.filter (has_result Failed) exps.

(** (len(completed) / len(self.experiments) * 100) if self.experiments else 0,
    in exact arithmetic.  The value the program computes is
    [Binary64.report_score]: the same expression with the quotient and the
    product rounded to binary64. *)
Definition score (exps : list ChaosExperiment) : Q :=
  match exps with
  | [] => 0
  | _ :: _ =>
      (inject_Z (Z.of_nat (length (completed_of exps)))
       / inject_Z (Z.of_nat (length exps)) * 100)%Q
  end.

(** The if / elif chain on the score. *)
Definition assessment (score : Q) : string :=
  if Qle_bool 80 score then "EXCELLENT"
  else if Qle_bool 60 score then "GOOD"
  else if Qle_bool 40 score then "FAIR"
  else "NEEDS IMPROVEMENT".

(** The body of the details loop: the duration needs both times, the
    upper-cased result needs the result. *)
Definition report_details {L} (e : ChaosExperiment) : M L unit :=
  match end_time e, start_time e with
  | Some _, Some _ =>
      match result e with
      | Some _ => ret tt
      | None => raise AttributeError
      end
  | _, _ => raise TypeError
  end.

Definition generate_report : Method unit :=
  method tt
    (let* w := get_state in
     let exps := experiments w in
     let completed := completed_of exps in
     let failed := failed_of exps in
     emit (EvReportSummary (length exps) (length completed) (length failed)) ;;;
     for_each exps report_details ;;;
     let score := score exps in
     emit (EvReportAssessment score (assessment score))).

(** *** run_chaos_suite and main *)

Definition run_chaos_suite : Method unit :=
  method tt
    (let* connected := call connect in
     if negb connected then ret tt
     else
       call setup ;;;
       call capture_baseline ;;;
       time_sleep 2000 ;;;
       call inject_high_cpu_load ;;;
       time_sleep 2000 ;;;
       call inject_connection_saturation ;;;
       time_sleep 2000 ;;;
       call inject_slow_queries ;;;
       time_sleep 2000 ;;;
       call inject_random_failures ;;;
       time_sleep 2000 ;;;
       call test_recovery_time ;;;
       call generate_report).

(** The exit status of the interpreter: 0 when main returns, 1 when an
    exception reaches the top level. *)
Definition exit_code {A} (r : Result A) : Z :=
  match r with Ok _ => 0 | Raise _ => 1 end.

(** main(), started against a target with the sessions [ss] open: the
    exit status and the final state. *)
Definition main (ss : gset nat) : Z * State :=
  match run_chaos_suite (new_framework ss) with
  | (r, w) => (exit_code r, w)
  end.

End Program.

(** ** The score in binary64

    The same two expressions of [generate_report], evaluated as Python
    evaluates them: the lengths are converted to binary64, divided and
    multiplied with rounding to nearest. *)
Module Binary64.

Import PrimFloat.

(** The conversion of a length to a float; it is exact, as the lengths
    are far below 2^53. *)
Fixpoint float_of_nat (n : nat) : PrimFloat.float :=
  match n with
  | O => 0%float
  | S n' => PrimFloat.add (float_of_nat n') 1%float
  end.

(** (len(completed) / len(self.experiments) * 100) if self.experiments else 0 *)
Definition score (completed total : nat) : PrimFloat.float :=
  match total with
  | O => 0%float
  | S _ =>
      PrimFloat.mul
        (PrimFloat.div (float_of_nat completed) (float_of_nat total))
        100%float
  end.

Definition assessment (score : PrimFloat.float) : string :=
  if PrimFloat.leb 80%float score then "EXCELLENT"
  else if PrimFloat.leb 60%float score then "GOOD"
  else if PrimFloat.leb 40%float score then "FAIR"
  else "NEEDS IMPROVEMENT".

(** The score [generate_report] computes for a registry:
    completed = [e for e in self.experiments if e.result == 'completed'],
    then the expression above on the two lengths. *)
Definition report_score (exps : list ChaosExperiment) : PrimFloat.float :=
  score (length (completed_of exps)) (length exps).

(** 2^e as a rational. *)
Definition Qpow2 (e : Z) : Q :=
  match e with
  | Z0 => 1
  | Zpos p => inject_Z (Z.pow_pos 2 p)
  | Zneg p => 1 # (Pos.pow 2 p)
  end.

(** The number a float stands for: sign, mantissa and exponent as the
    Standard Library decodes them; [None] for an infinity or a NaN. *)
Definition to_Q (x : PrimFloat.float) : option Q :=
  match FloatOps.Prim2SF x with
  | SpecFloat.S754_zero _ => Some 0%Q
  | SpecFloat.S754_finite s m e =>
      Some ((if s then -1 else 1) * inject_Z (Zpos m) * Qpow2 e)%Q
  | _ => None
  end.

End Binary64.

(** * The vocabulary of the statements *)

(** ** The specification's terms *)

(** The number of experiments whose result is 'completed'. *)
Fixpoint completed_count (exps : list ChaosExperiment) : nat :=
  match exps with
  | [] => 0
  | e :: rest =>
      match result e with
      | Some Completed => S (completed_count rest)
      | _ => completed_count rest
      end
  end.

(** score(experiments) = 100 x completedCount / totalCount, and 0 if no
    experiment ran. *)
Definition spec_score (exps : list ChaosExperiment) : Q :=
  match length exps with
  | O => 0
  | S _ => (100 * inject_Z (Z.of_nat (completed_count exps))
            / inject_Z (Z.of_nat (length exps)))%Q
  end.

(** The tiers of the specification. *)
Inductive Tier : Type := EXCELLENT | GOOD | FAIR | NEEDS_IMPROVEMENT.

(** The text the report prints for a tier. *)
Definition tier_text (t : Tier) : string :=
  match t with
  | EXCELLENT => "EXCELLENT"
  | GOOD => "GOOD"
  | FAIR => "FAIR"
  | NEEDS_IMPROVEMENT => "NEEDS IMPROVEMENT"
  end.

(** An experiment the details section of the report can print: both times
    and the result are set. *)
Definition reportable (e : ChaosExperiment) : bool :=
  match start_time e, end_time e, result e with
  | Some _, Some _, Some _ => true
  | _, _, _ => false
  end.

(** The score in exact arithmetic for given counts, and the comparison of
    the binary64 assessment with the exact one. *)
Definition exact_score (completed total : nat) : Q :=
  match total with
  | O => 0
  | S _ => (inject_Z (Z.of_nat completed) / inject_Z (Z.of_nat total) * 100)%Q
  end.

(** The binary64 score of [completed] out of [total] is a number, and its
    distance to the exact score is at most the exact score over 2^52. *)
Definition score_within_rounding (completed total : nat) : bool :=
  match Binary64.to_Q (Binary64.score completed total) with
  | Some q =>
      Qle_bool (Qabs (q - exact_score completed total)
                * inject_Z (Z.pow_pos 2 52))
               (exact_score completed total)
  | None => false
  end.

(** The binary64 score of [completed] out of [total] is the exact score. *)
Definition score_is_exact (completed total : nat) : bool :=
  match Binary64.to_Q (Binary64.score completed total) with
  | Some q => Qeq_bool q (exact_score completed total)
  | None => false
  end.

Definition assessments_agree (completed total : nat) : bool :=
  String.eqb (Binary64.assessment (Binary64.score completed total))
             (assessment (exact_score completed total)).

(** [w'] differs from [w] only by events added to the trace. *)
Definition only_events (w w' : State) : Prop :=
  sessions w' = sessions w /\ conn w' = conn w /\
  experiments w' = experiments w /\
  baseline_metrics w' = baseline_metrics w /\
  exists evs : list Event, trace w' = trace w ++ evs.

(** [w'] differs from [w] by events and by the open sessions. *)
Definition framework_kept (w w' : State) : Prop :=
  conn w' = conn w /\ experiments w' = experiments w /\
  baseline_metrics w' = baseline_metrics w /\
  exists evs : list Event, trace w' = trace w ++ evs.

(** self.conn is set and a cursor() call made [k] events after [w]
    succeeds.  The injectors call it one event after they start (the
    start time is read first), the recovery test at once. *)
Definition cursor_opens (env : Env) (k : nat) (w : State) : Prop :=
  (exists c : nat, conn w = Some c) /\
  db_outcome env (k + length (trace w)) Cursor = None.

(** [w] with the events [evs] added. *)
Definition add_events (evs : list Event) (w : State) : State :=
  {| trace := trace w ++ evs; sessions := sessions w; conn := conn w;
     experiments := experiments w; baseline_metrics := baseline_metrics w |}.

(** Whether the trial started in [w] is counted as a failure: the draw is
    below the failure rate, or the normal query or its fetch raises. *)
Definition trial_fails (env : Env) (w : State) : bool :=
  if Qltb (rand env (draws (trace w))) failure_rate then true
  else
    match db_outcome env (S (length (trace w))) (Execute SqlSelectOne) with
    | Some _ => true
    | None =>
        match db_outcome env (S (S (length (trace w)))) FetchOne with
        | Some _ => true
        | None => false
        end
    end.

(** The number of events of the trial started in [w]: the draw, the
    query and, after a normal query that succeeds, its fetch. *)
Definition trial_events (env : Env) (w : State) : nat :=
  if Qltb (rand env (draws (trace w))) failure_rate then 2
  else
    match db_outcome env (S (length (trace w))) (Execute SqlSelectOne) with
    | Some _ => 2
    | None => 3
    end.

Definition count_trial (fails : bool) (l : RandomLocals) : RandomLocals :=
  {| rnd_experiment := rnd_experiment l;
     success_count := if fails then success_count l else S (success_count l);
     failure_count := if fails then S (failure_count l) else failure_count l |}.

(** The normal query and its fetch succeed in [env1] exactly when they do
    in [env2], event for event. *)
Definition same_normal_outcomes (env1 env2 : Env) : Prop :=
  forall k : nat,
    (db_outcome env1 k (Execute SqlSelectOne) = None <->
     db_outcome env2 k (Execute SqlSelectOne) = None) /\
    (db_outcome env1 k FetchOne = None <->
     db_outcome env2 k FetchOne = None).

(** The normal query and its fetch always succeed. *)
Definition normal_queries_succeed (env : Env) : Prop :=
  forall k : nat,
    db_outcome env k (Execute SqlSelectOne) = None /\
    db_outcome env k FetchOne = None.

(** The number of draws below the failure rate among the [n] draws that
    follow the first [d]. *)
Fixpoint draws_below_rate (env : Env) (d n : nat) : nat :=
  match n with
  | O => 0
  | S n' =>
      (if Qltb (rand env d) failure_rate then 1 else 0)
      + draws_below_rate env (S d) n'
  end.

(** The counts observed by an experiment of the injector, if any. *)
Definition observed_counts (r : Result ChaosExperiment) : option (nat * nat) :=
  match r with
  | Ok e =>
      match observations e with
      | [ObsCounts s f] => Some (s, f)
      | _ => None
      end
  | Raise _ => None
  end.

(** Whether a report was printed, whole or in part. *)
Definition is_report (ev : Event) : bool :=
  match ev with
  | EvReportSummary _ _ _ | EvReportAssessment _ _ => true
  | _ => false
  end.

Definition report_printed (w : State) : bool := existsb is_report (trace w).

(** The events of the while loop: failed passes, each ending in a sleep,
    followed by a successful pass ([true]) or by nothing ([false]). *)
Inductive loop_events : nat -> bool -> list Event -> Prop :=
| loop_exhausted : loop_events 0 false []
| loop_success :
    loop_events 0 true [EvDb (Execute SqlSelectOne) None; EvDb FetchOne None]
| loop_execute_failed (msg : string) (k : nat) (b : bool) (evs : list Event) :
    loop_events k b evs ->
    loop_events (S k) b
      (EvDb (Execute SqlSelectOne) (Some msg) :: EvSleep 500 :: evs)
| loop_fetch_failed (msg : string) (k : nat) (b : bool) (evs : list Event) :
    loop_events k b evs ->
    loop_events (S k) b
      (EvDb (Execute SqlSelectOne) None :: EvDb FetchOne (Some msg)
         :: EvSleep 500 :: evs).

(** The attempt count in the last recovery message of the log. *)
Fixpoint logged_attempts (tr : list Event) : option nat :=
  match tr with
  | [] => None
  | ev :: rest =>
      match logged_attempts rest, ev with
      | Some a, _ => Some a
      | None, EvLog (LogRecovery _ a) => Some a
      | None, _ => None
      end
  end.

(** The statements of the slow query injector and their fetches succeed. *)
Definition slow_queries_answered (env : Env) : Prop :=
  forall k : nat,
    db_outcome env k (Execute SqlPgSleep2) = None /\
    db_outcome env k (Execute SqlCountRows) = None /\
    db_outcome env k FetchOne = None.

(** The experiment is left unfinished: started, but with no end time, no
    result and no observation. *)
Definition unfinished (e : ChaosExperiment) : Prop :=
  start_time e <> None /\ end_time e = None /\ result e = None /\
  observations e = [].

(** The record of an experiment that ran from [w] to [w']: the start time
    is the first thing read, before any other event; the end time is read
    later; the result is terminal; something was observed; and the
    experiment is the last of the registry. *)
Definition terminated (env : Env) (w : State) (e : ChaosExperiment)
    (w' : State) : Prop :=
  start_time e = Some (wall_clock env (length (trace w))) /\
  (exists rest : list Event,
      trace w' = trace w ++ EvNow (wall_clock env (length (trace w))) :: rest) /\
  (exists k : nat,
      (length (trace w) <= k)%nat /\ end_time e = Some (wall_clock env k)) /\
  (result e = Some Completed \/ result e = Some Failed) /\
  observations e <> [] /\
  experiments w' = experiments w ++ [e].

(** A clock that never goes back. *)
Definition monotone_clock (env : Env) : Prop :=
  forall i j : nat, (i <= j)%nat -> (wall_clock env i <= wall_clock env j)%Z.

(** ** Sample environments and states *)

(** What a healthy PostgreSQL answers: every call succeeds but the
    division by zero. *)
Definition postgres_outcome (c : DbCall) : option string :=
  match c with
  | Execute SqlSelectOneByZero => Some "division by zero"
  | _ => None
  end.

(** A healthy target; the clocks advance by one unit per event; every draw
    is 0.5. *)
Definition env_healthy : Env :=
  {| db_outcome := fun _ c => postgres_outcome c;
     wall_clock := fun n => Z.of_nat n;
     timer := fun n => inject_Z (Z.of_nat n);
     rand := fun _ => 1 # 2;
     activity_count := fun _ => 1%nat |}.

(** A framework connected through session 0, before anything else ran. *)
Definition connected : State :=
  set_conn 0 (set_sessions {[0%nat]} (new_framework ∅)).

Definition sample_completed : ChaosExperiment :=
  set_result Completed (new_experiment "sample" "completed" "database").

Definition sample_failed : ChaosExperiment :=
  set_result Failed (new_experiment "sample" "failed" "database").

(** A registry of [c] completed and [f] failed experiments. *)
Definition sample_registry (c f : nat) : list ChaosExperiment :=
  repeat sample_completed c ++ repeat sample_failed f.

(** A target on which the normal query fails; everything else is as in
    [env_healthy], the random stream included. *)
Definition env_select_fails : Env :=
  {| db_outcome := fun _ c =>
       match c with
       | Execute SqlSelectOne => Some "server closed the connection unexpectedly"
       | _ => postgres_outcome c
       end;
     wall_clock := fun n => Z.of_nat n;
     timer := fun n => inject_Z (Z.of_nat n);
     rand := fun _ => 1 # 2;
     activity_count := fun _ => 1%nat |}.

(** A target that refuses every connection. *)
Definition env_unreachable : Env :=
  {| db_outcome := fun _ c =>
       match c with
       | Connect _ => Some "connection refused"
       | _ => postgres_outcome c
       end;
     wall_clock := fun n => Z.of_nat n;
     timer := fun n => inject_Z (Z.of_nat n);
     rand := fun _ => 1 # 2;
     activity_count := fun _ => 1%nat |}.

(** A target that accepts the connection and rejects the provisioning
    statement. *)
Definition env_setup_fails : Env :=
  {| db_outcome := fun _ c =>
       match c with
       | Execute SqlProvision => Some "permission denied"
       | _ => postgres_outcome c
       end;
     wall_clock := fun n => Z.of_nat n;
     timer := fun n => inject_Z (Z.of_nat n);
     rand := fun _ => 1 # 2;
     activity_count := fun _ => 1%nat |}.

(** A target that accepts the cursor and fails every liveness query; the
    timer reads 0 until the loop starts and 5 seconds afterwards. *)
Definition env_never_recovers : Env :=
  {| db_outcome := fun _ c =>
       match c with
       | Execute SqlSelectOne => Some "server closed the connection unexpectedly"
       | _ => postgres_outcome c
       end;
     wall_clock := fun n => Z.of_nat n;
     timer := fun n => if (n <=? 1)%nat then 0%Q else 5%Q;
     rand := fun _ => 1 # 2;
     activity_count := fun _ => 1%nat |}.

(** A target that answers the first liveness query, after 5 seconds. *)
Definition env_slow_answer : Env :=
  {| db_outcome := fun _ c => postgres_outcome c;
     wall_clock := fun n => Z.of_nat n;
     timer := fun n => if (n <=? 1)%nat then 0%Q else 5%Q;
     rand := fun _ => 1 # 2;
     activity_count := fun _ => 1%nat |}.

(** A target whose connection is gone: no cursor can be opened. *)
Definition env_cursor_closed : Env :=
  {| db_outcome := fun _ c =>
       match c with
       | Cursor => Some "connection already closed"
       | Execute SqlSelectOne => Some "connection already closed"
       | _ => postgres_outcome c
       end;
     wall_clock := fun n => Z.of_nat n;
     timer := fun n => inject_Z (Z.of_nat n);
     rand := fun _ => 1 # 2;
     activity_count := fun _ => 1%nat |}.

(** A healthy target on which the measured query takes half a second. *)
Definition env_half_second : Env :=
  {| db_outcome := fun _ c => postgres_outcome c;
     wall_clock := fun n => Z.of_nat n;
     timer := fun n => if (n <=? 4)%nat then 0%Q else (1 # 2)%Q;
     rand := fun _ => 1 # 2;
     activity_count := fun _ => 1%nat |}.

(** A connected framework whose baseline latency is 5 ms. *)
Definition connected_baseline_5ms : State :=
  set_baseline {| query_latency_ms := 5; active_connections := 1;
                  timestamp := 0 |} connected.

(** A target that stops answering during the CPU load experiment: every
    driver call from the expensive query on raises. *)
Definition env_dies_during_cpu_load : Env :=
  {| db_outcome := fun n c =>
       if (17 <=? n)%nat then Some "server closed the connection unexpectedly"
       else postgres_outcome c;
     wall_clock := fun n => Z.of_nat n;
     timer := fun n => inject_Z (Z.of_nat n);
     rand := fun _ => 1 # 2;
     activity_count := fun _ => 1%nat |}.

(** ** Terms of the further properties *)

(** Position and message of the first connection refused among the [n]
    attempts made from event [start] on, each attempt being one event. *)
Fixpoint first_refusal (env : Env) (start n : nat) : option (nat * string) :=
  match n with
  | O => None
  | S n' =>
      match db_outcome env start (Connect None) with
      | Some msg => Some (0%nat, msg)
      | None =>
          match first_refusal env (S start) n' with
          | Some (k, msg) => Some (S k, msg)
          | None => None
          end
      end
  end.

(** The pauses of the recovery loop among the events [evs], and the
    liveness queries sent. *)
Definition is_pause (ev : Event) : bool :=
  match ev with EvSleep 500 => true | _ => false end.

Definition is_probe (ev : Event) : bool :=
  match ev with EvDb (Execute SqlSelectOne) _ => true | _ => false end.

Definition pauses (evs : list Event) : nat := length (List.filter is_pause evs).

Definition probes (evs : list Event) : nat := length (List.filter is_probe evs).

(** The order of the assessments, from the worst to the best. *)
Definition assessment_rank (a : string) : nat :=
  if String.eqb a "EXCELLENT" then 3
  else if String.eqb a "GOOD" then 2
  else if String.eqb a "FAIR" then 1
  else 0.

(** ** Terms of the properties of the whole suite *)

(** The computation [m] takes every state to one related to it by [R],
    whether it returns or raises. *)
Definition keeps {L A} (R : State -> State -> Prop) (m : M L A) : Prop :=
  forall (l : L) (w : State), R w (snd (m l w)).

(** The same for a method. *)
Definition method_keeps {A} (R : State -> State -> Prop) (f : Method A) : Prop :=
  forall w : State, R w (snd (f w)).

(** Nothing of a report is printed between [w] and [w']. *)
Definition quiet (w w' : State) : Prop :=
  exists evs : list Event,
    trace w' = trace w ++ evs /\ existsb is_report evs = false.

(** What a step of the suite leaves as it was: self.conn, the sessions
    open on the target, and the absence of a report. *)
Definition suite_step (w w' : State) : Prop :=
  conn w' = conn w /\ sessions w' = sessions w /\ quiet w w'.

(** The method registers one experiment named [n], complete enough to be
    reported, when it returns, and none when it raises. *)
Definition registers {A} (n : string) (f : Method A) : Prop :=
  forall w : State,
    match f w with
    | (Ok _, w') =>
        exists e : ChaosExperiment,
          experiments w' = experiments w ++ [e] /\
          reportable e = true /\ name e = n
    | (Raise _, w') => experiments w' = experiments w
    end.

(** The names of the experiments of the suite, in the order of its phases. *)
Definition suite_names : list string :=
  ["High CPU Load"; "Connection Saturation"; "Slow Query Injection";
   "Random Transaction Failures"].

(** The registry is as it was. *)
Definition registry_kept (w w' : State) : Prop :=
  experiments w' = experiments w.

(** The state [w'] of a suite that was started in [w], connected, and has
    registered the experiments [es] since: it holds the session it opened,
    has printed nothing of a report, and [es] are complete records named
    as the first phases of the suite. *)
Definition suite_progress (w : State) (es : list ChaosExperiment)
    (w' : State) : Prop :=
  conn w' = Some (fresh (sessions w)) /\
  sessions w' = {[fresh (sessions w)]} ∪ sessions w /\
  quiet w w' /\
  experiments w' = experiments w ++ es /\
  forallb reportable es = true /\
  map name es = firstn (length es) suite_names.

(** A target that answers every call but, possibly, the intentional
    division by zero. *)
Definition target_healthy (env : Env) : Prop :=
  forall (k : nat) (c : DbCall),
    c <> Execute SqlSelectOneByZero -> db_outcome env k c = None.

(** The framework during a run on a healthy target: connected through
    [c], with the baseline [b], every registered experiment complete
    enough to be reported, their results being [rs]. *)
Definition healthy_progress (c : nat) (b : BaselineMetrics)
    (rs : list (option Outcome)) (w : State) : Prop :=
  conn w = Some c /\ baseline_metrics w = Some b /\
  forallb reportable (experiments w) = true /\
  map result (experiments w) = rs.

(** * Properties *)

(** ** The score and the assessment *)

Lemma length_completed_of (exps : list ChaosExperiment) :
  length (completed_of exps) = completed_count exps.
Proof.
  induction exps as [|e rest IH]; simpl; [reflexivity|].
  unfold has_result. destruct (result e) as [[]|]; simpl; congruence.
Qed.

Lemma completed_count_le (exps : list ChaosExperiment) :
  (completed_count exps <= length exps)%nat.
Proof.
  induction exps as [|e rest IH]; simpl; [lia|].
  destruct (result e) as [[]|]; lia.
Qed.

Lemma score_spec_score (exps : list ChaosExperiment) :
  (score exps == spec_score exps)%Q.
Proof.
  unfold score, spec_score. destruct exps as [|e rest]; [reflexivity|].
  rewrite length_completed_of.
  cbn [length]. set (n := S (length rest)). set (c := completed_count (e :: rest)).
  assert (Hn : ~ (inject_Z (Z.of_nat n) == 0)%Q).
  { unfold Qeq, inject_Z; simpl. subst n. lia. }
  field. exact Hn.
Qed.

(** The score is a percentage. *)
Lemma score_bounds (exps : list ChaosExperiment) :
  (0 <= score exps)%Q /\ (score exps <= 100)%Q.
Proof.
  rewrite score_spec_score. unfold spec_score.
  pose proof (completed_count_le exps) as Hle.
  destruct (length exps) as [|n] eqn:Hn; [split; discriminate|].
  set (c := completed_count exps) in *.
  assert (Hpos : (0 < inject_Z (Z.of_nat (S n)))%Q).
  { rewrite <- (Zlt_Qlt 0). lia. }
  split.
  - apply Qle_shift_div_l; [exact Hpos|]. rewrite Qmult_0_l.
    change 0%Q with (inject_Z 0). rewrite <- (inject_Z_mult 100).
    rewrite <- Zle_Qle. lia.
  - apply Qle_shift_div_r; [exact Hpos|].
    rewrite <- !(inject_Z_mult 100). rewrite <- Zle_Qle. lia.
Qed.

Lemma for_each_report_details {L} (exps : list ChaosExperiment) (l : L) (w : State) :
  forallb reportable exps = true ->
  for_each exps report_details l w = (Ok tt, l, w).
Proof.
  induction exps as [|e rest IH]; simpl; intros H; [reflexivity|].
  apply andb_prop in H as [He Hrest].
  unfold bind at 1. unfold report_details at 1. unfold reportable in He.
  destruct (start_time e), (end_time e), (result e); try discriminate.
  simpl. auto.
Qed.

(** [generate_report] on reportable experiments prints the summary and the
    assessment computed from [score], and does nothing else. *)
Lemma generate_report_prints (w : State) :
  forallb reportable (experiments w) = true ->
  generate_report w =
    (Ok tt,
     record_event
       (EvReportAssessment (score (experiments w))
          (assessment (score (experiments w))))
       (record_event
          (EvReportSummary (length (experiments w))
             (length (completed_of (experiments w)))
             (length (failed_of (experiments w)))) w)).
Proof.
  intros H. unfold generate_report, method, bind, get_state, emit, modify_state.
  rewrite (for_each_report_details _ tt _ H). reflexivity.
Qed.

Lemma score_exact_score (exps : list ChaosExperiment) :
  score exps = exact_score (length (completed_of exps)) (length exps).
Proof. now destruct exps. Qed.

Lemma exact_score_spec_score (exps : list ChaosExperiment) :
  (exact_score (length (completed_of exps)) (length exps) == spec_score exps)%Q.
Proof. rewrite <- score_exact_score. apply score_spec_score. Qed.

(** The check of a property of the counts for every registry of at most
    [n] experiments. *)
Lemma forallb_counts (n : nat) (f : nat -> nat -> bool) (completed total : nat) :
  forallb (fun t => forallb (fun c => f c t) (seq 0 (S t))) (seq 0 (S n)) = true ->
  (completed <= total)%nat -> (total <= n)%nat ->
  f completed total = true.
Proof.
  intros Hall Hc Hn. rewrite forallb_forall in Hall.
  assert (Hin : In total (seq 0 (S n))) by (apply in_seq; lia).
  specialize (Hall total Hin). rewrite forallb_forall in Hall.
  apply Hall. apply in_seq. lia.
Qed.

(** C2, as the program computes it: the score of the report is the
    binary64 value of completed / total * 100, the quotient and the product
    each rounded to nearest, and 0 for the empty sequence.  For every
    sequence of at most 200 experiments it is within one part in 2^52 of
    100 x completed / total; it is exactly that for the four experiments of
    a run of the suite; the exact value [score] used in the statements on
    the report is 100 x completed / total itself. *)
Theorem binary64_score_is_rounded_percentage :
  Binary64.to_Q (Binary64.report_score []) = Some 0%Q /\
  (forall exps : list ChaosExperiment,
      (length exps <= 200)%nat ->
      exists q : Q,
        Binary64.to_Q (Binary64.report_score exps) = Some q /\
        (Qabs (q - spec_score exps) * inject_Z (Z.pow_pos 2 52)
         <= spec_score exps)%Q) /\
  (forall exps : list ChaosExperiment,
      length exps = 4%nat ->
      exists q : Q,
        Binary64.to_Q (Binary64.report_score exps) = Some q /\
        (q == spec_score exps)%Q) /\
  (forall exps : list ChaosExperiment, (score exps == spec_score exps)%Q).
Proof.
  split; [reflexivity|]. split; [|split; [|exact score_spec_score]].
  - intros exps Hn.
    assert (Hall : forallb (fun t => forallb (fun c => score_within_rounding c t)
                                       (seq 0 (S t))) (seq 0 201) = true)
      by (vm_compute; reflexivity).
    assert (Hc : (length (completed_of exps) <= length exps)%nat)
      by (rewrite length_completed_of; apply completed_count_le).
    pose proof (forallb_counts 200 score_within_rounding _ _ Hall Hc Hn) as H.
    unfold score_within_rounding in H. unfold Binary64.report_score.
    destruct (Binary64.to_Q
                (Binary64.score (length (completed_of exps)) (length exps)))
      as [q|]; [|discriminate].
    exists q. split; [reflexivity|].
    apply Qle_bool_iff in H. rewrite (exact_score_spec_score exps) in H.
    exact H.
  - intros exps Hn.
    assert (Hall : forallb (fun t => forallb (fun c => orb (negb (t =? 4)%nat)
                                                          (score_is_exact c t))
                                       (seq 0 (S t))) (seq 0 5) = true)
      by (vm_compute; reflexivity).
    assert (Hc : (length (completed_of exps) <= length exps)%nat)
      by (rewrite length_completed_of; apply completed_count_le).
    assert (H4 : (length exps <= 4)%nat) by lia.
    pose proof (forallb_counts 4
                  (fun c t => orb (negb (t =? 4)%nat) (score_is_exact c t))
                  _ _ Hall Hc H4) as H.
    cbv beta in H. rewrite Hn in H. cbn [Nat.eqb negb orb] in H.
    unfold score_is_exact in H. unfold Binary64.report_score. rewrite Hn.
    destruct (Binary64.to_Q (Binary64.score (length (completed_of exps)) 4))
      as [q|]; [|discriminate].
    exists q. split; [reflexivity|].
    apply Qeq_bool_iff in H. rewrite H.
    rewrite <- (exact_score_spec_score exps), Hn. reflexivity.
Qed.

Lemma binary64_score_is_rounded_percentage_witness :
  (length (sample_registry 7 18) <= 200)%nat /\
  exists q : Q,
    Binary64.to_Q (Binary64.report_score (sample_registry 7 18)) = Some q /\
    (Qabs (q - spec_score (sample_registry 7 18)) * inject_Z (Z.pow_pos 2 52)
     <= spec_score (sample_registry 7 18))%Q.
Proof.
  assert (H : (length (sample_registry 7 18) <= 200)%nat)
    by (vm_compute; lia).
  split; [exact H|].
  exact (proj1 (proj2 binary64_score_is_rounded_percentage)
           (sample_registry 7 18) H).
Defined.

(** With 7 experiments completed out of 25 the program computes
    28.000000000000004 (28 + 2^-48), where 100 x 7 / 25 is 28. *)
Lemma binary64_score_seven_of_25 :
  (spec_score (sample_registry 7 18) == 28)%Q /\
  exists q : Q,
    Binary64.to_Q (Binary64.report_score (sample_registry 7 18)) = Some q /\
    (q == 28 + (1 # Pos.pow 2 48))%Q /\
    ~ (q == spec_score (sample_registry 7 18))%Q.
Proof.
  split; [vm_compute; reflexivity|].
  eexists. split; [vm_compute; reflexivity|].
  split; [vm_compute; reflexivity|].
  vm_compute. discriminate.
Qed.

Lemma Qle_bool_false (x y : Q) : (y < x)%Q -> Qle_bool x y = false.
Proof.
  intros H. destruct (Qle_bool x y) eqn:E; [|reflexivity].
  apply Qle_bool_iff in E. exfalso. exact (Qlt_not_le _ _ H E).
Qed.

Lemma Qle_bool_true (x y : Q) : (x <= y)%Q -> Qle_bool x y = true.
Proof. apply Qle_bool_iff. Qed.

Lemma assessment_excellent (s : Q) :
  (80 <= s)%Q -> assessment s = tier_text EXCELLENT.
Proof. intros H. unfold assessment. now rewrite (Qle_bool_true _ _ H). Qed.

Lemma assessment_good (s : Q) :
  (60 <= s)%Q -> (s < 80)%Q -> assessment s = tier_text GOOD.
Proof.
  intros H1 H2. unfold assessment.
  now rewrite (Qle_bool_false _ _ H2), (Qle_bool_true _ _ H1).
Qed.

Lemma assessment_fair (s : Q) :
  (40 <= s)%Q -> (s < 60)%Q -> assessment s = tier_text FAIR.
Proof.
  intros H1 H2. unfold assessment.
  assert (H3 : (s < 80)%Q) by (eapply Qlt_trans; [exact H2|reflexivity]).
  now rewrite (Qle_bool_false _ _ H3), (Qle_bool_false _ _ H2),
    (Qle_bool_true _ _ H1).
Qed.

Lemma assessment_needs_improvement (s : Q) :
  (s < 40)%Q -> assessment s = tier_text NEEDS_IMPROVEMENT.
Proof.
  intros H. unfold assessment.
  assert (H2 : (s < 60)%Q) by (eapply Qlt_trans; [exact H|reflexivity]).
  assert (H3 : (s < 80)%Q) by (eapply Qlt_trans; [exact H|reflexivity]).
  now rewrite (Qle_bool_false _ _ H3), (Qle_bool_false _ _ H2),
    (Qle_bool_false _ _ H).
Qed.

(** The score of a sequence with [c] completed experiments out of [n]. *)
Lemma score_of_counts (exps : list ChaosExperiment) (c n : nat) :
  length exps = S n -> completed_count exps = c ->
  (score exps == 100 * inject_Z (Z.of_nat c) / inject_Z (Z.of_nat (S n)))%Q.
Proof.
  intros Hn Hc. rewrite score_spec_score. unfold spec_score.
  rewrite Hn, Hc. reflexivity.
Qed.

(** C3: the assessment is decided by the thresholds 80, 60 and 40 taken
    from the top, the first that the score reaches winning; three
    experiments completed out of five score 60 and are GOOD, two out of
    five score 40 and are FAIR, in exact arithmetic as in binary64. *)
Theorem assessment_thresholds :
  (forall s : Q, (80 <= s)%Q -> assessment s = tier_text EXCELLENT) /\
  (forall s : Q, (60 <= s)%Q -> (s < 80)%Q -> assessment s = tier_text GOOD) /\
  (forall s : Q, (40 <= s)%Q -> (s < 60)%Q -> assessment s = tier_text FAIR) /\
  (forall s : Q, (s < 40)%Q -> assessment s = tier_text NEEDS_IMPROVEMENT) /\
  (forall exps : list ChaosExperiment,
      length exps = 5%nat -> completed_count exps = 3%nat ->
      (score exps == 60)%Q /\ assessment (score exps) = tier_text GOOD) /\
  (forall exps : list ChaosExperiment,
      length exps = 5%nat -> completed_count exps = 2%nat ->
      (score exps == 40)%Q /\ assessment (score exps) = tier_text FAIR) /\
  Binary64.assessment (Binary64.score 3 5) = tier_text GOOD /\
  Binary64.assessment (Binary64.score 2 5) = tier_text FAIR.
Proof.
  split; [exact assessment_excellent|].
  split; [exact assessment_good|].
  split; [exact assessment_fair|].
  split; [exact assessment_needs_improvement|].
  split; [|split; [|split; reflexivity]].
  - intros exps Hn Hc.
    assert (Hs : (score exps == 60)%Q)
      by (rewrite (score_of_counts exps 3 4 Hn Hc); reflexivity).
    split; [exact Hs|].
    apply assessment_good; rewrite Hs; [apply Qle_refl | reflexivity].
  - intros exps Hn Hc.
    assert (Hs : (score exps == 40)%Q)
      by (rewrite (score_of_counts exps 2 4 Hn Hc); reflexivity).
    split; [exact Hs|].
    apply assessment_fair; rewrite Hs; [apply Qle_refl | reflexivity].
Qed.

Lemma assessment_thresholds_witness :
  let exps := [sample_completed; sample_failed; sample_completed;
               sample_failed; sample_completed] in
  length exps = 5%nat /\ completed_count exps = 3%nat /\
  (score exps == 60)%Q /\ assessment (score exps) = tier_text GOOD.
Proof.
  split; [reflexivity|]. split; [reflexivity|].
  apply (proj1 (proj2 (proj2 (proj2 (proj2 assessment_thresholds)))));
    reflexivity.
Defined.

(** Up to two hundred experiments, rounding never moves a score across a
    threshold: the binary64 assessment is the exact one. *)
Lemma binary64_assessment_exact (completed total : nat) :
  (completed <= total)%nat -> (total <= 200)%nat ->
  Binary64.assessment (Binary64.score completed total)
  = assessment (exact_score completed total).
Proof.
  intros Hc Hn.
  assert (Hall : forallb (fun n => forallb (fun c => assessments_agree c n)
                                     (seq 0 (S n))) (seq 0 201) = true)
    by (vm_compute; reflexivity).
  pose proof (forallb_counts 200 assessments_agree _ _ Hall Hc Hn) as H.
  unfold assessments_agree in H. now apply String.eqb_eq in H.
Qed.

(** ** Reasoning about runs *)

Lemma only_events_refl (w : State) : only_events w w.
Proof.
  repeat split. exists []. symmetry. apply app_nil_r.
Qed.

Lemma only_events_trans (w1 w2 w3 : State) :
  only_events w1 w2 -> only_events w2 w3 -> only_events w1 w3.
Proof.
  intros (Hs & Hc & He & Hb & evs & Ht) (Hs' & Hc' & He' & Hb' & evs' & Ht').
  repeat split; try congruence.
  exists (evs ++ evs'). rewrite Ht', Ht. symmetry. apply app_assoc.
Qed.

Lemma only_events_record (ev : Event) (w : State) :
  only_events w (record_event ev w).
Proof. repeat split. now exists [ev]. Qed.

Lemma only_events_record_r (ev : Event) (w w' : State) :
  only_events w w' -> only_events w (record_event ev w').
Proof.
  intros H. eapply only_events_trans; [exact H|apply only_events_record].
Qed.

Create HintDb chaos.
#[local] Hint Resolve only_events_refl only_events_record
  only_events_record_r : chaos.

(** Loops are stepped by their lemmas, not by simplification. *)
Arguments repeat_n : simpl never.
Arguments for_each : simpl never.

Lemma repeat_n_S {L} (n : nat) (body : M L unit) :
  repeat_n (S n) body = (body ;;; repeat_n n body).
Proof. reflexivity. Qed.

Lemma for_each_cons {L A} (x : A) (xs : list A) (body : A -> M L unit) :
  for_each (x :: xs) body = (body x ;;; for_each xs body).
Proof. reflexivity. Qed.

Lemma length_snoc {A} (xs : list A) (x : A) :
  length (xs ++ [x]) = S (length xs).
Proof. rewrite length_app. simpl. lia. Qed.

Lemma draws_snoc (tr : list Event) (ev : Event) :
  draws (tr ++ [ev]) = if is_draw ev then S (draws tr) else draws tr.
Proof.
  unfold draws. rewrite List.filter_app, length_app. simpl.
  destruct (is_draw ev); simpl; lia.
Qed.

(** Symbolic execution of straight-line code: unfold the monad and the
    calls into the outside world, and simplify. *)
Ltac run_step :=
  unfold bind, ret, raise, try_except, try_finally, get_state, get_locals,
    modify_state, modify_locals, emit, datetime_now, time_time,
    random_random, time_sleep, conn_cursor, cursor_close, driver, call,
    fetch_activity_count, method;
  simpl; rewrite ?length_snoc.
Ltac run := repeat progress run_step.

Arguments recovery_loop : simpl never.

Lemma add_events_nil (w : State) : add_events [] w = w.
Proof. destruct w. unfold add_events. simpl. now rewrite app_nil_r. Qed.

Lemma add_events_app (evs1 evs2 : list Event) (w : State) :
  add_events evs2 (add_events evs1 w) = add_events (evs1 ++ evs2) w.
Proof. unfold add_events. simpl. now rewrite app_assoc. Qed.

Lemma record_event_add (ev : Event) (w : State) :
  record_event ev w = add_events [ev] w.
Proof. reflexivity. Qed.

Ltac norm_events :=
  rewrite ?record_event_add, ?add_events_app; cbn [app].

Lemma framework_kept_refl (w : State) : framework_kept w w.
Proof. repeat split. exists []. symmetry. apply app_nil_r. Qed.

Lemma framework_kept_trans (w1 w2 w3 : State) :
  framework_kept w1 w2 -> framework_kept w2 w3 -> framework_kept w1 w3.
Proof.
  intros (Hc & He & Hb & evs & Ht) (Hc' & He' & Hb' & evs' & Ht').
  repeat split; try congruence.
  exists (evs ++ evs'). rewrite Ht', Ht. symmetry. apply app_assoc.
Qed.

Lemma framework_kept_record (ev : Event) (w w' : State) :
  framework_kept w w' -> framework_kept w (record_event ev w').
Proof.
  intros H. eapply framework_kept_trans; [exact H|]. repeat split. now exists [ev].
Qed.

Lemma framework_kept_sessions (ss : gset nat) (w w' : State) :
  framework_kept w w' -> framework_kept w (set_sessions ss w').
Proof.
  intros H. eapply framework_kept_trans; [exact H|]. repeat split.
  exists []. symmetry. apply app_nil_r.
Qed.

#[local] Hint Resolve framework_kept_refl framework_kept_record
  framework_kept_sessions : chaos.

Lemma framework_kept_experiments (w w' : State) :
  framework_kept w w' -> experiments w' = experiments w.
Proof. now intros (_ & He & _). Qed.

Lemma framework_kept_trace (w w' : State) :
  framework_kept w w' -> exists evs : list Event, trace w' = trace w ++ evs.
Proof. now intros (_ & _ & _ & H). Qed.

(** ** The trials of the random failure injector *)

(** One trial never raises, makes one draw, and adds one to exactly one
    counter: the failures if [trial_fails], the successes otherwise. *)
Lemma random_trial_outcome (env : Env) (l : RandomLocals) (w : State) :
  exists w' : State,
    random_trial env l w = (Ok tt, count_trial (trial_fails env w) l, w') /\
    draws (trace w') = S (draws (trace w)) /\
    length (trace w') = (trial_events env w + length (trace w))%nat /\
    only_events w w'.
Proof.
  unfold random_trial, trial_fails, trial_events, count_trial. run.
  destruct (Qltb _ _).
  - run. destruct (db_outcome env _ _); run;
      (eexists; split; [reflexivity|]; simpl; split;
       [rewrite !draws_snoc; reflexivity |
        split; [rewrite !length_snoc; reflexivity | auto with chaos]]).
  - run. destruct (db_outcome env _ _); run.
    + eexists; split; [reflexivity|]; simpl; split;
        [rewrite !draws_snoc; reflexivity |
         split; [rewrite !length_snoc; reflexivity | auto with chaos]].
    + destruct (db_outcome env _ _); run;
        (eexists; split; [reflexivity|]; simpl; split;
         [rewrite !draws_snoc; reflexivity |
          split; [rewrite !length_snoc; reflexivity | auto 6 with chaos]]).
Qed.

(** [n] trials never raise, make [n] draws and add [n] to the sum of the
    counters. *)
Lemma random_trials_counts (env : Env) (n : nat) :
  forall (l : RandomLocals) (w : State),
  exists (l' : RandomLocals) (w' : State),
    repeat_n n (random_trial env) l w = (Ok tt, l', w') /\
    rnd_experiment l' = rnd_experiment l /\
    (success_count l' + failure_count l'
     = success_count l + failure_count l + n)%nat /\
    only_events w w'.
Proof.
  induction n as [|n IH]; intros l w.
  - exists l, w. split; [reflexivity|]. split; [reflexivity|].
    split; [lia|auto with chaos].
  - destruct (random_trial_outcome env l w) as (w1 & E1 & _ & _ & Hw1).
    destruct (IH (count_trial (trial_fails env w) l) w1)
      as (l2 & w2 & E2 & Hx2 & Hc2 & Hw2).
    exists l2, w2. rewrite repeat_n_S. unfold bind at 1. rewrite E1, E2.
    split; [reflexivity|]. split; [exact Hx2|].
    split; [|eapply only_events_trans; eassumption].
    rewrite Hc2. simpl. destruct (trial_fails env w); lia.
Qed.

(** The injector, given the outcome of its loop: the counts are observed,
    the result is set to 'completed', and the experiment is registered. *)
Lemma inject_random_failures_runs (env : Env) (w : State) :
  cursor_opens env 1 w ->
  let t0 := wall_clock env (length (trace w)) in
  let w0 := record_event (EvDb Cursor None) (record_event (EvNow t0) w) in
  let l0 := {| rnd_experiment := set_start_time t0 (rnd_experiment random_locals);
               success_count := 0; failure_count := 0 |} in
  forall (l1 : RandomLocals) (w1 : State),
    repeat_n trials (random_trial env) l0 w0 = (Ok tt, l1, w1) ->
    let t1 := wall_clock env (S (length (trace w1))) in
    let e := set_end_time t1
               (set_result Completed
                  (observe (ObsCounts (success_count l1) (failure_count l1))
                     (rnd_experiment l1))) in
    inject_random_failures env w
    = (Ok e, push_experiment e
               (record_event (EvNow t1) (record_event EvCursorClose w1))).
Proof.
  intros [[c Hc] Hcur] t0 w0 l0 l1 w1 E t1 e.
  unfold inject_random_failures, inject_random_failures_body, on_rnd_experiment.
  simpl in Hcur.
  run. rewrite Hc. run. rewrite Hcur.
  match goal with
  | |- context [repeat_n trials (random_trial env) ?l ?w'] =>
      change (repeat_n trials (random_trial env) l w')
        with (repeat_n trials (random_trial env) l0 w0)
  end.
  rewrite E. rewrite length_snoc. reflexivity.
Qed.


Lemma completed_count_snoc (exps : list ChaosExperiment) (e : ChaosExperiment) :
  result e = Some Completed ->
  completed_count (exps ++ [e]) = S (completed_count exps).
Proof.
  intros He. induction exps as [|x rest IH]; simpl.
  - now rewrite He.
  - destruct (result x) as [[]|]; rewrite IH; reflexivity.
Qed.

(** When every draw is below the failure rate, every trial is counted as a
    failure. *)
Lemma random_trials_all_intentional (env : Env) (n : nat) :
  (forall k : nat, Qltb (rand env k) failure_rate = true) ->
  forall (l : RandomLocals) (w : State),
  exists (l' : RandomLocals) (w' : State),
    repeat_n n (random_trial env) l w = (Ok tt, l', w') /\
    success_count l' = success_count l /\
    failure_count l' = (failure_count l + n)%nat.
Proof.
  intros Hall. induction n as [|n IH]; intros l w.
  - exists l, w. repeat split. lia.
  - destruct (random_trial_outcome env l w) as (w1 & E1 & _).
    assert (Hf : trial_fails env w = true)
      by (unfold trial_fails; now rewrite Hall).
    rewrite Hf in E1.
    destruct (IH (count_trial true l) w1) as (l2 & w2 & E2 & Hs & Hc).
    exists l2, w2. rewrite repeat_n_S. unfold bind at 1. rewrite E1, E2.
    split; [reflexivity|]. simpl in Hs, Hc. split; [exact Hs|lia].
Qed.

Lemma cursor_opens_dec (env : Env) (w : State) :
  cursor_opens env 1 w \/ ~ cursor_opens env 1 w.
Proof.
  unfold cursor_opens. destruct (conn w) as [c|].
  - destruct (db_outcome env (1 + length (trace w)) Cursor) as [msg|].
    + right. intros [_ H]. discriminate.
    + left. split; [now exists c | reflexivity].
  - right. intros [[c H] _]. discriminate.
Qed.

(** Without a cursor the injector raises before anything is recorded. *)
Lemma inject_random_failures_no_cursor (env : Env) (w : State) :
  ~ cursor_opens env 1 w ->
  exists (e : Exn) (w' : State),
    inject_random_failures env w = (Raise e, w') /\
    experiments w' = experiments w.
Proof.
  intros Hno.
  unfold inject_random_failures, inject_random_failures_body, on_rnd_experiment.
  run. destruct (conn w) as [c|] eqn:Hc; run.
  - destruct (db_outcome env (S (length (trace w))) Cursor) as [msg|] eqn:Hcur.
    + do 2 eexists. split; reflexivity.
    + exfalso. apply Hno. split; [now exists c | exact Hcur].
  - do 2 eexists. split; reflexivity.
Qed.

(** C10: whatever the random source draws, the experiment of the random
    failure injector ends with result 'completed': the injected failures
    are counted in its observation and never change its result, also when
    all ten trials fail intentionally, so the experiment always adds one to
    the completed count of the score; no path records it as 'failed'. *)
Theorem random_failures_always_completed :
  (forall (env : Env) (w : State),
      cursor_opens env 1 w ->
      exists (e : ChaosExperiment) (w' : State) (s f : nat),
        inject_random_failures env w = (Ok e, w') /\
        result e = Some Completed /\
        observations e = [ObsCounts s f] /\ (s + f = 10)%nat /\
        experiments w' = experiments w ++ [e] /\
        completed_count (experiments w') = S (completed_count (experiments w))) /\
  (forall (env : Env) (w : State),
      cursor_opens env 1 w ->
      (forall k : nat, Qltb (rand env k) failure_rate = true) ->
      exists (e : ChaosExperiment) (w' : State),
        inject_random_failures env w = (Ok e, w') /\
        observations e = [ObsCounts 0 10] /\
        result e = Some Completed) /\
  (forall (env : Env) (w w' : State) (r : Result ChaosExperiment)
          (e : ChaosExperiment),
      inject_random_failures env w = (r, w') ->
      In e (experiments w') ->
      In e (experiments w) \/ result e = Some Completed).
Proof.
  split; [|split].
  - intros env w Hcur.
    pose proof (inject_random_failures_runs env w Hcur) as Hrun.
    cbv zeta in Hrun.
    match type of Hrun with
    | forall l1 w1, repeat_n _ _ ?l0 ?w0 = _ -> _ =>
        destruct (random_trials_counts env trials l0 w0)
          as (l1 & w1 & E & Hx & Hc & (_ & _ & Hexp & _))
    end.
    specialize (Hrun l1 w1 E). simpl in Hexp.
    do 2 eexists. exists (success_count l1), (failure_count l1).
    split; [exact Hrun|]. simpl. rewrite Hexp.
    split; [reflexivity|]. split; [rewrite Hx; reflexivity|].
    split; [exact Hc|]. split; [reflexivity|].
    now apply completed_count_snoc.
  - intros env w Hcur Hall.
    pose proof (inject_random_failures_runs env w Hcur) as Hrun.
    cbv zeta in Hrun.
    match type of Hrun with
    | forall l1 w1, repeat_n _ _ ?l0 ?w0 = _ -> _ =>
        destruct (random_trials_counts env trials l0 w0)
          as (l1 & w1 & E & Hx & _ & _);
        destruct (random_trials_all_intentional env trials Hall l0 w0)
          as (l1' & w1' & E' & Hs & Hf)
    end.
    rewrite E in E'. injection E' as <- <-.
    specialize (Hrun l1 w1 E).
    do 2 eexists. split; [exact Hrun|]. simpl.
    rewrite Hx, Hs, Hf. split; reflexivity.
  - intros env w w' r e Hrun Hin.
    destruct (cursor_opens_dec env w) as [Hcur|Hno].
    + pose proof (inject_random_failures_runs env w Hcur) as Hrun'.
      cbv zeta in Hrun'.
      match type of Hrun' with
      | forall l1 w1, repeat_n _ _ ?l0 ?w0 = _ -> _ =>
          destruct (random_trials_counts env trials l0 w0)
            as (l1 & w1 & E & _ & _ & Hw)
      end.
      specialize (Hrun' l1 w1 E). rewrite Hrun' in Hrun.
      injection Hrun as _ <-. simpl in Hin.
      destruct Hw as (_ & _ & Hexp & _). simpl in Hexp. rewrite Hexp in Hin.
      apply in_app_or in Hin as [Hin|[<-|[]]]; [now left|now right].
    + destruct (inject_random_failures_no_cursor env w Hno)
        as (e0 & w0 & E & Hexp).
      rewrite E in Hrun. injection Hrun as _ <-. left. now rewrite <- Hexp.
Qed.

Lemma cursor_opens_healthy (k : nat) : cursor_opens env_healthy k connected.
Proof. split; [now exists 0%nat | reflexivity]. Qed.

Lemma random_failures_always_completed_witness :
  cursor_opens env_healthy 1 connected /\
  exists (e : ChaosExperiment) (w' : State) (s f : nat),
    inject_random_failures env_healthy connected = (Ok e, w') /\
    result e = Some Completed /\
    observations e = [ObsCounts s f] /\ (s + f = 10)%nat /\
    experiments w' = experiments connected ++ [e] /\
    completed_count (experiments w') = S (completed_count (experiments connected)).
Proof.
  split; [apply cursor_opens_healthy|].
  exact (proj1 random_failures_always_completed env_healthy connected
           (cursor_opens_healthy 1)).
Defined.


(** ** Two runs of the random failure injector *)

Lemma trial_lockstep (env1 env2 : Env) (w1 w2 : State) :
  (forall i : nat, rand env1 i = rand env2 i) ->
  same_normal_outcomes env1 env2 ->
  length (trace w1) = length (trace w2) ->
  draws (trace w1) = draws (trace w2) ->
  trial_fails env1 w1 = trial_fails env2 w2 /\
  trial_events env1 w1 = trial_events env2 w2.
Proof.
  intros Hrand Hdb Hlen Hdraws. unfold trial_fails, trial_events.
  rewrite Hdraws, Hlen, Hrand.
  destruct (Qltb _ _); [split; reflexivity|].
  destruct (Hdb (S (length (trace w2)))) as [Hex _].
  destruct (Hdb (S (S (length (trace w2))))) as [_ Hfe].
  destruct (db_outcome env1 _ (Execute SqlSelectOne)),
           (db_outcome env2 _ (Execute SqlSelectOne));
    try (split; reflexivity);
    try (exfalso; destruct Hex as [H1 H2];
         first [specialize (H1 eq_refl) | specialize (H2 eq_refl)];
         discriminate).
  destruct (db_outcome env1 _ FetchOne), (db_outcome env2 _ FetchOne);
    try (split; reflexivity);
    exfalso; destruct Hfe as [H1 H2];
    first [specialize (H1 eq_refl) | specialize (H2 eq_refl)]; discriminate.
Qed.

(** Two runs of the loop in step: same draws, same outcomes of the normal
    queries, same counters at the start give the same counters at the end. *)
Lemma random_trials_lockstep (env1 env2 : Env) (n : nat) :
  (forall i : nat, rand env1 i = rand env2 i) ->
  same_normal_outcomes env1 env2 ->
  forall (l1 l2 : RandomLocals) (w1 w2 : State),
    length (trace w1) = length (trace w2) ->
    draws (trace w1) = draws (trace w2) ->
    success_count l1 = success_count l2 ->
    failure_count l1 = failure_count l2 ->
    exists (l1' l2' : RandomLocals) (w1' w2' : State),
      repeat_n n (random_trial env1) l1 w1 = (Ok tt, l1', w1') /\
      repeat_n n (random_trial env2) l2 w2 = (Ok tt, l2', w2') /\
      success_count l1' = success_count l2' /\
      failure_count l1' = failure_count l2'.
Proof.
  intros Hrand Hdb. induction n as [|n IH]; intros l1 l2 w1 w2 Hlen Hdr Hs Hf.
  - exists l1, l2, w1, w2. repeat split; assumption.
  - destruct (random_trial_outcome env1 l1 w1) as (w1' & E1 & Hd1 & Hl1 & _).
    destruct (random_trial_outcome env2 l2 w2) as (w2' & E2 & Hd2 & Hl2 & _).
    destruct (trial_lockstep env1 env2 w1 w2 Hrand Hdb Hlen Hdr) as [Hfl Hev].
    destruct (IH (count_trial (trial_fails env1 w1) l1)
                 (count_trial (trial_fails env2 w2) l2) w1' w2')
      as (l1'' & l2'' & w1'' & w2'' & R1 & R2 & Hs' & Hf').
    + rewrite Hl1, Hl2, Hev, Hlen. reflexivity.
    + rewrite Hd1, Hd2, Hdr. reflexivity.
    + simpl. rewrite Hfl, Hs. reflexivity.
    + simpl. rewrite Hfl, Hf. reflexivity.
    + exists l1'', l2'', w1'', w2''. rewrite !repeat_n_S.
      unfold bind at 1 2. rewrite E1, E2, R1, R2. repeat split; assumption.
Qed.

(** On a target whose normal queries succeed, the failures are the draws
    below the failure rate. *)
Lemma random_trials_healthy (env : Env) (n : nat) :
  normal_queries_succeed env ->
  forall (l : RandomLocals) (w : State),
  exists (l' : RandomLocals) (w' : State),
    repeat_n n (random_trial env) l w = (Ok tt, l', w') /\
    (failure_count l'
     = failure_count l + draws_below_rate env (draws (trace w)) n)%nat /\
    (success_count l' + failure_count l'
     = success_count l + failure_count l + n)%nat.
Proof.
  intros Hok. induction n as [|n IH]; intros l w.
  - exists l, w. split; [reflexivity|]. simpl. lia.
  - destruct (random_trial_outcome env l w) as (w1 & E1 & Hd1 & _).
    destruct (IH (count_trial (trial_fails env w) l) w1)
      as (l2 & w2 & E2 & Hf & Hsum).
    exists l2, w2. rewrite repeat_n_S. unfold bind at 1. rewrite E1, E2.
    split; [reflexivity|]. rewrite Hd1 in Hf.
    assert (Hfl : trial_fails env w
                  = Qltb (rand env (draws (trace w))) failure_rate).
    { unfold trial_fails. destruct (Qltb _ _); [reflexivity|].
      destruct (Hok (S (length (trace w)))) as [-> _].
      destruct (Hok (S (S (length (trace w))))) as [_ ->]. reflexivity. }
    rewrite Hfl in Hf, Hsum. simpl.
    destruct (Qltb _ _); simpl in Hf, Hsum; lia.
Qed.

(** C9, as stated, fails: two runs from the same state with the same
    random stream, one against a healthy target and one against a target
    that rejects the normal query, count 10/0 and 0/10. *)
Lemma same_seed_different_counts :
  rand env_healthy = rand env_select_fails /\
  observed_counts (fst (inject_random_failures env_healthy connected))
  = Some (10, 0)%nat /\
  observed_counts (fst (inject_random_failures env_select_fails connected))
  = Some (0, 10)%nat.
Proof. repeat split; vm_compute; reflexivity. Qed.

(** C9, amended: two runs of the random failure injector that start at
    the same point with the same random source state and obtain their
    cursor record identical counts when the normal queries have the same
    outcomes in both, event for event, whatever the intentional-error
    query, the clocks and the rest of the state do; and when the normal
    queries succeed in both, wherever the runs start, the failure count is
    the number of the ten draws below the failure rate. *)
Theorem same_seed_same_counts :
  (forall (env1 env2 : Env) (w1 w2 : State),
      (forall i : nat, rand env1 i = rand env2 i) ->
      draws (trace w1) = draws (trace w2) ->
      length (trace w1) = length (trace w2) ->
      same_normal_outcomes env1 env2 ->
      cursor_opens env1 1 w1 -> cursor_opens env2 1 w2 ->
      exists s f : nat,
        observed_counts (fst (inject_random_failures env1 w1)) = Some (s, f) /\
        observed_counts (fst (inject_random_failures env2 w2)) = Some (s, f)) /\
  (forall (env1 env2 : Env) (w1 w2 : State),
      (forall i : nat, rand env1 i = rand env2 i) ->
      draws (trace w1) = draws (trace w2) ->
      normal_queries_succeed env1 -> normal_queries_succeed env2 ->
      cursor_opens env1 1 w1 -> cursor_opens env2 1 w2 ->
      exists s f : nat,
        observed_counts (fst (inject_random_failures env1 w1)) = Some (s, f) /\
        observed_counts (fst (inject_random_failures env2 w2)) = Some (s, f) /\
        f = draws_below_rate env1 (draws (trace w1)) 10 /\
        (s + f = 10)%nat).
Proof.
  split.
  - intros env1 env2 w1 w2 Hrand Hdr Hlen Hdb Hc1 Hc2.
    pose proof (inject_random_failures_runs env1 w1 Hc1) as Hrun1.
    pose proof (inject_random_failures_runs env2 w2 Hc2) as Hrun2.
    cbv zeta in Hrun1, Hrun2.
    match type of Hrun1 with
    | forall l w, repeat_n _ _ ?l1 ?u1 = _ -> _ =>
        match type of Hrun2 with
        | forall l w, repeat_n _ _ ?l2 ?u2 = _ -> _ =>
            destruct (random_trials_lockstep env1 env2 trials Hrand Hdb
                        l1 l2 u1 u2)
              as (l1' & l2' & w1' & w2' & E1 & E2 & Hs & Hf);
            [simpl; rewrite !length_snoc; congruence
            |simpl; rewrite !draws_snoc; simpl; exact Hdr
            |reflexivity|reflexivity|];
            destruct (random_trials_counts env1 trials l1 u1)
              as (l1'' & w1'' & E1' & Hx1 & _);
            destruct (random_trials_counts env2 trials l2 u2)
              as (l2'' & w2'' & E2' & Hx2 & _)
        end
    end.
    rewrite E1 in E1'. injection E1' as <- <-.
    rewrite E2 in E2'. injection E2' as <- <-.
    rewrite (Hrun1 l1' w1' E1), (Hrun2 l2' w2' E2).
    exists (success_count l1'), (failure_count l1'). simpl.
    rewrite Hx1, Hx2, Hs, Hf. split; reflexivity.
  - intros env1 env2 w1 w2 Hrand Hdr Hok1 Hok2 Hc1 Hc2.
    pose proof (inject_random_failures_runs env1 w1 Hc1) as Hrun1.
    pose proof (inject_random_failures_runs env2 w2 Hc2) as Hrun2.
    cbv zeta in Hrun1, Hrun2.
    match type of Hrun1 with
    | forall l w, repeat_n _ _ ?l1 ?u1 = _ -> _ =>
        match type of Hrun2 with
        | forall l w, repeat_n _ _ ?l2 ?u2 = _ -> _ =>
            destruct (random_trials_healthy env1 trials Hok1 l1 u1)
              as (l1' & w1' & E1 & Hf1 & Hsum1);
            destruct (random_trials_healthy env2 trials Hok2 l2 u2)
              as (l2' & w2' & E2 & Hf2 & Hsum2);
            destruct (random_trials_counts env1 trials l1 u1)
              as (l1'' & w1'' & E1' & Hx1 & _);
            destruct (random_trials_counts env2 trials l2 u2)
              as (l2'' & w2'' & E2' & Hx2 & _)
        end
    end.
    rewrite E1 in E1'. injection E1' as <- <-.
    rewrite E2 in E2'. injection E2' as <- <-.
    rewrite (Hrun1 l1' w1' E1), (Hrun2 l2' w2' E2).
    cbn [failure_count success_count record_event trace Nat.add trials]
      in Hf1, Hf2, Hsum1, Hsum2.
    rewrite !draws_snoc in Hf1, Hf2. cbn [is_draw] in Hf1, Hf2.
    assert (Hbelow : forall n d, draws_below_rate env1 d n
                                 = draws_below_rate env2 d n).
    { induction n as [|n IHn]; intros d; simpl; [reflexivity|].
      now rewrite Hrand, IHn. }
    assert (Hff : failure_count l2' = failure_count l1').
    { rewrite Hf1, Hf2, <- Hdr. symmetry. apply Hbelow. }
    exists (success_count l1'), (failure_count l1'). simpl.
    rewrite Hx1, Hx2, Hff. simpl.
    replace (success_count l2') with (success_count l1') by lia.
    repeat split; try reflexivity; [exact Hf1 | exact Hsum1].
Qed.

Lemma same_seed_same_counts_witness :
  (forall i : nat, rand env_healthy i = rand env_half_second i) /\
  draws (trace connected) = draws (trace connected_baseline_5ms) /\
  normal_queries_succeed env_healthy /\
  normal_queries_succeed env_half_second /\
  cursor_opens env_healthy 1 connected /\
  cursor_opens env_half_second 1 connected_baseline_5ms /\
  exists s f : nat,
    observed_counts (fst (inject_random_failures env_healthy connected))
    = Some (s, f) /\
    observed_counts
      (fst (inject_random_failures env_half_second connected_baseline_5ms))
    = Some (s, f) /\
    f = draws_below_rate env_healthy (draws (trace connected)) 10 /\
    (s + f = 10)%nat.
Proof.
  assert (Hrand : forall i : nat, rand env_healthy i = rand env_half_second i)
    by reflexivity.
  assert (Hok1 : normal_queries_succeed env_healthy)
    by (intros k; split; reflexivity).
  assert (Hok2 : normal_queries_succeed env_half_second)
    by (intros k; split; reflexivity).
  assert (Hc1 : cursor_opens env_healthy 1 connected)
    by (split; [now exists 0%nat | reflexivity]).
  assert (Hc2 : cursor_opens env_half_second 1 connected_baseline_5ms)
    by (split; [now exists 0%nat | reflexivity]).
  repeat (split; [assumption || reflexivity|]).
  exact (proj2 same_seed_same_counts env_healthy env_half_second
           connected connected_baseline_5ms Hrand eq_refl Hok1 Hok2 Hc1 Hc2).
Defined.

(** ** The connection saturation injector *)

Lemma acquire_connection_step (env : Env) (l : SaturationLocals) (w : State) :
  (exists msg : string,
      acquire_connection env l w
      = (Raise (DbError msg), l, record_event (EvDb (Connect None) (Some msg)) w)) \/
  acquire_connection env l w
  = (Ok tt,
     {| sat_experiment := sat_experiment l;
        sat_connections := sat_connections l ++ [fresh (sessions w)] |},
     set_sessions ({[fresh (sessions w)]} ∪ sessions w)
       (record_event (EvDb (Connect None) None) w)).
Proof.
  unfold acquire_connection, psycopg2_connect, append_connection. run.
  destruct (db_outcome env _ _).
  - left. eexists. reflexivity.
  - right. reflexivity.
Qed.

(** The acquisition loop: the sessions it opened are the connections it
    appended, all new, whether it ran to the end or raised on the way. *)
Lemma acquire_connections (env : Env) (n : nat) :
  forall (l : SaturationLocals) (w : State),
  exists (r : Result unit) (opened : list nat) (w' : State),
    repeat_n n (acquire_connection env) l w
    = (r, {| sat_experiment := sat_experiment l;
             sat_connections := sat_connections l ++ opened |}, w') /\
    sessions w' = list_to_set opened ∪ sessions w /\
    (forall c : nat, c ∈ opened -> c ∉ sessions w) /\
    (r = Ok tt -> length opened = n) /\
    framework_kept w w'.
Proof.
  induction n as [|n IH]; intros l w.
  - exists (Ok tt), [], w. rewrite app_nil_r. split; [now destruct l|].
    split; [set_solver|]. split; [set_solver|]. split; [reflexivity|].
    apply framework_kept_refl.
  - rewrite repeat_n_S. unfold bind at 1.
    destruct (acquire_connection_step env l w) as [[msg E]|E]; rewrite E.
    + exists (Raise (DbError msg)), [], (record_event (EvDb (Connect None) (Some msg)) w).
      rewrite app_nil_r. split; [now destruct l|].
      split; [set_solver|]. split; [set_solver|]. split; [discriminate|].
      repeat split. now eexists.
    + match goal with
      | |- context [repeat_n n _ ?l1 ?w1] =>
          destruct (IH l1 w1) as (r & opened & w' & E' & Hs & Hnew & Hlen & Hk)
      end.
      exists r, (fresh (sessions w) :: opened), w'. rewrite E'. simpl.
      rewrite <- app_assoc. split; [reflexivity|].
      simpl in Hs, Hnew. split; [rewrite Hs; set_solver|].
      split; [|split].
      * intros c Hc. apply elem_of_cons in Hc as [->|Hc].
        -- apply is_fresh.
        -- specialize (Hnew c Hc). set_solver.
      * intros Hr. simpl. now rewrite Hlen.
      * eapply framework_kept_trans; [|exact Hk]. repeat split. now eexists.
Qed.

(** The finally block closes every connection of the list. *)
Lemma release_all (conns : list nat) :
  forall {L} (l : L) (w : State),
  exists w' : State,
    for_each conns conn_close l w = (Ok tt, l, w') /\
    sessions w' = sessions w ∖ list_to_set conns /\
    framework_kept w w'.
Proof.
  induction conns as [|c conns IH]; intros L l w.
  - exists w. split; [reflexivity|]. split; [set_solver|].
    apply framework_kept_refl.
  - rewrite for_each_cons. unfold bind at 1. unfold conn_close at 1. run.
    match goal with
    | |- context [for_each conns conn_close l ?w1] =>
        destruct (IH L l w1) as (w' & E & Hs & Hk)
    end.
    exists w'. rewrite E. split; [reflexivity|]. simpl in Hs.
    split; [rewrite Hs; set_solver|].
    eapply framework_kept_trans; [|exact Hk]. repeat split. now eexists.
Qed.

Lemma probe_extra_connection_step (env : Env) (l : SaturationLocals) (w : State) :
  exists (o : Observation) (w' : State),
    probe_extra_connection env l w
    = (Ok tt, {| sat_experiment := observe o (sat_experiment l);
                 sat_connections := sat_connections l |}, w') /\
    sessions w' = sessions w /\ framework_kept w w'.
Proof.
  unfold probe_extra_connection, psycopg2_connect, conn_close, on_sat_experiment.
  run. destruct (db_outcome env _ _); run.
  - do 2 eexists. split; [reflexivity|]. split; [reflexivity|].
    auto with chaos.
  - do 2 eexists. split; [reflexivity|]. 
    split; [simpl; pose proof (is_fresh (sessions w)); set_solver|].
    auto 6 with chaos.
Qed.

(** The injector always returns, its record complete, and with the
    sessions of the target as they were. *)
Lemma inject_connection_saturation_terminates (env : Env) (w : State) :
  exists (e : ChaosExperiment) (w' : State),
    inject_connection_saturation env w = (Ok e, w') /\
    sessions w' = sessions w /\
    terminated env w e w'.
Proof.
  unfold inject_connection_saturation, inject_connection_saturation_body.
  unfold method. unfold bind at 1. unfold datetime_now at 1.
  unfold bind at 1. unfold on_sat_experiment at 1. unfold modify_locals at 1.
  unfold bind at 1. unfold try_finally at 1. unfold try_except at 1.
  unfold bind at 1.
  match goal with
  | |- context [repeat_n max_connections _ ?l1 ?w1] =>
      destruct (acquire_connections env max_connections l1 w1)
        as (r & opened & w2 & E & Hs & Hnew & _ & Hk)
  end.
  rewrite E. clear E. simpl in Hs, Hnew.
  pose proof (framework_kept_trace _ _ Hk) as [evs2 Ht2].
  apply framework_kept_experiments in Hk. simpl in Hk, Ht2.
  cbn [sat_experiment sat_connections saturation_locals app].
  destruct r as [[]|e0].
  - unfold on_sat_experiment. run.
    match goal with
    | |- context [probe_extra_connection env ?l1 ?w1] =>
        destruct (probe_extra_connection_step env l1 w1)
          as (o & w3 & E3 & Hs3 & Hk3)
    end.
    rewrite E3. clear E3. unfold release_connections. run.
    match goal with
    | |- context [for_each ?cs conn_close ?l1 ?w1] =>
        destruct (release_all cs l1 w1) as (w4 & E4 & Hs4 & Hk4)
    end.
    rewrite E4. clear E4. run.
    pose proof (framework_kept_trace _ _ Hk3) as [evs3 Ht3].
    pose proof (framework_kept_trace _ _ Hk4) as [evs4 Ht4].
    apply framework_kept_experiments in Hk3, Hk4. simpl in Hk3, Hs3, Ht3.
    assert (Hss : sessions w4 = sessions w)
      by (rewrite Hs4, Hs3, Hs; set_solver).
    do 2 eexists. split; [reflexivity|]. split; [exact Hss|].
    unfold terminated. simpl. rewrite Hk4, Hk3, Hk, Ht4, Ht3, Ht2.
    split; [reflexivity|].
    split; [eexists; rewrite <- !app_assoc; reflexivity|].
    split; [eexists; split; [|reflexivity]; rewrite !length_app; simpl; lia|].
    split; [left; reflexivity|].
    split; [destruct o; discriminate|reflexivity].
  - unfold on_sat_experiment. run. unfold release_connections. run.
    match goal with
    | |- context [for_each ?cs conn_close ?l1 ?w1] =>
        destruct (release_all cs l1 w1) as (w4 & E4 & Hs4 & Hk4)
    end.
    rewrite E4. clear E4. run.
    pose proof (framework_kept_trace _ _ Hk4) as [evs4 Ht4].
    apply framework_kept_experiments in Hk4.
    assert (Hss : sessions w4 = sessions w)
      by (rewrite Hs4, Hs; set_solver).
    do 2 eexists. split; [reflexivity|]. split; [exact Hss|].
    unfold terminated. simpl. rewrite Hk4, Hk, Ht4, Ht2.
    split; [reflexivity|].
    split; [eexists; rewrite <- !app_assoc; reflexivity|].
    split; [eexists; split; [|reflexivity]; rewrite !length_app; simpl; lia|].
    split; [right; reflexivity|].
    split; [discriminate|reflexivity].
Qed.

(** C4: on every exit path of the connection saturation injector, the
    normal one and the one through its exception handler, every session
    the injector opened is closed again before it returns: the sessions
    open on the target, and so their count, are those open before. *)
Theorem saturation_releases_all_sessions (env : Env) (w : State) :
  exists (e : ChaosExperiment) (w' : State),
    inject_connection_saturation env w = (Ok e, w') /\
    sessions w' = sessions w /\
    active_connection_count w' = active_connection_count w /\
    (result e = Some Completed \/ result e = Some Failed) /\
    experiments w' = experiments w ++ [e].
Proof.
  destruct (inject_connection_saturation_terminates env w)
    as (e & w' & E & Hs & (_ & _ & _ & Hr & _ & Hexp)).
  exists e, w'. split; [exact E|]. split; [exact Hs|].
  split; [unfold active_connection_count; now rewrite Hs|].
  split; [exact Hr|exact Hexp].
Qed.

(** ** The suite when the target cannot be reached *)

Lemma connect_refused (env : Env) (w : State) (msg : string) :
  db_outcome env (length (trace w)) (Connect None) = Some msg ->
  connect env w
  = (Ok false,
     record_event (EvLog (LogConnectionFailed (DbError msg)))
       (record_event (EvDb (Connect None) (Some msg)) w)).
Proof.
  intros H. unfold connect, psycopg2_connect. run. rewrite H. reflexivity.
Qed.

(** C6, as stated, fails: against a target that refuses the connection
    the process exits with status 0. *)
Lemma unreachable_exit_code_zero :
  db_outcome env_unreachable 0 (Connect None) <> None /\
  fst (main env_unreachable ∅) = 0%Z.
Proof. split; [discriminate | reflexivity]. Qed.

(** C6, amended: if the initial connection fails, the suite runs no
    experiment and prints no report, whole or partial; it logs the failure
    and returns normally, as after a complete run, and the process exits
    with status 0. *)
Theorem connect_failure_stops_suite_quietly :
  (forall (env : Env) (w : State) (msg : string),
      db_outcome env (length (trace w)) (Connect None) = Some msg ->
      exists w' : State,
        run_chaos_suite env w = (Ok tt, w') /\
        experiments w' = experiments w /\
        sessions w' = sessions w /\
        trace w' = trace w ++ [EvDb (Connect None) (Some msg);
                               EvLog (LogConnectionFailed (DbError msg))]) /\
  (forall (env : Env) (ss : gset nat) (msg : string),
      db_outcome env 0 (Connect None) = Some msg ->
      exists w' : State,
        main env ss = (0%Z, w') /\
        experiments w' = [] /\
        report_printed w' = false).
Proof.
  split.
  - intros env w msg H. unfold run_chaos_suite. run.
    rewrite (connect_refused env w msg H). simpl.
    eexists. split; [reflexivity|]. simpl. rewrite <- app_assoc.
    repeat split.
  - intros env ss msg H. unfold main, run_chaos_suite. run.
    rewrite (connect_refused env (new_framework ss) msg H). simpl.
    eexists. split; [reflexivity|]. split; reflexivity.
Qed.

Lemma connect_failure_stops_suite_quietly_witness :
  db_outcome env_unreachable 0 (Connect None) = Some "connection refused" /\
  exists w' : State,
    main env_unreachable ∅ = (0%Z, w') /\
    experiments w' = [] /\
    report_printed w' = false.
Proof.
  split; [reflexivity|].
  exact (proj2 connect_failure_stops_suite_quietly env_unreachable ∅
           "connection refused" eq_refl).
Defined.

(** The one way to a nonzero exit status is an exception that reaches the
    top level, as when the setup phase raises. *)
Lemma setup_failure_exit_code_one :
  fst (main env_setup_fails ∅) = 1%Z /\
  experiments (snd (main env_setup_fails ∅)) = [] /\
  report_printed (snd (main env_setup_fails ∅)) = false.
Proof. repeat split; vm_compute; reflexivity. Qed.

(** ** The recovery test *)

Lemma recovery_loop_S (env : Env) (remaining : nat) :
  recovery_loop env (S remaining)
  = (let* broke := recovery_probe env in
     if broke : bool then ret tt else recovery_loop env remaining).
Proof. reflexivity. Qed.

(** One pass: a break without counting, or one more attempt and no break. *)
Lemma recovery_probe_step (env : Env) (a : nat) (w : State) :
  recovery_probe env a w
  = (Ok true, a,
     add_events [EvDb (Execute SqlSelectOne) None; EvDb FetchOne None] w) \/
  (exists msg : string,
      recovery_probe env a w
      = (Ok false, S a,
         add_events [EvDb (Execute SqlSelectOne) (Some msg); EvSleep 500] w)) \/
  (exists msg : string,
      recovery_probe env a w
      = (Ok false, S a,
         add_events [EvDb (Execute SqlSelectOne) None;
                     EvDb FetchOne (Some msg); EvSleep 500] w)).
Proof.
  unfold recovery_probe. run. destruct (db_outcome env _ _) as [msg|]; run.
  - right. left. exists msg. now norm_events.
  - destruct (db_outcome env _ _) as [msg|]; run.
    + right. right. exists msg. now norm_events.
    + left. now norm_events.
Qed.

(** The loop never raises; it makes [k] failed passes and then stops, on a
    successful pass with budget left, or with the budget exhausted. *)
Lemma recovery_loop_stops (env : Env) (remaining : nat) :
  forall (a : nat) (w : State),
  exists (k : nat) (b : bool) (evs : list Event),
    recovery_loop env remaining a w = (Ok tt, (a + k)%nat, add_events evs w) /\
    loop_events k b evs /\
    (if b then (k < remaining)%nat else k = remaining).
Proof.
  induction remaining as [|remaining IH]; intros a w.
  - exists 0%nat, false, []. rewrite add_events_nil, Nat.add_0_r.
    split; [reflexivity|]. split; [constructor|reflexivity].
  - rewrite recovery_loop_S. unfold bind at 1.
    destruct (recovery_probe_step env a w) as [E|[[msg E]|[msg E]]]; rewrite E.
    + exists 0%nat, true, [EvDb (Execute SqlSelectOne) None; EvDb FetchOne None].
      rewrite Nat.add_0_r. split; [reflexivity|]. split; [constructor|lia].
    + match goal with
      | |- context [recovery_loop env remaining ?a1 ?w1] =>
          destruct (IH a1 w1) as (k & b & evs & E' & Hev & Hk)
      end.
      exists (S k), b, (EvDb (Execute SqlSelectOne) (Some msg) :: EvSleep 500 :: evs).
      rewrite E', add_events_app. simpl. rewrite Nat.add_succ_r.
      split; [reflexivity|]. split; [now constructor|].
      destruct b; lia.
    + match goal with
      | |- context [recovery_loop env remaining ?a1 ?w1] =>
          destruct (IH a1 w1) as (k & b & evs & E' & Hev & Hk)
      end.
      exists (S k), b,
        (EvDb (Execute SqlSelectOne) None :: EvDb FetchOne (Some msg)
           :: EvSleep 500 :: evs).
      rewrite E', add_events_app. simpl. rewrite Nat.add_succ_r.
      split; [reflexivity|]. split; [now constructor|].
      destruct b; lia.
Qed.

Lemma recovery_probe_failing (env : Env) (a : nat) (w : State) (msg : string) :
  db_outcome env (length (trace w)) (Execute SqlSelectOne) = Some msg ->
  recovery_probe env a w
  = (Ok false, S a,
     add_events [EvDb (Execute SqlSelectOne) (Some msg); EvSleep 500] w).
Proof.
  intros H. unfold recovery_probe. run. rewrite H. run. now norm_events.
Qed.

(** Against a target whose liveness query fails on every attempt, every
    pass fails and the loop ends when the budget is exhausted. *)
Lemma recovery_loop_always_failing (env : Env) (remaining : nat) :
  (forall k : nat, db_outcome env k (Execute SqlSelectOne) <> None) ->
  forall (a : nat) (w : State),
  exists evs : list Event,
    recovery_loop env remaining a w
    = (Ok tt, (a + remaining)%nat, add_events evs w) /\
    loop_events remaining false evs.
Proof.
  intros Hdown. induction remaining as [|remaining IH]; intros a w.
  - exists []. rewrite add_events_nil, Nat.add_0_r.
    split; [reflexivity|constructor].
  - destruct (db_outcome env (length (trace w)) (Execute SqlSelectOne))
      as [msg|] eqn:Hq; [|now destruct (Hdown (length (trace w)))].
    rewrite recovery_loop_S. unfold bind at 1.
    rewrite (recovery_probe_failing env a w msg Hq).
    match goal with
    | |- context [recovery_loop env remaining ?a1 ?w1] =>
        destruct (IH a1 w1) as (evs & E' & Hev)
    end.
    exists (EvDb (Execute SqlSelectOne) (Some msg) :: EvSleep 500 :: evs).
    rewrite E', add_events_app. simpl. rewrite Nat.add_succ_r.
    split; [reflexivity|now constructor].
Qed.

Lemma logged_attempts_app (xs ys : list Event) :
  logged_attempts (xs ++ ys)
  = match logged_attempts ys with
    | Some a => Some a
    | None => logged_attempts xs
    end.
Proof.
  induction xs as [|ev xs IH]; simpl.
  - now destruct (logged_attempts ys).
  - rewrite IH. now destruct (logged_attempts ys).
Qed.

(** The recovery test, given the outcome of its loop. *)
Lemma test_recovery_time_runs (env : Env) (w : State) :
  cursor_opens env 0 w ->
  let start := timer env (S (length (trace w))) in
  forall (attempts : nat) (evs : list Event),
    recovery_loop env max_attempts 0
      (add_events [EvDb Cursor None; EvTime start] w)
    = (Ok tt, attempts, add_events evs (add_events [EvDb Cursor None; EvTime start] w)) ->
    let stop := timer env (length (trace w) + 2 + length evs) in
    let recovery_time := ((stop - start) * 1000)%Q in
    test_recovery_time env w
    = (Ok recovery_time,
       add_events ([EvDb Cursor None; EvTime start] ++ evs
                   ++ [EvTime stop; EvCursorClose;
                       EvLog (LogRecovery recovery_time attempts)]) w).
Proof.
  intros [[c Hc] Hcur] start attempts evs E stop recovery_time.
  unfold test_recovery_time. simpl in Hcur. run. rewrite Hc. run. rewrite Hcur.
  run. norm_events. fold start.
  change (recovery_loop env 10 0) with (recovery_loop env max_attempts 0).
  rewrite E. norm_events. simpl. rewrite !length_app. simpl.
  replace (length (trace w) + S (S (length evs)))%nat
    with (length (trace w) + 2 + length evs)%nat by lia.
  reflexivity.
Qed.

(** C7, as stated, fails: the test returns the elapsed time alone.  Against
    a target that never recovers it returns 5000 after 10 attempts, against
    one that answers at once but slowly it returns the same 5000 after 0
    attempts, so the attempt count is not part of what is returned; and
    when the cursor cannot be opened the exception leaves the test. *)
Lemma recovery_test_returns_time_only :
  (forall k : nat,
      db_outcome env_never_recovers k (Execute SqlSelectOne) <> None) /\
  fst (test_recovery_time env_never_recovers connected) = Ok (5000 # 1) /\
  logged_attempts (trace (snd (test_recovery_time env_never_recovers connected)))
  = Some 10%nat /\
  fst (test_recovery_time env_slow_answer connected) = Ok (5000 # 1) /\
  logged_attempts (trace (snd (test_recovery_time env_slow_answer connected)))
  = Some 0%nat /\
  (forall k : nat,
      db_outcome env_cursor_closed k (Execute SqlSelectOne) <> None) /\
  fst (test_recovery_time env_cursor_closed connected)
  = Raise (DbError "connection already closed").
Proof.
  split; [intros k; discriminate|].
  split; [vm_compute; reflexivity|]. split; [vm_compute; reflexivity|].
  split; [vm_compute; reflexivity|]. split; [vm_compute; reflexivity|].
  split; [intros k; discriminate|]. vm_compute; reflexivity.
Qed.

(** C7, amended: once its cursor is open the recovery test never raises;
    it makes failed passes, each followed by a pause, until the first
    successful probe or until the attempt counter reaches max_attempts = 10;
    it logs the attempt count and returns the elapsed time only.  Against a
    target whose liveness query fails on every attempt the count logged is
    10. *)
Theorem recovery_test_stops_and_returns_elapsed :
  (forall (env : Env) (w : State),
      cursor_opens env 0 w ->
      exists (attempts : nat) (succeeded : bool) (evs : list Event) (stop : Q),
        let start := timer env (S (length (trace w))) in
        let recovery_time := ((stop - start) * 1000)%Q in
        test_recovery_time env w
        = (Ok recovery_time,
           add_events ([EvDb Cursor None; EvTime start] ++ evs
                       ++ [EvTime stop; EvCursorClose;
                           EvLog (LogRecovery recovery_time attempts)]) w) /\
        loop_events attempts succeeded evs /\
        (if succeeded then (attempts < max_attempts)%nat
         else attempts = max_attempts)) /\
  (forall (env : Env) (w : State),
      cursor_opens env 0 w ->
      (forall k : nat, db_outcome env k (Execute SqlSelectOne) <> None) ->
      exists (evs : list Event) (stop : Q) (w' : State),
        let start := timer env (S (length (trace w))) in
        let recovery_time := ((stop - start) * 1000)%Q in
        test_recovery_time env w = (Ok recovery_time, w') /\
        w' = add_events ([EvDb Cursor None; EvTime start] ++ evs
                         ++ [EvTime stop; EvCursorClose;
                             EvLog (LogRecovery recovery_time 10)]) w /\
        loop_events 10 false evs /\
        logged_attempts (trace w') = Some 10%nat).
Proof.
  split.
  - intros env w Hcur.
    destruct (recovery_loop_stops env max_attempts 0
                (add_events [EvDb Cursor None;
                             EvTime (timer env (S (length (trace w))))] w))
      as (k & b & evs & E & Hev & Hk).
    exists k, b, evs. eexists. cbv zeta. split; [|split; [exact Hev|exact Hk]].
    exact (test_recovery_time_runs env w Hcur k evs E).
  - intros env w Hcur Hdown.
    destruct (recovery_loop_always_failing env max_attempts Hdown 0
                (add_events [EvDb Cursor None;
                             EvTime (timer env (S (length (trace w))))] w))
      as (evs & E & Hev).
    exists evs. do 2 eexists. cbv zeta.
    split; [exact (test_recovery_time_runs env w Hcur _ evs E)|].
    split; [reflexivity|]. split; [exact Hev|].
    simpl. repeat (rewrite logged_attempts_app; simpl). reflexivity.
Qed.

(** The loop equation of [while attempts < max_attempts]: the argument of
    [recovery_loop] is the distance of the counter from its bound. *)
Lemma recovery_loop_unfold (env : Env) (attempts : nat) :
  recovery_loop env (max_attempts - attempts)
  = if (attempts <? max_attempts)%nat
    then (let* broke := recovery_probe env in
          if broke : bool then ret tt
          else recovery_loop env (max_attempts - S attempts))
    else ret tt.
Proof.
  destruct (attempts <? max_attempts)%nat eqn:Hlt.
  - apply Nat.ltb_lt in Hlt.
    replace (max_attempts - attempts)%nat
      with (S (max_attempts - S attempts)) by lia.
    apply recovery_loop_S.
  - apply Nat.ltb_ge in Hlt.
    replace (max_attempts - attempts)%nat with 0%nat by lia. reflexivity.
Qed.

Lemma recovery_test_stops_and_returns_elapsed_witness :
  cursor_opens env_never_recovers 0 connected /\
  (forall k : nat,
      db_outcome env_never_recovers k (Execute SqlSelectOne) <> None) /\
  exists (evs : list Event) (stop : Q) (w' : State),
    let start := timer env_never_recovers (S (length (trace connected))) in
    let recovery_time := ((stop - start) * 1000)%Q in
    test_recovery_time env_never_recovers connected = (Ok recovery_time, w') /\
    w' = add_events ([EvDb Cursor None; EvTime start] ++ evs
                     ++ [EvTime stop; EvCursorClose;
                         EvLog (LogRecovery recovery_time 10)]) connected /\
    loop_events 10 false evs /\
    logged_attempts (trace w') = Some 10%nat.
Proof.
  assert (Hcur : cursor_opens env_never_recovers 0 connected)
    by (split; [now exists 0%nat | reflexivity]).
  assert (Hdown : forall k : nat,
             db_outcome env_never_recovers k (Execute SqlSelectOne) <> None)
    by (intros k; discriminate).
  split; [exact Hcur|]. split; [exact Hdown|].
  exact (proj2 recovery_test_stops_and_returns_elapsed
           env_never_recovers connected Hcur Hdown).
Defined.

(** ** The slow query injector *)

Ltac answer H :=
  repeat (first [ rewrite (proj1 (H _))
                | rewrite (proj1 (proj2 (H _)))
                | rewrite (proj2 (proj2 (H _))) ]; run).



(** A baseline latency of zero makes the division raise, and the
    experiment fail. *)
Lemma inject_slow_queries_zero_baseline (env : Env) (w : State) (b : BaselineMetrics) :
  cursor_opens env 1 w ->
  slow_queries_answered env ->
  baseline_metrics w = Some b ->
  (query_latency_ms b == 0)%Q ->
  exists (e : ChaosExperiment) (w' : State) (latency : Q),
    inject_slow_queries env w = (Ok e, w') /\
    result e = Some Failed /\
    observations e
    = [ObsLatencyDuringChaos latency; ObsBaselineLatency (query_latency_ms b);
       ObsError ZeroDivisionError].
Proof.
  intros [[c Hc] Hcur] Hdb Hb Hz. simpl in Hcur.
  unfold inject_slow_queries, inject_slow_queries_body, baseline_query_latency,
    float_div.
  run. rewrite Hc. run. rewrite Hcur. run. answer Hdb.
  repeat (rewrite Hb; run).
  apply Qeq_bool_iff in Hz. rewrite Hz. run.
  do 3 eexists. split; [reflexivity|]. simpl. split; reflexivity.
Qed.



(** ** The experiment record on every exit path *)

(** When the cursor cannot be opened, the three injectors that use one
    raise out of their body, the experiment unfinished and unregistered. *)
Lemma cursor_failure_escapes (env : Env) (w : State) (msg : string) :
  conn w <> None ->
  db_outcome env (S (length (trace w))) Cursor = Some msg ->
  (exists (l : ChaosExperiment) (w' : State),
      inject_high_cpu_load_body env high_cpu_load_experiment w
      = (Raise (DbError msg), l, w') /\
      unfinished l /\ experiments w' = experiments w) /\
  (exists (l : ChaosExperiment) (w' : State),
      inject_slow_queries_body env slow_queries_experiment w
      = (Raise (DbError msg), l, w') /\
      unfinished l /\ experiments w' = experiments w) /\
  (exists (l : RandomLocals) (w' : State),
      inject_random_failures_body env random_locals w
      = (Raise (DbError msg), l, w') /\
      unfinished (rnd_experiment l) /\ experiments w' = experiments w).
Proof.
  intros Hconn Hcur. destruct (conn w) as [c|] eqn:Hc; [|congruence].
  split; [|split];
    unfold inject_high_cpu_load_body, inject_slow_queries_body,
      inject_random_failures_body, on_rnd_experiment;
    run; rewrite Hc; run; rewrite Hcur;
    (do 2 eexists; split; [reflexivity|]; split; [|reflexivity];
     unfold unfinished; simpl; split; [discriminate|];
     split; [reflexivity|]; split; reflexivity).
Qed.

(** C1 fails on the code: with the connection of the framework gone, the
    CPU load, slow query and random failure injectors raise at the cursor
    they open outside their try block, leaving the experiment without end
    time, result and observation and out of the registry; in a suite whose
    target dies during the CPU load experiment this exception ends the
    process with status 1 and without a report. *)
Theorem cursor_failure_leaves_experiment_unfinished :
  (let '(r, l, w') := inject_high_cpu_load_body env_cursor_closed
                        high_cpu_load_experiment connected in
   r = Raise (DbError "connection already closed") /\
   start_time l = Some 0%Z /\ end_time l = None /\ result l = None /\
   observations l = [] /\ experiments w' = []) /\
  (let '(r, l, w') := inject_slow_queries_body env_cursor_closed
                        slow_queries_experiment connected in
   r = Raise (DbError "connection already closed") /\
   start_time l = Some 0%Z /\ end_time l = None /\ result l = None /\
   observations l = [] /\ experiments w' = []) /\
  (let '(r, l, w') := inject_random_failures_body env_cursor_closed
                        random_locals connected in
   r = Raise (DbError "connection already closed") /\
   start_time (rnd_experiment l) = Some 0%Z /\
   end_time (rnd_experiment l) = None /\ result (rnd_experiment l) = None /\
   observations (rnd_experiment l) = [] /\ experiments w' = []) /\
  (let '(status, w') := main env_dies_during_cpu_load ∅ in
   status = 1%Z /\
   map result (experiments w') = [Some Failed; Some Failed] /\
   report_printed w' = false).
Proof.
  split; [vm_compute; repeat (split; [reflexivity|]); reflexivity|].
  split; [vm_compute; repeat (split; [reflexivity|]); reflexivity|].
  split; [vm_compute; repeat (split; [reflexivity|]); reflexivity|].
  vm_compute. repeat (split; [reflexivity|]); reflexivity.
Qed.

(** Case analysis on every answer of the target met along a run. *)
Ltac explore :=
  repeat first
    [ progress run
    | match goal with
      | |- context [match db_outcome ?e ?k ?c with _ => _ end] =>
          destruct (db_outcome e k c)
      | |- context [match baseline_metrics ?w with _ => _ end] =>
          destruct (baseline_metrics w)
      | |- context [if Qeq_bool ?a ?b then _ else _] =>
          destruct (Qeq_bool a b)
      end ].

Ltac show_terminated :=
  do 2 eexists; split; [reflexivity|]; unfold terminated; simpl;
  split; [reflexivity|];
  split; [eexists; rewrite <- ?app_assoc; reflexivity|];
  split; [eexists; split; [|reflexivity]; lia|];
  split; [first [left; reflexivity | right; reflexivity]|];
  split; [discriminate|reflexivity].

(** On every path on which the cursor opens, whatever the statements
    answer, the injectors return with the record of the experiment
    complete; the connection saturation injector, which opens no cursor,
    always does ([inject_connection_saturation_terminates]). *)
Lemma inject_high_cpu_load_terminates (env : Env) (w : State) :
  cursor_opens env 1 w ->
  exists (e : ChaosExperiment) (w' : State),
    inject_high_cpu_load env w = (Ok e, w') /\ terminated env w e w'.
Proof.
  intros [[c Hc] Hcur]. simpl in Hcur.
  unfold inject_high_cpu_load, inject_high_cpu_load_body.
  run. rewrite Hc. run. rewrite Hcur. explore; show_terminated.
Qed.

Lemma inject_slow_queries_terminates (env : Env) (w : State) :
  cursor_opens env 1 w ->
  exists (e : ChaosExperiment) (w' : State),
    inject_slow_queries env w = (Ok e, w') /\ terminated env w e w'.
Proof.
  intros [[c Hc] Hcur]. simpl in Hcur.
  unfold inject_slow_queries, inject_slow_queries_body, baseline_query_latency,
    float_div.
  run. rewrite Hc. run. rewrite Hcur. explore; show_terminated.
Qed.

Lemma inject_random_failures_terminates (env : Env) (w : State) :
  cursor_opens env 1 w ->
  exists (e : ChaosExperiment) (w' : State),
    inject_random_failures env w = (Ok e, w') /\ terminated env w e w'.
Proof.
  intros Hcur.
  pose proof (inject_random_failures_runs env w Hcur) as Hrun.
  cbv zeta in Hrun.
  match type of Hrun with
  | forall l1 w1, repeat_n _ _ ?l0 ?w0 = _ -> _ =>
      destruct (random_trials_counts env trials l0 w0)
        as (l1 & w1 & E & Hx & _ & (_ & _ & Hexp & _ & evs & Htr))
  end.
  specialize (Hrun l1 w1 E). simpl in Hx, Hexp, Htr.
  do 2 eexists. split; [exact Hrun|]. unfold terminated. simpl.
  rewrite Hx, Hexp, Htr. simpl.
  split; [reflexivity|].
  split; [eexists; rewrite <- !app_assoc; reflexivity|].
  split; [eexists; split; [|reflexivity]; rewrite !length_app; simpl; lia|].
  split; [left; reflexivity|].
  split; [discriminate|reflexivity].
Qed.

(** With a clock that never goes back the end time is not before the
    start time. *)
Lemma terminated_times_ordered (env : Env) (w w' : State) (e : ChaosExperiment) :
  monotone_clock env -> terminated env w e w' ->
  exists t0 t1 : Z,
    start_time e = Some t0 /\ end_time e = Some t1 /\ (t0 <= t1)%Z.
Proof.
  intros Hmono (Hs & _ & (k & Hk & He) & _).
  exists (wall_clock env (length (trace w))), (wall_clock env k).
  split; [exact Hs|]. split; [exact He|]. now apply Hmono.
Qed.

(** * Further properties *)

(** ** connect, setup and capture_baseline *)

(** X1: connect never raises.  It returns True exactly when the driver
    opens the connection; then self.conn is a new session and the target
    has one session more, a session held before not being closed.
    Otherwise it returns False and only the failure is logged. *)
Theorem connect_never_raises (env : Env) (w : State) :
  match db_outcome env (length (trace w)) (Connect None) with
  | None =>
      exists w' : State,
        connect env w = (Ok true, w') /\
        conn w' = Some (fresh (sessions w)) /\
        sessions w' = {[fresh (sessions w)]} ∪ sessions w /\
        size (sessions w') = S (size (sessions w)) /\
        experiments w' = experiments w /\
        baseline_metrics w' = baseline_metrics w /\
        trace w' = trace w ++ [EvDb (Connect None) None; EvLog LogConnected]
  | Some msg =>
      connect env w
      = (Ok false,
         add_events [EvDb (Connect None) (Some msg);
                     EvLog (LogConnectionFailed (DbError msg))] w)
  end.
Proof.
  unfold connect, psycopg2_connect. run.
  destruct (db_outcome env (length (trace w)) (Connect None)) as [msg|]; run.
  - now norm_events.
  - eexists. split; [reflexivity|]. simpl.
    split; [reflexivity|]. split; [reflexivity|].
    split; [|split; [reflexivity|split; [reflexivity|]]].
    + rewrite size_union by (pose proof (is_fresh (sessions w)); set_solver).
      now rewrite size_singleton.
    + now rewrite <- app_assoc.
Qed.

(** X2: the methods that use self.conn raise AttributeError on a
    framework that never connected, before any call reaches the target;
    the three injectors among them have read their start time by then and
    register nothing. *)
Theorem methods_need_connection (env : Env) (w : State) :
  conn w = None ->
  setup env w = (Raise AttributeError, w) /\
  capture_baseline env w = (Raise AttributeError, w) /\
  test_recovery_time env w = (Raise AttributeError, w) /\
  (let started := record_event (EvNow (wall_clock env (length (trace w)))) w in
   inject_high_cpu_load env w = (Raise AttributeError, started) /\
   inject_slow_queries env w = (Raise AttributeError, started) /\
   inject_random_failures env w = (Raise AttributeError, started)).
Proof.
  intros Hc.
  unfold setup, capture_baseline, test_recovery_time, inject_high_cpu_load,
    inject_slow_queries, inject_random_failures, inject_high_cpu_load_body,
    inject_slow_queries_body, inject_random_failures_body, on_rnd_experiment.
  run. rewrite Hc. run. cbv zeta. repeat (split; [reflexivity|]). reflexivity.
Qed.

Lemma methods_need_connection_witness :
  conn (new_framework ∅) = None /\
  setup env_healthy (new_framework ∅) = (Raise AttributeError, new_framework ∅).
Proof.
  split; [reflexivity|].
  exact (proj1 (methods_need_connection env_healthy (new_framework ∅) eq_refl)).
Defined.

(** X3: capture_baseline either returns with the three metrics set
    together (the latency from the two timer readings around the count
    query, the count the target returned in the row of the second fetch,
    the time stamp read after the cursor is closed) or raises with the
    baseline it found, never a partial one; it changes nothing else of the
    framework.  The stored count is the fetched value, whatever the
    sessions of the program are. *)
Theorem capture_baseline_all_or_nothing (env : Env) (w : State) :
  exists (r : Result unit) (w' : State),
    capture_baseline env w = (r, w') /\
    sessions w' = sessions w /\ conn w' = conn w /\
    experiments w' = experiments w /\
    match r with
    | Ok _ =>
        baseline_metrics w'
        = Some {| query_latency_ms :=
                    (timer env (4 + length (trace w))
                     - timer env (1 + length (trace w))) * 1000;
                  active_connections :=
                    activity_count env (6 + length (trace w));
                  timestamp := wall_clock env (8 + length (trace w)) |}
    | Raise _ => baseline_metrics w' = baseline_metrics w
    end.
Proof.
  unfold capture_baseline. run.
  destruct (conn w) eqn:Hc; explore;
    (do 2 eexists; split; [reflexivity|]; simpl; rewrite ?Hc;
     repeat (split; [reflexivity|]); reflexivity).
Qed.

(** ** The injectors one by one *)

(** X4: once its cursor is open, the CPU load injector registers one
    experiment named "High CPU Load": completed with the one observation
    of the query when the expensive query and its fetch succeed, failed
    with the driver's message as the one observation when either raises;
    on every path the cursor is closed before the end time is read, and
    the fetch is not attempted after a query that raised. *)
Theorem cpu_load_outcome (env : Env) (w : State) :
  cursor_opens env 1 w ->
  let n := length (trace w) in
  let t0 := wall_clock env n in
  exists (e : ChaosExperiment) (w' : State),
    inject_high_cpu_load env w = (Ok e, w') /\
    name e = "High CPU Load" /\ blast_radius e = "database" /\
    start_time e = Some t0 /\
    experiments w' = experiments w ++ [e] /\
    sessions w' = sessions w /\
    match db_outcome env (2 + n) (Execute SqlCrossJoin),
          db_outcome env (3 + n) FetchAll with
    | None, None =>
        result e = Some Completed /\ observations e = [ObsCpuQueryExecuted] /\
        end_time e = Some (wall_clock env (5 + n)) /\
        trace w' = trace w ++ [EvNow t0; EvDb Cursor None;
                               EvDb (Execute SqlCrossJoin) None;
                               EvDb FetchAll None; EvCursorClose;
                               EvNow (wall_clock env (5 + n))]
    | None, Some msg =>
        result e = Some Failed /\ observations e = [ObsError (DbError msg)] /\
        end_time e = Some (wall_clock env (5 + n)) /\
        trace w' = trace w ++ [EvNow t0; EvDb Cursor None;
                               EvDb (Execute SqlCrossJoin) None;
                               EvDb FetchAll (Some msg); EvCursorClose;
                               EvNow (wall_clock env (5 + n))]
    | Some msg, _ =>
        result e = Some Failed /\ observations e = [ObsError (DbError msg)] /\
        end_time e = Some (wall_clock env (4 + n)) /\
        trace w' = trace w ++ [EvNow t0; EvDb Cursor None;
                               EvDb (Execute SqlCrossJoin) (Some msg);
                               EvCursorClose;
                               EvNow (wall_clock env (4 + n))]
    end.
Proof.
  intros [[c Hc] Hcur] n t0. simpl in Hcur. subst n t0.
  unfold inject_high_cpu_load, inject_high_cpu_load_body.
  run. rewrite Hc. run. rewrite Hcur. run.
  destruct (db_outcome env (S (S (length (trace w)))) (Execute SqlCrossJoin))
    as [msg|] eqn:Hq; run.
  - do 2 eexists. split; [reflexivity|]. simpl. rewrite <- !app_assoc.
    repeat (split; [reflexivity|]). reflexivity.
  - destruct (db_outcome env (S (S (S (length (trace w))))) FetchAll)
      as [msg|] eqn:Hf; run;
      (do 2 eexists; split; [reflexivity|]; simpl; rewrite <- !app_assoc;
       repeat (split; [reflexivity|]); reflexivity).
Qed.

Lemma cpu_load_outcome_witness :
  cursor_opens env_healthy 1 connected /\
  exists (e : ChaosExperiment) (w' : State),
    inject_high_cpu_load env_healthy connected = (Ok e, w') /\
    name e = "High CPU Load" /\ result e = Some Completed.
Proof.
  split; [apply cursor_opens_healthy|].
  destruct (cpu_load_outcome env_healthy connected (cursor_opens_healthy 1))
    as (e & w' & E & Hn & _ & _ & _ & _ & Hr & _).
  exists e, w'. split; [exact E|]. split; [exact Hn|exact Hr].
Defined.

Lemma acquire_connection_oracle (env : Env) (l : SaturationLocals) (w : State) :
  acquire_connection env l w
  = match db_outcome env (length (trace w)) (Connect None) with
    | Some msg =>
        (Raise (DbError msg), l, record_event (EvDb (Connect None) (Some msg)) w)
    | None =>
        (Ok tt,
         {| sat_experiment := sat_experiment l;
            sat_connections := sat_connections l ++ [fresh (sessions w)] |},
         set_sessions ({[fresh (sessions w)]} ∪ sessions w)
           (record_event (EvDb (Connect None) None) w))
    end.
Proof.
  unfold acquire_connection, psycopg2_connect, append_connection. run.
  now destruct (db_outcome env _ _).
Qed.

Arguments first_refusal : simpl never.

Lemma first_refusal_S (env : Env) (start n : nat) :
  first_refusal env start (S n)
  = match db_outcome env start (Connect None) with
    | Some msg => Some (0%nat, msg)
    | None =>
        match first_refusal env (S start) n with
        | Some (k, msg) => Some (S k, msg)
        | None => None
        end
    end.
Proof. reflexivity. Qed.

(** The acquisition loop against the oracle: it stops at the first
    connection refused; the connections opened before are all held. *)
Lemma acquire_connections_outcome (env : Env) (n : nat) :
  forall (l : SaturationLocals) (w : State),
  exists (opened : list nat) (w' : State),
    repeat_n n (acquire_connection env) l w
    = (match first_refusal env (length (trace w)) n with
       | None => Ok tt
       | Some (_, msg) => Raise (DbError msg)
       end,
       {| sat_experiment := sat_experiment l;
          sat_connections := sat_connections l ++ opened |}, w') /\
    length opened = match first_refusal env (length (trace w)) n with
                    | None => n
                    | Some (k, _) => k
                    end /\
    length (trace w') = (match first_refusal env (length (trace w)) n with
                         | None => n
                         | Some (k, _) => S k
                         end + length (trace w))%nat /\
    sessions w' = list_to_set opened ∪ sessions w /\
    (forall c : nat, c ∈ opened -> c ∉ sessions w) /\
    NoDup opened /\
    framework_kept w w'.
Proof.
  induction n as [|n IH]; intros l w.
  - exists [], w. rewrite app_nil_r. change (first_refusal env (length (trace w)) 0) with (@None (nat * string)).
    split; [now destruct l|]. split; [reflexivity|]. split; [reflexivity|].
    split; [set_solver|]. split; [set_solver|]. split; [constructor|].
    apply framework_kept_refl.
  - rewrite repeat_n_S. unfold bind at 1. rewrite acquire_connection_oracle.
    rewrite first_refusal_S.
    destruct (db_outcome env (length (trace w)) (Connect None)) as [msg|].
    + exists [], (record_event (EvDb (Connect None) (Some msg)) w).
      rewrite app_nil_r. simpl. rewrite length_snoc.
      split; [now destruct l|]. split; [reflexivity|].
      split; [reflexivity|]. split; [set_solver|]. split; [set_solver|].
      split; [constructor|]. auto with chaos.
    + match goal with
      | |- context [repeat_n n _ ?l1 ?w1] =>
          destruct (IH l1 w1)
            as (opened & w' & E & Hlen & Htr & Hs & Hnew & Hnd & Hk)
      end.
      simpl in E, Hlen, Htr, Hs, Hnew. rewrite length_snoc in E, Hlen, Htr.
      exists (fresh (sessions w) :: opened), w'. rewrite E.
      rewrite <- app_assoc. simpl.
      destruct (first_refusal env (S (length (trace w))) n) as [[k msg]|].
      * split; [reflexivity|]. split; [now rewrite Hlen|].
        split; [rewrite Htr; lia|]. split; [rewrite Hs; set_solver|].
        split; [|split].
        -- intros c Hc. apply elem_of_cons in Hc as [->|Hc];
             [apply is_fresh | specialize (Hnew c Hc); set_solver].
        -- constructor; [|exact Hnd]. intros Hin.
           specialize (Hnew _ Hin). set_solver.
        -- eapply framework_kept_trans; [|exact Hk]. auto with chaos.
      * split; [reflexivity|]. split; [now rewrite Hlen|].
        split; [rewrite Htr; lia|]. split; [rewrite Hs; set_solver|].
        split; [|split].
        -- intros c Hc. apply elem_of_cons in Hc as [->|Hc];
             [apply is_fresh | specialize (Hnew c Hc); set_solver].
        -- constructor; [|exact Hnd]. intros Hin.
           specialize (Hnew _ Hin). set_solver.
        -- eapply framework_kept_trans; [|exact Hk]. auto with chaos.
Qed.

Lemma probe_extra_connection_oracle (env : Env) (l : SaturationLocals) (w : State) :
  exists w' : State,
    probe_extra_connection env l w
    = (Ok tt,
       {| sat_experiment :=
            observe (match db_outcome env (length (trace w)) (Connect (Some 2%nat)) with
                     | None => ObsExtraSucceeded
                     | Some _ => ObsExtraBlocked
                     end) (sat_experiment l);
          sat_connections := sat_connections l |}, w') /\
    sessions w' = sessions w /\ framework_kept w w'.
Proof.
  unfold probe_extra_connection, psycopg2_connect, conn_close, on_sat_experiment.
  run. destruct (db_outcome env _ _); run.
  - eexists. split; [reflexivity|]. split; [reflexivity|]. auto with chaos.
  - eexists. split; [reflexivity|].
    split; [simpl; pose proof (is_fresh (sessions w)); set_solver|].
    auto 6 with chaos.
Qed.

(** Every run of the connection saturation injector, by the answers of
    the target. *)
Lemma inject_connection_saturation_cases (env : Env) (w : State) :
  let n := length (trace w) in
  exists (e : ChaosExperiment) (w' : State),
    inject_connection_saturation env w = (Ok e, w') /\
    name e = "Connection Saturation" /\ blast_radius e = "connection_pool" /\
    experiments w' = experiments w ++ [e] /\
    conn w' = conn w /\ baseline_metrics w' = baseline_metrics w /\
    match first_refusal env (1 + n) max_connections with
    | None =>
        result e = Some Completed /\
        observations e
        = [ObsCreatedConnections 10;
           match db_outcome env (12 + n) (Connect (Some 2%nat)) with
           | None => ObsExtraSucceeded
           | Some _ => ObsExtraBlocked
           end]
    | Some (_, msg) =>
        result e = Some Failed /\ observations e = [ObsError (DbError msg)]
    end.
Proof.
  intros n. subst n.
  unfold inject_connection_saturation, inject_connection_saturation_body.
  unfold method. unfold bind at 1. unfold datetime_now at 1.
  unfold bind at 1. unfold on_sat_experiment at 1. unfold modify_locals at 1.
  unfold bind at 1. unfold try_finally at 1. unfold try_except at 1.
  unfold bind at 1.
  match goal with
  | |- context [repeat_n max_connections _ ?l1 ?w1] =>
      destruct (acquire_connections_outcome env max_connections l1 w1)
        as (opened & w2 & E & Hlen & Htr & _ & _ & _ & Hk)
  end.
  rewrite E. clear E. simpl in Hlen, Htr. rewrite length_snoc in Hlen, Htr.
  cbn [sat_experiment sat_connections saturation_locals app record_event trace].
  rewrite !length_snoc.
  change (1 + length (trace w))%nat with (S (length (trace w))).
  destruct (first_refusal env (S (length (trace w))) max_connections)
    as [[k msg]|].
  - unfold on_sat_experiment. run. unfold release_connections. run.
    match goal with
    | |- context [for_each ?cs conn_close ?l1 ?w1] =>
        destruct (release_all cs l1 w1) as (w4 & E4 & _ & Hk4)
    end.
    rewrite E4. clear E4. run.
    destruct Hk as (Hc2 & He2 & Hb2 & _). destruct Hk4 as (Hc4 & He4 & Hb4 & _).
    simpl in Hc2, He2, Hb2.
    do 2 eexists. split; [reflexivity|]. simpl.
    rewrite He4, He2, Hc4, Hc2, Hb4, Hb2.
    repeat (split; [reflexivity|]). reflexivity.
  - unfold on_sat_experiment. run.
    match goal with
    | |- context [probe_extra_connection env ?l1 ?w1] =>
        destruct (probe_extra_connection_oracle env l1 w1)
          as (w3 & E3 & _ & Hk3)
    end.
    rewrite E3. clear E3. unfold release_connections. run.
    match goal with
    | |- context [for_each ?cs conn_close ?l1 ?w1] =>
        destruct (release_all cs l1 w1) as (w4 & E4 & _ & Hk4)
    end.
    rewrite E4. clear E4. run.
    destruct Hk as (Hc2 & He2 & Hb2 & _). destruct Hk3 as (Hc3 & He3 & Hb3 & _).
    destruct Hk4 as (Hc4 & He4 & Hb4 & _).
    simpl in Hc2, He2, Hb2, Hc3, He3, Hb3.
    do 2 eexists. split; [reflexivity|]. simpl.
    rewrite He4, He3, He2, Hc4, Hc3, Hc2, Hb4, Hb3, Hb2, Hlen, Htr.
    repeat (split; [reflexivity|]). reflexivity.
Qed.

(** X5: the connection saturation injector always returns, with one
    experiment named "Connection Saturation" registered.  The experiment
    is completed exactly when none of the ten connections is refused; it
    then observes the ten connections and the outcome of the extra
    connection, which changes the observation only.  When a connection is
    refused the experiment is failed and observes the driver's message
    alone.  The connection and the baseline of the framework are not
    touched. *)
Theorem saturation_outcome (env : Env) (w : State) :
  let n := length (trace w) in
  exists (e : ChaosExperiment) (w' : State),
    inject_connection_saturation env w = (Ok e, w') /\
    name e = "Connection Saturation" /\ blast_radius e = "connection_pool" /\
    experiments w' = experiments w ++ [e] /\
    conn w' = conn w /\ baseline_metrics w' = baseline_metrics w /\
    match first_refusal env (1 + n) max_connections with
    | None =>
        result e = Some Completed /\
        observations e
        = [ObsCreatedConnections 10;
           match db_outcome env (12 + n) (Connect (Some 2%nat)) with
           | None => ObsExtraSucceeded
           | Some _ => ObsExtraBlocked
           end]
    | Some (_, msg) =>
        result e = Some Failed /\ observations e = [ObsError (DbError msg)]
    end.
Proof. exact (inject_connection_saturation_cases env w). Qed.

(** X6: the acquisition loop holds every session it opens: after it the
    target has ten sessions more than before, or as many as were opened
    before the first refusal, at which the loop stops with the driver's
    exception. *)
Theorem acquisition_holds_sessions (env : Env) (l : SaturationLocals) (w : State) :
  exists (opened : list nat) (w' : State),
    repeat_n max_connections (acquire_connection env) l w
    = (match first_refusal env (length (trace w)) max_connections with
       | None => Ok tt
       | Some (_, msg) => Raise (DbError msg)
       end,
       {| sat_experiment := sat_experiment l;
          sat_connections := sat_connections l ++ opened |}, w') /\
    active_connection_count w'
    = (match first_refusal env (length (trace w)) max_connections with
       | None => 10
       | Some (k, _) => k
       end + active_connection_count w)%nat /\
    (forall c : nat, c ∈ opened -> c ∈ sessions w' /\ c ∉ sessions w).
Proof.
  destruct (acquire_connections_outcome env max_connections l w)
    as (opened & w' & E & Hlen & _ & Hs & Hnew & Hnd & _).
  exists opened, w'. split; [exact E|]. split.
  - unfold active_connection_count. rewrite Hs.
    rewrite size_union by (intros c Hc; apply elem_of_list_to_set in Hc;
                           exact (Hnew c Hc)).
    rewrite size_list_to_set by exact Hnd. rewrite Hlen.
    now destruct (first_refusal env (length (trace w)) max_connections)
      as [[k msg]|].
  - intros c Hc. split; [rewrite Hs; set_solver|exact (Hnew c Hc)].
Qed.

(** Case analysis on every answer of the target, keeping the answers. *)
Ltac explore_eqn :=
  repeat first
    [ progress run
    | match goal with
      | H : baseline_metrics ?w = _ |- context [baseline_metrics ?w] =>
          rewrite H
      | |- context [match db_outcome ?e ?k ?c with _ => _ end] =>
          destruct (db_outcome e k c) eqn:?
      | |- context [match baseline_metrics ?w with _ => _ end] =>
          destruct (baseline_metrics w) eqn:?
      | |- context [if Qeq_bool ?a ?b then _ else _] =>
          destruct (Qeq_bool a b) eqn:?
      end ].

(** X7: once its cursor is open, the slow query injector registers one
    experiment named "Slow Query Injection", and the experiment is
    completed exactly when its four driver calls succeed and a baseline
    latency is present and not zero; otherwise it is failed, its last
    observation being the error.  A baseline latency of zero, as a coarse
    timer yields, therefore fails the experiment. *)
Theorem slow_queries_outcome (env : Env) (w : State) :
  cursor_opens env 1 w ->
  let n := length (trace w) in
  exists (e : ChaosExperiment) (w' : State),
    inject_slow_queries env w = (Ok e, w') /\
    name e = "Slow Query Injection" /\ blast_radius e = "query_performance" /\
    experiments w' = experiments w ++ [e] /\
    sessions w' = sessions w /\ baseline_metrics w' = baseline_metrics w /\
    (result e = Some Completed <->
       db_outcome env (2 + n) (Execute SqlPgSleep2) = None /\
       db_outcome env (3 + n) FetchOne = None /\
       db_outcome env (5 + n) (Execute SqlCountRows) = None /\
       db_outcome env (6 + n) FetchOne = None /\
       exists b : BaselineMetrics,
         baseline_metrics w = Some b /\ ~ (query_latency_ms b == 0)%Q) /\
    (result e <> Some Completed ->
       result e = Some Failed /\
       exists (seen : list Observation) (err : Exn),
         observations e = seen ++ [ObsError err]).
Proof.
  intros [[c Hc] Hcur] n. subst n. simpl in Hcur. simpl.
  unfold inject_slow_queries, inject_slow_queries_body, baseline_query_latency,
    float_div.
  run. rewrite Hc. run. rewrite Hcur. explore_eqn;
    (do 2 eexists; split; [reflexivity|]; simpl;
     repeat (split; [first [reflexivity | assumption]|]);
     split;
     [ split;
       [ first [ discriminate
               | intros _; repeat (split; [reflexivity|]);
                 eexists; split; [reflexivity|];
                 intros Hz; apply Qeq_bool_iff in Hz; congruence ]
       | first [ reflexivity
               | intros (H1 & H2 & H3 & H4 & b' & Hb & Hz);
                 first [ congruence
                       | exfalso; injection Hb as <-; apply Hz;
                         now apply Qeq_bool_iff ] ] ]
     | first [ intros H; now contradiction H
             | intros _; split; [reflexivity|];
               first [ now eexists [], _
                     | now eexists [_], _
                     | now eexists [_; _], _ ] ] ]).
Qed.

Lemma slow_queries_outcome_witness :
  cursor_opens env_half_second 1 connected_baseline_5ms /\
  exists (e : ChaosExperiment) (w' : State),
    inject_slow_queries env_half_second connected_baseline_5ms = (Ok e, w') /\
    name e = "Slow Query Injection".
Proof.
  assert (Hcur : cursor_opens env_half_second 1 connected_baseline_5ms)
    by (split; [now exists 0%nat | reflexivity]).
  split; [exact Hcur|].
  destruct (slow_queries_outcome env_half_second connected_baseline_5ms Hcur)
    as (e & w' & E & Hn & _).
  exists e, w'. split; [exact E|exact Hn].
Defined.

(** [n] trials make [n] draws. *)
Lemma random_trials_draws (env : Env) (n : nat) :
  forall (l : RandomLocals) (w : State),
  exists (l' : RandomLocals) (w' : State),
    repeat_n n (random_trial env) l w = (Ok tt, l', w') /\
    draws (trace w') = (n + draws (trace w))%nat.
Proof.
  induction n as [|n IH]; intros l w.
  - exists l, w. split; reflexivity.
  - destruct (random_trial_outcome env l w) as (w1 & E1 & Hd1 & _).
    destruct (IH (count_trial (trial_fails env w) l) w1) as (l2 & w2 & E2 & Hd2).
    exists l2, w2. rewrite repeat_n_S. unfold bind at 1. rewrite E1, E2.
    split; [reflexivity|]. rewrite Hd2, Hd1. lia.
Qed.

(** X8: once its cursor is open, the random failure injector takes
    exactly ten numbers from the random source, whatever is drawn and
    whatever the target answers: a run that follows sees the stream ten
    positions further. *)
Theorem random_failures_take_ten_draws (env : Env) (w : State) :
  cursor_opens env 1 w ->
  exists (e : ChaosExperiment) (w' : State),
    inject_random_failures env w = (Ok e, w') /\
    name e = "Random Transaction Failures" /\ blast_radius e = "transactions" /\
    draws (trace w') = (10 + draws (trace w))%nat.
Proof.
  intros Hcur.
  pose proof (inject_random_failures_runs env w Hcur) as Hrun.
  cbv zeta in Hrun.
  match type of Hrun with
  | forall l1 w1, repeat_n _ _ ?l0 ?w0 = _ -> _ =>
      destruct (random_trials_draws env trials l0 w0) as (l1 & w1 & E & Hd);
      destruct (random_trials_counts env trials l0 w0)
        as (l1' & w1' & E' & Hx & _)
  end.
  rewrite E in E'. injection E' as <- <-.
  specialize (Hrun l1 w1 E).
  do 2 eexists. split; [exact Hrun|]. simpl. rewrite Hx. simpl.
  split; [reflexivity|]. split; [reflexivity|].
  rewrite !draws_snoc. simpl. rewrite Hd. simpl. rewrite !draws_snoc. reflexivity.
Qed.

Lemma random_failures_take_ten_draws_witness :
  cursor_opens env_healthy 1 connected /\
  exists (e : ChaosExperiment) (w' : State),
    inject_random_failures env_healthy connected = (Ok e, w') /\
    name e = "Random Transaction Failures" /\ blast_radius e = "transactions" /\
    draws (trace w') = (10 + draws (trace connected))%nat.
Proof.
  split; [apply cursor_opens_healthy|].
  exact (random_failures_take_ten_draws env_healthy connected
           (cursor_opens_healthy 1)).
Defined.

(** ** The recovery test and the report *)

Lemma loop_events_counts (k : nat) (b : bool) (evs : list Event) :
  loop_events k b evs ->
  pauses evs = k /\ probes evs = (k + if b then 1 else 0)%nat.
Proof.
  unfold pauses, probes.
  induction 1 as [| |msg k b evs _ [IHp IHq]|msg k b evs _ [IHp IHq]]; simpl;
    try (split; reflexivity); rewrite IHp, IHq; split; reflexivity.
Qed.

Lemma recovery_loop_first_probe (env : Env) (remaining a : nat) (w : State) :
  db_outcome env (length (trace w)) (Execute SqlSelectOne) = None ->
  db_outcome env (S (length (trace w))) FetchOne = None ->
  recovery_loop env (S remaining) a w
  = (Ok tt, a,
     add_events [EvDb (Execute SqlSelectOne) None; EvDb FetchOne None] w).
Proof.
  intros Hq Hf. rewrite recovery_loop_S. unfold recovery_probe. run.
  rewrite Hq. run. rewrite Hf. now norm_events.
Qed.

Lemma count_app (f : Event -> bool) (xs ys : list Event) :
  length (List.filter f (xs ++ ys))
  = (length (List.filter f xs) + length (List.filter f ys))%nat.
Proof. now rewrite List.filter_app, length_app. Qed.

(** X9: once its cursor is open, the recovery test pauses once per failed
    attempt and never after a successful one, sends at most ten liveness
    queries, logs a count of at most ten, and leaves the sessions, the
    connection, the registry and the baseline as they were; when the first
    liveness query is answered it logs 0 attempts and does not pause. *)
Theorem recovery_test_pauses_per_attempt (env : Env) (w : State) :
  cursor_opens env 0 w ->
  exists (t : Q) (w' : State) (evs : list Event) (attempts : nat),
    test_recovery_time env w = (Ok t, w') /\
    w' = add_events evs w /\
    logged_attempts (trace w') = Some attempts /\
    pauses evs = attempts /\ (attempts <= 10)%nat /\
    (attempts <= probes evs)%nat /\ (probes evs <= 10)%nat /\
    (db_outcome env (2 + length (trace w)) (Execute SqlSelectOne) = None ->
     db_outcome env (3 + length (trace w)) FetchOne = None ->
     attempts = 0%nat).
Proof.
  intros Hcur.
  set (w0 := add_events [EvDb Cursor None;
                         EvTime (timer env (S (length (trace w))))] w).
  destruct (recovery_loop_stops env max_attempts 0 w0)
    as (k & b & evs & E & Hev & Hk).
  pose proof (test_recovery_time_runs env w Hcur k evs E) as Hrun.
  cbv zeta in Hrun.
  destruct (loop_events_counts k b evs Hev) as [Hp Hq].
  do 2 eexists. eexists. exists k. split; [exact Hrun|].
  split; [reflexivity|]. split; [|split; [|split; [|split; [|split]]]].
  - simpl. repeat (rewrite logged_attempts_app; simpl). reflexivity.
  - unfold pauses in *. simpl. rewrite count_app. simpl. lia.
  - unfold max_attempts in Hk. destruct b; lia.
  - unfold probes in *. simpl. rewrite count_app. simpl. lia.
  - unfold probes in *. simpl. rewrite count_app. simpl.
    unfold max_attempts in Hk. destruct b; lia.
  - intros Hq1 Hf1.
    assert (E1 : recovery_loop env max_attempts 0 w0
                 = (Ok tt, 0%nat,
                    add_events [EvDb (Execute SqlSelectOne) None;
                                EvDb FetchOne None] w0)).
    { apply recovery_loop_first_probe; subst w0; simpl;
        rewrite length_app; simpl;
        [ now replace (length (trace w) + 2)%nat with (2 + length (trace w))%nat by lia
        | now replace (S (length (trace w) + 2))%nat with (3 + length (trace w))%nat by lia ]. }
    rewrite E in E1. now injection E1 as ->.
Qed.

Lemma recovery_test_pauses_per_attempt_witness :
  cursor_opens env_never_recovers 0 connected /\
  exists (t : Q) (w' : State) (evs : list Event) (attempts : nat),
    test_recovery_time env_never_recovers connected = (Ok t, w') /\
    w' = add_events evs connected /\
    logged_attempts (trace w') = Some attempts /\
    pauses evs = attempts /\ (attempts <= 10)%nat.
Proof.
  assert (Hcur : cursor_opens env_never_recovers 0 connected)
    by (split; [now exists 0%nat | reflexivity]).
  split; [exact Hcur|].
  destruct (recovery_test_pauses_per_attempt env_never_recovers connected Hcur)
    as (t & w' & evs & a & E & Hw & Hl & Hp & Hle & _).
  exists t, w', evs, a. repeat (split; [assumption|]). assumption.
Defined.

Lemma report_counts (exps : list ChaosExperiment) :
  (length (completed_of exps) + length (failed_of exps) <= length exps)%nat /\
  (forallb reportable exps = true ->
   (length (completed_of exps) + length (failed_of exps))%nat = length exps).
Proof.
  unfold completed_of, failed_of.
  induction exps as [|e exps [IHle IHeq]]; simpl; [split; [lia|reflexivity]|].
  cbv [has_result reportable] in *.
  destruct (result e) as [[]|], (start_time e), (end_time e); simpl;
    (split; [lia|]); intros H; try discriminate; specialize (IHeq H); lia.
Qed.

Lemma for_each_report_details_raises {L} (exps : list ChaosExperiment)
    (l : L) (w : State) :
  forallb reportable exps = false ->
  exists e : Exn,
    for_each exps report_details l w = (Raise e, l, w) /\
    (e = TypeError \/ e = AttributeError).
Proof.
  induction exps as [|x exps IH]; simpl; intros H; [discriminate|].
  rewrite for_each_cons. unfold bind at 1. unfold report_details at 1.
  unfold reportable at 1 in H.
  destruct (start_time x), (end_time x), (result x); simpl in *;
    try (eexists; split; [reflexivity|]; auto; fail).
  apply IH, H.
Qed.

(** X10: generate_report returns normally exactly when every registered
    experiment has its two times and its result.  It then prints the
    summary, in which completed + failed = total, and the assessment of
    the score.  Otherwise it raises TypeError or AttributeError at the
    first experiment that lacks one, after the summary and before any
    assessment.  It never changes the framework. *)
Theorem report_needs_complete_records (w : State) :
  let exps := experiments w in
  let summary := EvReportSummary (length exps) (length (completed_of exps))
                   (length (failed_of exps)) in
  (length (completed_of exps) + length (failed_of exps) <= length exps)%nat /\
  (forallb reportable exps = true ->
     generate_report w
     = (Ok tt, add_events [summary;
                           EvReportAssessment (score exps)
                             (assessment (score exps))] w) /\
     (length (completed_of exps) + length (failed_of exps))%nat = length exps) /\
  (forallb reportable exps = false ->
     exists e : Exn,
       generate_report w = (Raise e, add_events [summary] w) /\
       (e = TypeError \/ e = AttributeError)).
Proof.
  intros exps summary. destruct (report_counts exps) as [Hle Heq].
  split; [exact Hle|]. split.
  - intros H. split; [|exact (Heq H)].
    rewrite (generate_report_prints w H). now norm_events.
  - intros H. unfold generate_report, method, bind, get_state, emit, modify_state.
    destruct (for_each_report_details_raises (experiments w) tt
                (record_event summary w) H) as (e & E & He).
    subst summary exps. rewrite E. exists e. split; [now norm_events|exact He].
Qed.

Lemma report_needs_complete_records_witness :
  let w := push_experiment
             (set_end_time 2 (set_start_time 1 sample_completed))
             (new_framework ∅) in
  forallb reportable (experiments w) = true /\
  (length (completed_of (experiments w))
   + length (failed_of (experiments w)))%nat = length (experiments w).
Proof.
  intros w. split; [reflexivity|].
  exact (proj2 (proj1 (proj2 (report_needs_complete_records w)) eq_refl)).
Defined.

(** ** The score and the assessment as functions *)

Lemma score_as_fraction (exps : list ChaosExperiment) (n : nat) :
  length exps = S n ->
  (score exps == (100 * Z.of_nat (completed_count exps)) # Pos.of_succ_nat n)%Q.
Proof.
  intros Hn. rewrite score_spec_score. unfold spec_score. rewrite Hn.
  unfold Qeq, Qdiv, Qmult, Qinv, inject_Z. simpl. lia.
Qed.

(** X11: the score is a percentage between 0 and 100; for a fixed number
    of experiments it does not decrease when more of them are completed;
    it is 100 exactly when every experiment is completed and 0 exactly
    when none is. *)
Theorem score_percentage_monotone :
  (forall exps : list ChaosExperiment,
      (0 <= score exps)%Q /\ (score exps <= 100)%Q) /\
  (forall exps1 exps2 : list ChaosExperiment,
      length exps1 = length exps2 ->
      (completed_count exps1 <= completed_count exps2)%nat ->
      (score exps1 <= score exps2)%Q) /\
  (forall exps : list ChaosExperiment,
      exps <> [] ->
      ((score exps == 100)%Q <-> completed_count exps = length exps)) /\
  (forall exps : list ChaosExperiment,
      (score exps == 0)%Q <-> completed_count exps = 0%nat).
Proof.
  split; [exact score_bounds|]. split; [|split].
  - intros exps1 exps2 Hlen Hc.
    destruct exps1 as [|x1 r1], exps2 as [|x2 r2];
      try (simpl in Hlen; discriminate Hlen);
      [apply Qle_refl|].
    rewrite (score_as_fraction (x1 :: r1) (length r1) eq_refl).
    rewrite (score_as_fraction (x2 :: r2) (length r1))
      by (simpl in *; lia).
    unfold Qle. cbn [Qnum Qden]. nia.
  - intros exps Hne. destruct exps as [|x r]; [congruence|].
    rewrite (score_as_fraction (x :: r) (length r) eq_refl).
    unfold Qeq. cbn [Qnum Qden length]. split; intros H; lia.
  - intros exps. destruct exps as [|x r]; [split; reflexivity|].
    rewrite (score_as_fraction (x :: r) (length r) eq_refl).
    unfold Qeq. cbn [Qnum Qden]. split; intros H; lia.
Qed.

Lemma score_percentage_monotone_witness :
  length [sample_failed; sample_completed]
  = length [sample_completed; sample_completed] /\
  (completed_count [sample_failed; sample_completed]
   <= completed_count [sample_completed; sample_completed])%nat /\
  (score [sample_failed; sample_completed]
   <= score [sample_completed; sample_completed])%Q.
Proof.
  split; [reflexivity|]. split; [simpl; lia|].
  apply (proj1 (proj2 score_percentage_monotone)); [reflexivity|simpl; lia].
Defined.

Lemma assessment_Qeq (s1 s2 : Q) :
  (s1 == s2)%Q -> assessment s1 = assessment s2.
Proof.
  intros H. unfold assessment.
  assert (Hb : forall k : Q, Qle_bool k s1 = Qle_bool k s2).
  { intros k. destruct (Qle_bool k s1) eqn:E1, (Qle_bool k s2) eqn:E2;
      try reflexivity.
    - apply Qle_bool_iff in E1. rewrite H in E1.
      apply Qle_bool_iff in E1. congruence.
    - apply Qle_bool_iff in E2. rewrite <- H in E2.
      apply Qle_bool_iff in E2. congruence. }
  now rewrite !Hb.
Qed.

(** X12: the assessment depends on the value of the score only, and a
    higher score never gets a worse assessment: from NEEDS IMPROVEMENT to
    FAIR, GOOD and EXCELLENT the assessment follows the score. *)
Theorem assessment_follows_score :
  (forall s1 s2 : Q, (s1 == s2)%Q -> assessment s1 = assessment s2) /\
  (forall s1 s2 : Q,
      (s1 <= s2)%Q ->
      (assessment_rank (assessment s1) <= assessment_rank (assessment s2))%nat) /\
  (forall exps1 exps2 : list ChaosExperiment,
      length exps1 = length exps2 ->
      (completed_count exps1 <= completed_count exps2)%nat ->
      (assessment_rank (assessment (score exps1))
       <= assessment_rank (assessment (score exps2)))%nat).
Proof.
  assert (Hmono : forall s1 s2 : Q,
             (s1 <= s2)%Q ->
             (assessment_rank (assessment s1)
              <= assessment_rank (assessment s2))%nat).
  { intros s1 s2 H. unfold assessment.
    assert (Hb : forall k : Q, Qle_bool k s1 = true -> Qle_bool k s2 = true).
    { intros k E. apply Qle_bool_iff. apply Qle_bool_iff in E.
      eapply Qle_trans; eassumption. }
    destruct (Qle_bool 80 s1) eqn:E80; [rewrite (Hb _ E80); reflexivity|].
    destruct (Qle_bool 60 s1) eqn:E60;
      [rewrite (Hb _ E60); destruct (Qle_bool 80 s2); vm_compute; lia|].
    destruct (Qle_bool 40 s1) eqn:E40;
      [rewrite (Hb _ E40);
       destruct (Qle_bool 80 s2), (Qle_bool 60 s2); vm_compute; lia|].
    destruct (Qle_bool 80 s2), (Qle_bool 60 s2), (Qle_bool 40 s2);
      vm_compute; lia. }
  split; [exact assessment_Qeq|]. split; [exact Hmono|].
  intros exps1 exps2 Hlen Hc. apply Hmono.
  destruct exps1 as [|x1 r1], exps2 as [|x2 r2];
      try (simpl in Hlen; discriminate Hlen);
    [apply Qle_refl|].
  rewrite (score_as_fraction (x1 :: r1) (length r1) eq_refl).
  rewrite (score_as_fraction (x2 :: r2) (length r1)) by (simpl in *; lia).
  unfold Qle. cbn [Qnum Qden]. nia.
Qed.

Lemma assessment_follows_score_witness :
  (40 <= 75)%Q /\
  (assessment_rank (assessment 40) <= assessment_rank (assessment 75))%nat.
Proof.
  assert (H : (40 <= 75)%Q) by discriminate.
  split; [exact H|].
  exact (proj1 (proj2 assessment_follows_score) 40%Q 75%Q H).
Defined.

(** ** What the steps of the suite keep *)

Section Keeps.

Variable env : Env.
Variable R : State -> State -> Prop.
Hypothesis R_refl : forall w : State, R w w.
Hypothesis R_trans : forall w1 w2 w3 : State, R w1 w2 -> R w2 w3 -> R w1 w3.
Hypothesis R_event :
  forall (ev : Event) (w : State), is_report ev = false -> R w (record_event ev w).
Hypothesis R_push :
  forall (e : ChaosExperiment) (w : State), R w (push_experiment e w).
Hypothesis R_baseline :
  forall (b : BaselineMetrics) (w : State), R w (set_baseline b w).

Lemma keeps_ret {L A} (a : A) : keeps (L := L) R (ret a).
Proof. intros l w. apply R_refl. Qed.

Lemma keeps_raise {L A} (e : Exn) : keeps (L := L) (A := A) R (raise e).
Proof. intros l w. apply R_refl. Qed.

Lemma keeps_get_locals {L} : keeps (L := L) R get_locals.
Proof. intros l w. apply R_refl. Qed.

Lemma keeps_get_state {L} : keeps (L := L) R get_state.
Proof. intros l w. apply R_refl. Qed.

Lemma keeps_modify_locals {L} (f : L -> L) : keeps R (modify_locals f).
Proof. intros l w. apply R_refl. Qed.

Lemma keeps_bind {L A B} (m : M L A) (k : A -> M L B) :
  keeps R m -> (forall a : A, keeps R (k a)) -> keeps R (bind m k).
Proof.
  intros Hm Hk l w. unfold bind. specialize (Hm l w).
  destruct (m l w) as [[[a|e] l'] w']; simpl in *; [|exact Hm].
  eapply R_trans; [exact Hm|apply Hk].
Qed.

Lemma keeps_try_except {L A} (body : M L A) (handler : Exn -> M L A) :
  keeps R body -> (forall e : Exn, keeps R (handler e)) ->
  keeps R (try_except body handler).
Proof.
  intros Hm Hk l w. unfold try_except. specialize (Hm l w).
  destruct (body l w) as [[[a|e] l'] w']; simpl in *; [exact Hm|].
  eapply R_trans; [exact Hm|apply Hk].
Qed.

Lemma keeps_try_finally {L A} (body : M L A) (final : M L unit) :
  keeps R body -> keeps R final -> keeps R (try_finally body final).
Proof.
  intros Hm Hf l w. unfold try_finally. specialize (Hm l w).
  destruct (body l w) as [[r l'] w']; simpl in *.
  specialize (Hf l' w').
  destruct (final l' w') as [[[u|e] l''] w'']; simpl in *;
    eapply R_trans; eassumption.
Qed.

Lemma keeps_repeat_n {L} (n : nat) (body : M L unit) :
  keeps R body -> keeps R (repeat_n n body).
Proof.
  intros Hb. induction n as [|n IH].
  - apply keeps_ret.
  - rewrite repeat_n_S. apply keeps_bind; [exact Hb|intros _; exact IH].
Qed.

Lemma keeps_for_each {L A} (xs : list A) (body : A -> M L unit) :
  (forall x : A, keeps R (body x)) -> keeps R (for_each xs body).
Proof.
  intros Hb. induction xs as [|x xs IH].
  - apply keeps_ret.
  - rewrite for_each_cons. apply keeps_bind; [apply Hb|intros _; exact IH].
Qed.

Lemma keeps_call {L A} (f : Method A) :
  method_keeps R f -> keeps (L := L) R (call f).
Proof.
  intros Hf l w. unfold call. specialize (Hf w).
  now destruct (f w) as [r w'].
Qed.

Lemma keeps_method {L A} (l0 : L) (body : M L A) :
  keeps R body -> method_keeps R (method l0 body).
Proof.
  intros Hb w. unfold method. specialize (Hb l0 w).
  now destruct (body l0 w) as [[r l'] w'].
Qed.

Lemma keeps_emit {L} (ev : Event) :
  is_report ev = false -> keeps (L := L) R (emit ev).
Proof. intros H l w. now apply R_event. Qed.

Lemma keeps_driver {L} (c : DbCall) : keeps (L := L) R (driver env c).
Proof.
  intros l w. unfold driver.
  destruct (db_outcome env (length (trace w)) c); now apply R_event.
Qed.

Lemma keeps_conn_cursor {L} : keeps (L := L) R (conn_cursor env).
Proof.
  intros l w. unfold conn_cursor, bind, get_state.
  destruct (conn w); [apply keeps_driver|apply R_refl].
Qed.

Lemma keeps_datetime_now {L} : keeps (L := L) R (datetime_now env).
Proof. intros l w. now apply R_event. Qed.

Lemma keeps_time_time {L} : keeps (L := L) R (time_time env).
Proof. intros l w. now apply R_event. Qed.

Lemma keeps_random_random {L} : keeps (L := L) R (random_random env).
Proof. intros l w. now apply R_event. Qed.

Lemma keeps_baseline_query_latency {L} :
  keeps (L := L) R baseline_query_latency.
Proof.
  intros l w. unfold baseline_query_latency, bind, get_state.
  destruct (baseline_metrics w); apply R_refl.
Qed.

Lemma keeps_float_div {L} (x y : Q) : keeps (L := L) R (float_div x y).
Proof. intros l w. unfold float_div. destruct (Qeq_bool y 0); apply R_refl. Qed.

Lemma keeps_recovery_loop (remaining : nat) :
  keeps R (recovery_loop env remaining).
Proof.
  induction remaining as [|n IH].
  - apply keeps_ret.
  - rewrite recovery_loop_S. apply keeps_bind.
    + unfold recovery_probe. apply keeps_try_except.
      * repeat (apply keeps_bind; [apply keeps_driver|intros _]).
        apply keeps_ret.
      * intros _. apply keeps_bind; [apply keeps_modify_locals|intros _].
        apply keeps_bind; [now apply keeps_emit|intros _]. apply keeps_ret.
    + intros [|]; [apply keeps_ret|exact IH].
Qed.

Lemma keeps_push {L} (e : ChaosExperiment) :
  keeps (L := L) R (modify_state (push_experiment e)).
Proof. intros l w. apply R_push. Qed.

Lemma keeps_set_baseline {L} (b : BaselineMetrics) :
  keeps (L := L) R (modify_state (set_baseline b)).
Proof. intros l w. apply R_baseline. Qed.

Ltac keeps_step :=
  first
    [ apply keeps_ret | apply keeps_raise | apply keeps_get_locals
    | apply keeps_get_state | apply keeps_modify_locals
    | apply keeps_driver | apply keeps_conn_cursor | apply keeps_datetime_now
    | apply keeps_time_time | apply keeps_random_random
    | apply keeps_baseline_query_latency | apply keeps_float_div
    | apply keeps_recovery_loop | apply keeps_push | apply keeps_set_baseline
    | apply keeps_emit; reflexivity
    | apply keeps_repeat_n
    | apply keeps_try_except; [|intros ?]
    | apply keeps_try_finally
    | apply keeps_bind; [|intros ?]
    | match goal with
      | |- keeps _ (if ?b then _ else _) => destruct b
      end ].

Ltac keeps_all :=
  apply keeps_method;
  unfold cursor_close, time_sleep, on_sat_experiment, append_connection,
    on_rnd_experiment, incr_success, incr_failure;
  cbv zeta; repeat keeps_step.

Lemma keeps_setup : method_keeps R (setup env).
Proof. unfold setup. keeps_all. Qed.

Lemma keeps_capture_baseline : method_keeps R (capture_baseline env).
Proof. unfold capture_baseline. keeps_all. Qed.

Lemma keeps_inject_high_cpu_load : method_keeps R (inject_high_cpu_load env).
Proof. unfold inject_high_cpu_load, inject_high_cpu_load_body. keeps_all. Qed.

Lemma keeps_inject_slow_queries : method_keeps R (inject_slow_queries env).
Proof. unfold inject_slow_queries, inject_slow_queries_body. keeps_all. Qed.

Lemma keeps_inject_random_failures :
  method_keeps R (inject_random_failures env).
Proof.
  unfold inject_random_failures, inject_random_failures_body, random_trial.
  keeps_all.
Qed.

Lemma keeps_test_recovery_time : method_keeps R (test_recovery_time env).
Proof. unfold test_recovery_time. keeps_all. Qed.

(** The connection saturation injector opens and closes sessions. *)
Hypothesis R_sessions :
  forall (ss : gset nat) (w : State), R w (set_sessions ss w).

Lemma keeps_psycopg2_connect {L} (t : option nat) :
  keeps (L := L) R (psycopg2_connect env t).
Proof.
  unfold psycopg2_connect.
  apply keeps_bind; [apply keeps_driver|intros _].
  apply keeps_bind; [apply keeps_get_state|intros w0].
  apply keeps_bind; [|intros _; apply keeps_ret].
  intros l w. apply R_sessions.
Qed.

Lemma keeps_conn_close {L} (sid : nat) : keeps (L := L) R (conn_close sid).
Proof.
  intros l w. unfold conn_close, modify_state. simpl.
  eapply R_trans; [apply R_sessions|now apply R_event].
Qed.

Lemma keeps_inject_connection_saturation :
  method_keeps R (inject_connection_saturation env).
Proof.
  unfold inject_connection_saturation, inject_connection_saturation_body,
    acquire_connection, probe_extra_connection, release_connections.
  apply keeps_method.
  unfold cursor_close, time_sleep, on_sat_experiment, append_connection.
  cbv zeta.
  repeat first
    [ apply keeps_psycopg2_connect | apply keeps_conn_close
    | apply keeps_for_each; intros ?
    | keeps_step ].
Qed.

End Keeps.

(** *** The frame of each step *)

Lemma quiet_refl (w : State) : quiet w w.
Proof. exists []. split; [symmetry; apply app_nil_r|reflexivity]. Qed.

Lemma quiet_trans (w1 w2 w3 : State) : quiet w1 w2 -> quiet w2 w3 -> quiet w1 w3.
Proof.
  intros (evs & Ht & Hq) (evs' & Ht' & Hq').
  exists (evs ++ evs'). split; [rewrite Ht', Ht; symmetry; apply app_assoc|].
  rewrite existsb_app, Hq, Hq'. reflexivity.
Qed.

Lemma quiet_event (ev : Event) (w : State) :
  is_report ev = false -> quiet w (record_event ev w).
Proof. intros H. exists [ev]. split; [reflexivity|]. simpl. now rewrite H. Qed.

Lemma suite_step_refl (w : State) : suite_step w w.
Proof. split; [reflexivity|]. split; [reflexivity|apply quiet_refl]. Qed.

Lemma suite_step_trans (w1 w2 w3 : State) :
  suite_step w1 w2 -> suite_step w2 w3 -> suite_step w1 w3.
Proof.
  intros (Hc & Hs & Hq) (Hc' & Hs' & Hq').
  split; [congruence|]. split; [congruence|]. eapply quiet_trans; eassumption.
Qed.

Lemma suite_step_event (ev : Event) (w : State) :
  is_report ev = false -> suite_step w (record_event ev w).
Proof.
  intros H. split; [reflexivity|]. split; [reflexivity|now apply quiet_event].
Qed.

Lemma suite_step_push (e : ChaosExperiment) (w : State) :
  suite_step w (push_experiment e w).
Proof.
  split; [reflexivity|]. split; [reflexivity|].
  exists []. split; [symmetry; apply app_nil_r|reflexivity].
Qed.

Lemma suite_step_baseline (b : BaselineMetrics) (w : State) :
  suite_step w (set_baseline b w).
Proof.
  split; [reflexivity|]. split; [reflexivity|].
  exists []. split; [symmetry; apply app_nil_r|reflexivity].
Qed.

Lemma suite_step_setup (env : Env) : method_keeps suite_step (setup env).
Proof.
  apply keeps_setup;
    auto using suite_step_refl, suite_step_event. exact suite_step_trans.
Qed.

#[local] Hint Resolve suite_step_refl suite_step_event suite_step_push
  suite_step_baseline : chaos.

Lemma suite_step_capture_baseline (env : Env) :
  method_keeps suite_step (capture_baseline env).
Proof.
  apply keeps_capture_baseline; auto with chaos. exact suite_step_trans.
Qed.

Lemma suite_step_inject_high_cpu_load (env : Env) :
  method_keeps suite_step (inject_high_cpu_load env).
Proof.
  apply keeps_inject_high_cpu_load; auto with chaos. exact suite_step_trans.
Qed.

Lemma suite_step_inject_slow_queries (env : Env) :
  method_keeps suite_step (inject_slow_queries env).
Proof.
  apply keeps_inject_slow_queries; auto with chaos. exact suite_step_trans.
Qed.

Lemma suite_step_inject_random_failures (env : Env) :
  method_keeps suite_step (inject_random_failures env).
Proof.
  apply keeps_inject_random_failures; auto with chaos. exact suite_step_trans.
Qed.

Lemma suite_step_test_recovery_time (env : Env) :
  method_keeps suite_step (test_recovery_time env).
Proof.
  apply keeps_test_recovery_time; auto with chaos. exact suite_step_trans.
Qed.

(** The connection saturation injector opens sessions and closes them
    all: the sessions are as before by
    [inject_connection_saturation_terminates], the rest by the frame. *)
Lemma suite_step_inject_connection_saturation (env : Env) :
  method_keeps suite_step (inject_connection_saturation env).
Proof.
  intros w.
  assert (H : method_keeps (fun w1 w2 => conn w2 = conn w1 /\ quiet w1 w2)
                (inject_connection_saturation env)).
  { apply keeps_inject_connection_saturation.
    - intros w1. split; [reflexivity|apply quiet_refl].
    - intros w1 w2 w3 [Hc Hq] [Hc' Hq']. split; [congruence|].
      eapply quiet_trans; eassumption.
    - intros ev w1 Hev. split; [reflexivity|now apply quiet_event].
    - intros e w1. split; [reflexivity|].
      exists []. split; [symmetry; apply app_nil_r|reflexivity].
    - intros ss w1. split; [reflexivity|].
      exists []. split; [symmetry; apply app_nil_r|reflexivity]. }
  destruct (H w) as [Hc Hq].
  destruct (inject_connection_saturation_terminates env w)
    as (e & w' & E & Hs & _).
  rewrite E in *. simpl in *. now split.
Qed.

(** *** The registry after each injector *)

Lemma terminated_reportable (env : Env) (w : State) (e : ChaosExperiment)
    (w' : State) :
  terminated env w e w' -> reportable e = true.
Proof.
  intros (Hs & _ & (k & _ & He) & Hr & _). unfold reportable.
  rewrite Hs, He. now destruct Hr as [-> | ->].
Qed.

Lemma registers_inject_high_cpu_load (env : Env) :
  registers "High CPU Load" (inject_high_cpu_load env).
Proof.
  intros w. unfold inject_high_cpu_load, inject_high_cpu_load_body.
  run. destruct (conn w); explore;
    first [ reflexivity
          | eexists; split; [reflexivity|]; split; reflexivity ].
Qed.

Lemma registers_inject_slow_queries (env : Env) :
  registers "Slow Query Injection" (inject_slow_queries env).
Proof.
  intros w.
  unfold inject_slow_queries, inject_slow_queries_body, baseline_query_latency,
    float_div.
  run. destruct (conn w); explore_eqn;
    first [ reflexivity
          | eexists; split; [reflexivity|]; split; reflexivity ].
Qed.

Lemma registers_inject_connection_saturation (env : Env) :
  registers "Connection Saturation" (inject_connection_saturation env).
Proof.
  intros w.
  destruct (inject_connection_saturation_cases env w)
    as (e & w' & E & Hn & _ & He & _).
  destruct (inject_connection_saturation_terminates env w)
    as (e2 & w2 & E2 & _ & Ht).
  rewrite E in E2. injection E2 as <- <-. rewrite E.
  exists e. split; [exact He|]. split; [|exact Hn].
  eapply terminated_reportable, Ht.
Qed.

Lemma registers_inject_random_failures (env : Env) :
  registers "Random Transaction Failures" (inject_random_failures env).
Proof.
  intros w. destruct (cursor_opens_dec env w) as [Hcur|Hno].
  - pose proof (inject_random_failures_runs env w Hcur) as Hrun.
    cbv zeta in Hrun.
    match type of Hrun with
    | forall l1 w1, repeat_n _ _ ?l0 ?w0 = _ -> _ =>
        destruct (random_trials_counts env trials l0 w0)
          as (l1 & w1 & E & Hx & _ & (_ & _ & Hexp & _))
    end.
    rewrite (Hrun l1 w1 E). simpl in Hx, Hexp.
    eexists. split; [simpl; rewrite Hexp; reflexivity|].
    unfold reportable. simpl. rewrite Hx. simpl. split; reflexivity.
  - destruct (inject_random_failures_no_cursor env w Hno) as (e & w' & E & He).
    rewrite E. exact He.
Qed.

Lemma registry_kept_setup (env : Env) : method_keeps registry_kept (setup env).
Proof.
  apply keeps_setup; unfold registry_kept; try reflexivity.
  intros w1 w2 w3. congruence.
Qed.

Lemma registry_kept_capture_baseline (env : Env) :
  method_keeps registry_kept (capture_baseline env).
Proof.
  apply keeps_capture_baseline; unfold registry_kept; try reflexivity.
  intros w1 w2 w3. congruence.
Qed.

Lemma registry_kept_test_recovery_time (env : Env) :
  method_keeps registry_kept (test_recovery_time env).
Proof.
  apply keeps_test_recovery_time; unfold registry_kept; try reflexivity.
  intros w1 w2 w3. congruence.
Qed.

(** *** The suite, step by step *)

Lemma bind_call {L A B} (f : Method A) (k : A -> M L B) (l : L) (w : State) :
  bind (call f) k l w
  = match f w with
    | (Ok a, w') => k a l w'
    | (Raise e, w') => (Raise e, l, w')
    end.
Proof. unfold bind, call. now destruct (f w) as [[a|e] w']. Qed.

Lemma bind_time_sleep {L B} (ms : nat) (k : unit -> M L B) (l : L) (w : State) :
  bind (time_sleep ms) k l w = k tt l (record_event (EvSleep ms) w).
Proof. reflexivity. Qed.

Lemma connect_accepted (env : Env) (w : State) :
  db_outcome env (length (trace w)) (Connect None) = None ->
  exists w0 : State,
    connect env w = (Ok true, w0) /\ suite_progress w [] w0.
Proof.
  intros H. unfold connect, psycopg2_connect. run. rewrite H. run.
  eexists. split; [reflexivity|]. unfold suite_progress. simpl.
  split; [reflexivity|]. split; [reflexivity|].
  split; [|split; [now rewrite app_nil_r|split; reflexivity]].
  exists [EvDb (Connect None) None; EvLog LogConnected].
  split; [simpl; now rewrite <- app_assoc|reflexivity].
Qed.

Lemma suite_progress_plain (w : State) (es : list ChaosExperiment)
    (w1 w2 : State) :
  suite_progress w es w1 -> suite_step w1 w2 -> registry_kept w1 w2 ->
  suite_progress w es w2.
Proof.
  intros (Hc & Hs & Hq & He & Hr & Hn) (Hc' & Hs' & Hq') Hk.
  unfold registry_kept in Hk. unfold suite_progress.
  split; [congruence|]. split; [congruence|].
  split; [eapply quiet_trans; eassumption|].
  split; [congruence|]. now split.
Qed.

Lemma suite_progress_sleep (w : State) (es : list ChaosExperiment)
    (ms : nat) (w1 : State) :
  suite_progress w es w1 -> suite_progress w es (record_event (EvSleep ms) w1).
Proof.
  intros H. eapply suite_progress_plain; [exact H| |reflexivity].
  now apply suite_step_event.
Qed.

Lemma suite_progress_register (w : State) (es : list ChaosExperiment)
    (w1 w2 : State) (e : ChaosExperiment) :
  suite_progress w es w1 -> suite_step w1 w2 ->
  experiments w2 = experiments w1 ++ [e] -> reportable e = true ->
  firstn (S (length es)) suite_names
  = firstn (length es) suite_names ++ [name e] ->
  suite_progress w (es ++ [e]) w2.
Proof.
  intros (Hc & Hs & Hq & He & Hr & Hn) (Hc' & Hs' & Hq') Hx Hre Hna.
  unfold suite_progress.
  split; [congruence|]. split; [congruence|].
  split; [eapply quiet_trans; eassumption|].
  split; [rewrite Hx, He; symmetry; apply app_assoc|].
  split; [rewrite forallb_app, Hr; simpl; now rewrite Hre|].
  rewrite map_app, length_app, Hn. simpl.
  replace (length es + 1)%nat with (S (length es)) by lia. now rewrite Hna.
Qed.

Ltac suite_slept :=
  rewrite ?bind_time_sleep;
  try match goal with
      | HP : suite_progress _ _ ?w1
        |- context [record_event (EvSleep ?ms) ?w1] =>
          apply (suite_progress_sleep _ _ ms) in HP
      end.

(** The suite raised: the progress made is what is left. *)
Ltac suite_raised :=
  match goal with
  | HP : suite_progress _ ?es ?w1 |- _ =>
      exists w1, es; split; [exact HP|left; eexists; reflexivity]
  end.

(** A step of the suite that registers nothing. *)
Ltac suite_plain f Hstep Hkept :=
  suite_slept; rewrite bind_call;
  match goal with
  | HP : suite_progress _ _ ?wc |- context [f ?wc] =>
      let S := fresh "S" in
      let K := fresh "K" in
      pose proof (Hstep wc) as S; pose proof (Hkept wc) as K;
      destruct (f wc) as [[?|?e] ?w]; cbn [snd] in S, K;
      apply (suite_progress_plain _ _ _ _ HP S) in K;
      clear S HP; [|suite_raised]
  end.

(** A step of the suite that registers an experiment when it returns. *)
Ltac suite_register f Hstep Hreg :=
  suite_slept; rewrite bind_call;
  match goal with
  | HP : suite_progress _ _ ?wc |- context [f ?wc] =>
      let S := fresh "S" in
      let G := fresh "G" in
      let x := fresh "x" in
      let Hx := fresh "Hx" in
      let Hre := fresh "Hre" in
      let Hna := fresh "Hna" in
      pose proof (Hstep wc) as S; pose proof (Hreg wc) as G;
      destruct (f wc) as [[?|?e] ?w]; cbn [snd] in S;
      [ destruct G as (x & Hx & Hre & Hna);
        pose proof (suite_progress_register _ _ _ _ x HP S Hx Hre) as G;
        rewrite Hna in G; specialize (G eq_refl);
        clear S HP Hx Hre Hna
      | apply (suite_progress_plain _ _ _ _ HP S) in G; clear S HP;
        suite_raised ]
  end.

(** Once connected, the suite either raises with the experiments
    registered so far, or reaches the report with all four. *)
Lemma run_chaos_suite_connected (env : Env) (w : State) :
  db_outcome env (length (trace w)) (Connect None) = None ->
  exists (w1 : State) (es : list ChaosExperiment),
    suite_progress w es w1 /\
    ((exists e : Exn, run_chaos_suite env w = (Raise e, w1)) \/
     (length es = 4%nat /\ run_chaos_suite env w = generate_report w1)).
Proof.
  intros Hc. destruct (connect_accepted env w Hc) as (w0 & E0 & P0).
  unfold run_chaos_suite, method. rewrite bind_call, E0. cbn [negb].
  cbv iota.
  suite_plain (setup env) (suite_step_setup env) (registry_kept_setup env).
  suite_plain (capture_baseline env) (suite_step_capture_baseline env)
    (registry_kept_capture_baseline env).
  suite_register (inject_high_cpu_load env)
    (suite_step_inject_high_cpu_load env)
    (registers_inject_high_cpu_load env).
  suite_register (inject_connection_saturation env)
    (suite_step_inject_connection_saturation env)
    (registers_inject_connection_saturation env).
  suite_register (inject_slow_queries env)
    (suite_step_inject_slow_queries env)
    (registers_inject_slow_queries env).
  suite_register (inject_random_failures env)
    (suite_step_inject_random_failures env)
    (registers_inject_random_failures env).
  suite_plain (test_recovery_time env) (suite_step_test_recovery_time env)
    (registry_kept_test_recovery_time env).
  exists w7. eexists. split; [exact K|]. right. split; [reflexivity|].
  unfold call. now destruct (generate_report w7) as [[u|e] w8].
Qed.

(** The report changes nothing but the trace. *)
Lemma generate_report_only_events (w : State) :
  only_events w (snd (generate_report w)).
Proof.
  destruct (forallb reportable (experiments w)) eqn:H.
  - rewrite (generate_report_prints w H). norm_events. simpl.
    repeat (split; [reflexivity|]). now eexists.
  - unfold generate_report, method, bind, get_state, emit, modify_state.
    match goal with
    | |- context [for_each _ report_details ?l ?w1] =>
        destruct (for_each_report_details_raises (experiments w) l w1 H)
          as (e & E & _)
    end.
    rewrite E. simpl. repeat (split; [reflexivity|]). now eexists.
Qed.

(** ** The whole suite *)

(** X13: however the suite ends, by returning or by an exception of any
    phase, it leaves on the target exactly one session more than it
    found, the one self.conn holds: that connection is never closed, and
    every session the connection saturation experiment opened is.  When
    the connection is refused, self.conn and the sessions are as they
    were. *)
Theorem suite_holds_one_connection (env : Env) (w : State) :
  let w' := snd (run_chaos_suite env w) in
  match db_outcome env (length (trace w)) (Connect None) with
  | None =>
      conn w' = Some (fresh (sessions w)) /\
      sessions w' = {[fresh (sessions w)]} ∪ sessions w /\
      (fresh (sessions w) ∉ sessions w) /\
      active_connection_count w' = S (active_connection_count w)
  | Some _ => conn w' = conn w /\ sessions w' = sessions w
  end.
Proof.
  intros w'. subst w'.
  destruct (db_outcome env (length (trace w)) (Connect None)) as [msg|] eqn:Hc.
  - unfold run_chaos_suite. run. rewrite (connect_refused env w msg Hc).
    simpl. split; reflexivity.
  - assert (Hfresh : fresh (sessions w) ∉ sessions w) by apply is_fresh.
    assert (Hsize : size ({[fresh (sessions w)]} ∪ sessions w)
                    = S (size (sessions w))).
    { rewrite size_union by set_solver. now rewrite size_singleton. }
    destruct (run_chaos_suite_connected env w Hc)
      as (w1 & es & (Hconn & Hs & _) & [[e E] | [_ E]]).
    + rewrite E. simpl. unfold active_connection_count. rewrite Hs.
      split; [exact Hconn|]. split; [reflexivity|].
      split; [exact Hfresh|exact Hsize].
    + rewrite E.
      destruct (generate_report_only_events w1) as (Hs' & Hconn' & _).
      unfold active_connection_count. rewrite Hs', Hconn', Hs.
      split; [exact Hconn|]. split; [reflexivity|].
      split; [exact Hfresh|exact Hsize].
Qed.

(** X14: a run of main registers only complete records, named as the
    first phases of the suite in their order.  When the connection is
    accepted, either main returns (exit status 0) with the four
    experiments registered and the trace ending in the summary and the
    assessment of their score, nothing of a report being printed before;
    or an exception ends it (exit status 1) with nothing of a report
    printed, whatever was recorded.  When the connection is refused no
    experiment runs and no report is printed. *)
Theorem main_report_all_or_nothing (env : Env) (ss : gset nat) :
  let code := fst (main env ss) in
  let w' := snd (main env ss) in
  let exps := experiments w' in
  forallb reportable exps = true /\
  map name exps = firstn (length exps) suite_names /\
  match db_outcome env 0 (Connect None) with
  | Some _ => code = 0%Z /\ exps = [] /\ report_printed w' = false
  | None =>
      (code = 0%Z /\ length exps = 4%nat /\
       exists evs : list Event,
         trace w'
         = evs ++ [EvReportSummary 4 (length (completed_of exps))
                     (length (failed_of exps));
                   EvReportAssessment (score exps) (assessment (score exps))] /\
         existsb is_report evs = false)
      \/ (code = 1%Z /\ report_printed w' = false)
  end.
Proof.
  intros code w' exps. subst code w' exps. unfold main.
  destruct (db_outcome env 0 (Connect None)) as [msg|] eqn:Hc.
  - unfold run_chaos_suite. run.
    rewrite (connect_refused env (new_framework ss) msg Hc). simpl.
    repeat split.
  - destruct (run_chaos_suite_connected env (new_framework ss) Hc)
      as (w1 & es & (_ & _ & (evs & Ht & Hq) & He & Hr & Hn) & [[e E] | [Hl E]]);
      simpl in Ht, He.
    + rewrite E. simpl. rewrite He. split; [exact Hr|]. split; [exact Hn|].
      right. split; [reflexivity|]. unfold report_printed. now rewrite Ht.
    + rewrite E. rewrite <- He in Hr, Hn, Hl.
      rewrite (generate_report_prints w1 Hr). simpl.
      split; [exact Hr|]. split; [exact Hn|]. left. split; [reflexivity|].
      split; [exact Hl|]. exists evs. rewrite Ht, Hl. simpl.
      split; [now rewrite <- app_assoc|exact Hq].
Qed.

(** ** The suite on a healthy target *)

Lemma healthy_progress_event (c : nat) (b : BaselineMetrics)
    (rs : list (option Outcome)) (ev : Event) (w : State) :
  healthy_progress c b rs w -> healthy_progress c b rs (record_event ev w).
Proof. intros H. exact H. Qed.

Lemma healthy_progress_push (c : nat) (b : BaselineMetrics)
    (rs : list (option Outcome)) (w w' : State) (e : ChaosExperiment)
    (r : Outcome) :
  healthy_progress c b rs w ->
  conn w' = conn w -> baseline_metrics w' = baseline_metrics w ->
  experiments w' = experiments w ++ [e] ->
  reportable e = true -> result e = Some r ->
  healthy_progress c b (rs ++ [Some r]) w'.
Proof.
  intros (Hc & Hb & Hre & Hrs) Hc' Hb' He Hr Hres. unfold healthy_progress.
  rewrite Hc', Hb', He, forallb_app, map_app, Hre, Hrs. simpl.
  now rewrite Hr, Hres.
Qed.

Lemma first_refusal_healthy (env : Env) (n start : nat) :
  target_healthy env -> first_refusal env start n = None.
Proof.
  intros H. revert start. induction n as [|n IH]; intros start; [reflexivity|].
  rewrite first_refusal_S, (H start (Connect None)) by discriminate.
  now rewrite IH.
Qed.

Ltac healthy H :=
  repeat (rewrite !H by discriminate; run).

Lemma healthy_setup (env : Env) (w : State) (c : nat) :
  target_healthy env -> conn w = Some c ->
  setup env w
  = (Ok tt, add_events [EvDb Cursor None; EvDb (Execute SqlProvision) None;
                        EvCursorClose] w).
Proof.
  intros H Hc. unfold setup. run. rewrite Hc. run. healthy H.
  now norm_events.
Qed.

Lemma healthy_capture_baseline (env : Env) (w : State) (c : nat) :
  target_healthy env -> conn w = Some c ->
  let n := length (trace w) in
  exists (b : BaselineMetrics) (w' : State),
    capture_baseline env w = (Ok tt, w') /\
    baseline_metrics w' = Some b /\
    query_latency_ms b = ((timer env (4 + n) - timer env (1 + n)) * 1000)%Q /\
    conn w' = Some c /\ experiments w' = experiments w.
Proof.
  intros H Hc n. subst n. unfold capture_baseline. run. rewrite Hc. run.
  healthy H. do 2 eexists. split; [reflexivity|].
  split; [reflexivity|]. split; [reflexivity|]. split; [exact Hc|reflexivity].
Qed.

Lemma healthy_inject_high_cpu_load (env : Env) (c : nat) (b : BaselineMetrics)
    (rs : list (option Outcome)) (w : State) :
  target_healthy env -> healthy_progress c b rs w ->
  exists (a : ChaosExperiment) (w' : State),
    inject_high_cpu_load env w = (Ok a, w') /\
    healthy_progress c b (rs ++ [Some Completed]) w'.
Proof.
  intros H P. pose proof P as (Hc & _).
  unfold inject_high_cpu_load, inject_high_cpu_load_body.
  run. rewrite Hc. run. healthy H.
  do 2 eexists. split; [reflexivity|].
  eapply healthy_progress_push; [exact P|reflexivity..].
Qed.

Lemma healthy_inject_connection_saturation (env : Env) (c : nat)
    (b : BaselineMetrics) (rs : list (option Outcome)) (w : State) :
  target_healthy env -> healthy_progress c b rs w ->
  exists (a : ChaosExperiment) (w' : State),
    inject_connection_saturation env w = (Ok a, w') /\
    healthy_progress c b (rs ++ [Some Completed]) w'.
Proof.
  intros H P.
  pose proof (inject_connection_saturation_cases env w) as X. cbv zeta in X.
  rewrite (first_refusal_healthy env _ _ H) in X.
  destruct X as (e & w' & E & _ & _ & He & Hc & Hb & Hres & _).
  destruct (inject_connection_saturation_terminates env w)
    as (e2 & w2 & E2 & _ & Ht).
  rewrite E in E2. injection E2 as <- <-.
  exists e, w'. split; [exact E|].
  eapply healthy_progress_push; eauto using terminated_reportable.
Qed.

Lemma healthy_inject_slow_queries (env : Env) (c : nat) (b : BaselineMetrics)
    (rs : list (option Outcome)) (w : State) :
  target_healthy env -> healthy_progress c b rs w ->
  exists (a : ChaosExperiment) (w' : State),
    inject_slow_queries env w = (Ok a, w') /\
    healthy_progress c b
      (rs ++ [Some (if Qeq_bool (query_latency_ms b) 0
                    then Failed else Completed)]) w'.
Proof.
  intros H P. pose proof P as (Hc & Hb & _).
  unfold inject_slow_queries, inject_slow_queries_body, baseline_query_latency,
    float_div.
  run. rewrite Hc. run. healthy H. repeat (rewrite Hb; run).
  destruct (Qeq_bool (query_latency_ms b) 0); run;
    (do 2 eexists; split; [reflexivity|];
     eapply healthy_progress_push; [exact P|reflexivity..]).
Qed.

Lemma healthy_inject_random_failures (env : Env) (c : nat) (b : BaselineMetrics)
    (rs : list (option Outcome)) (w : State) :
  target_healthy env -> healthy_progress c b rs w ->
  exists (a : ChaosExperiment) (w' : State),
    inject_random_failures env w = (Ok a, w') /\
    healthy_progress c b (rs ++ [Some Completed]) w'.
Proof.
  intros H P. pose proof P as (Hc & _).
  assert (Hcur : cursor_opens env 1 w).
  { split; [now exists c|]. apply H. discriminate. }
  pose proof (inject_random_failures_runs env w Hcur) as Hrun.
  cbv zeta in Hrun.
  match type of Hrun with
  | forall l1 w1, repeat_n _ _ ?l0 ?w0 = _ -> _ =>
      destruct (random_trials_counts env trials l0 w0)
        as (l1 & w1 & E & Hx & _ & (_ & Hc1 & Hexp & Hb1 & _))
  end.
  rewrite (Hrun l1 w1 E). simpl in Hx, Hexp, Hc1, Hb1.
  do 2 eexists. split; [reflexivity|].
  eapply healthy_progress_push; [exact P| | | | |]; simpl;
    rewrite ?Hc1, ?Hb1, ?Hexp; try reflexivity.
  unfold reportable. simpl. rewrite Hx. reflexivity.
Qed.

Lemma healthy_test_recovery_time (env : Env) (c : nat) (b : BaselineMetrics)
    (rs : list (option Outcome)) (w : State) :
  target_healthy env -> healthy_progress c b rs w ->
  exists (t : Q) (w' : State),
    test_recovery_time env w = (Ok t, w') /\ healthy_progress c b rs w'.
Proof.
  intros H P. pose proof P as (Hc & _).
  assert (Hcur : cursor_opens env 0 w).
  { split; [now exists c|]. apply H. discriminate. }
  pose proof (test_recovery_time_runs env w Hcur) as Hrun. cbv zeta in Hrun.
  match type of Hrun with
  | forall a evs, recovery_loop _ _ _ ?w0 = _ -> _ =>
      destruct (recovery_loop_stops env max_attempts 0 w0)
        as (k & br & evs & E & _)
  end.
  rewrite (Hrun _ _ E). do 2 eexists. split; [reflexivity|exact P].
Qed.

Lemma healthy_connect (env : Env) (w : State) :
  target_healthy env ->
  connect env w
  = (Ok true,
     record_event (EvLog LogConnected)
       (set_conn (fresh (sessions w))
          (set_sessions ({[fresh (sessions w)]} ∪ sessions w)
             (record_event (EvDb (Connect None) None) w)))).
Proof.
  intros H. unfold connect, psycopg2_connect. run. healthy H. reflexivity.
Qed.

Lemma score_of_results (exps : list ChaosExperiment) (r : Outcome) :
  map result exps
  = [Some Completed; Some Completed; Some r; Some Completed] ->
  (score exps == match r with Completed => 100 | Failed => 75 end)%Q /\
  assessment (score exps)
  = match r with Completed => "EXCELLENT" | Failed => "GOOD" end.
Proof.
  intros H.
  destruct exps as [|e1 [|e2 [|e3 [|e4 [|e5 rest]]]]]; try discriminate.
  injection H as H1 H2 H3 H4.
  unfold score, completed_of. simpl. unfold has_result.
  rewrite H1, H2, H3, H4. destruct r; split; reflexivity.
Qed.

(** A phase of the suite on a healthy target, after its pause. *)
Ltac healthy_phase lem H :=
  rewrite bind_time_sleep; rewrite bind_call;
  match goal with
  | P : healthy_progress ?c ?b ?rs ?w |- _ =>
      let E := fresh "E" in
      let P' := fresh "P" in
      destruct (lem _ c b rs _ H (healthy_progress_event c b rs (EvSleep 2000) w P))
        as (? & ?w & E & P');
      rewrite E; clear E P
  end.

(** X15: on a target that answers every call, main returns with the four
    experiments reported.  All four are completed, the score is 100 and
    the assessment EXCELLENT, unless the two readings of the timer around
    the baseline query (the events 6 and 9 of the run) are equal: the
    baseline latency is then zero, the slow query experiment fails on the
    division by it, and the same healthy target is scored 75, GOOD. *)
Theorem healthy_target_assessment (env : Env) (ss : gset nat) :
  target_healthy env ->
  let w' := snd (main env ss) in
  let exps := experiments w' in
  let baseline_ms := ((timer env 9 - timer env 6) * 1000)%Q in
  fst (main env ss) = 0%Z /\
  (exists b : BaselineMetrics,
      baseline_metrics w' = Some b /\ query_latency_ms b = baseline_ms) /\
  (exists evs : list Event,
      trace w' = evs ++ [EvReportAssessment (score exps)
                           (assessment (score exps))]) /\
  if Qeq_bool baseline_ms 0
  then map result exps
       = [Some Completed; Some Completed; Some Failed; Some Completed] /\
       (score exps == 75)%Q /\ assessment (score exps) = "GOOD"
  else map result exps
       = [Some Completed; Some Completed; Some Completed; Some Completed] /\
       (score exps == 100)%Q /\ assessment (score exps) = "EXCELLENT".
Proof.
  intros H w' exps baseline_ms. subst w' exps baseline_ms.
  unfold main, run_chaos_suite, method.
  rewrite bind_call, (healthy_connect env _ H). cbn [negb]. cbv iota.
  rewrite bind_call.
  match goal with
  | |- context [setup env ?w0] =>
      rewrite (healthy_setup env w0 (fresh ss) H eq_refl)
  end.
  rewrite bind_call.
  match goal with
  | |- context [capture_baseline env ?w1] =>
      destruct (healthy_capture_baseline env w1 (fresh ss) H eq_refl)
        as (b & w2 & E & Hb & Hlat & Hc & He)
  end.
  rewrite E. clear E. simpl in Hlat, He.
  assert (P : healthy_progress (fresh ss) b [] w2).
  { split; [exact Hc|]. split; [exact Hb|]. rewrite He. split; reflexivity. }
  clear Hc He.
  healthy_phase healthy_inject_high_cpu_load H.
  healthy_phase healthy_inject_connection_saturation H.
  healthy_phase healthy_inject_slow_queries H.
  healthy_phase healthy_inject_random_failures H.
  healthy_phase healthy_test_recovery_time H.
  destruct P0 as (_ & Hb5 & Hrep & Hres).
  unfold call. rewrite (generate_report_prints w5 Hrep).
  cbn [fst snd exit_code experiments record_event trace baseline_metrics].
  split; [reflexivity|].
  split; [exists b; split; [exact Hb5|exact Hlat]|].
  split; [eexists; reflexivity|].
  rewrite Hlat in Hres. cbn [app] in Hres.
  destruct (Qeq_bool ((timer env 9 - timer env 6) * 1000) 0);
    (split; [exact Hres|exact (score_of_results _ _ Hres)]).
Qed.

Lemma target_healthy_env_healthy : target_healthy env_healthy.
Proof.
  intros k c Hc. destruct c as [t| |q| |]; try reflexivity.
  destruct q; try reflexivity. now contradiction Hc.
Defined.

Lemma healthy_target_assessment_witness :
  target_healthy env_healthy /\ fst (main env_healthy ∅) = 0%Z.
Proof.
  split; [exact target_healthy_env_healthy|].
  exact (proj1 (healthy_target_assessment env_healthy ∅
                  target_healthy_env_healthy)).
Defined.
